(** * CxxServer core: a shallow embedding of the TCP/TLS session, client,
      server and handler-memory code, with the properties of its
      specification stated and settled against it.

    Sources embedded here:
    - [core/memory.hxx]                 (HandlerMemory)
    - [source/core/tcp/tcp_session.cxx] (Tcp::Session)
    - [source/core/tcp/ssl_session.cxx] (SSL::Session::err)
    - [ssl_client.cxx]                  (SSL::Client::err)
    - [source/core/tcp/tcp_client.cxx]  (Tcp::Client, the revision with
                                         [sendAsync] and [isReady])
    - [source/core/tcp/tcp_server.cxx]  (Tcp::Server start/stop/restart)

    Conventions.
    - [size_t] and [uint64_t] values are integers in [Z]; every C++
      addition, subtraction and multiplication on them is wrapped
      explicitly with [wrap64].
    - [std::vector<uint8_t>] is [list byte]; [v.size()] is [vsize v].
    - Virtual hooks ([onConnect], [onErr], ...) have empty default bodies
      in the headers; a call is recorded as an [effect] in the trace and
      leaves the object untouched.
    - Asynchronous operations handed to asio ([async_read_some],
      [dispatch], [post], ...) are recorded as effects too; the completion
      handlers are separate functions run later by the reactor.
    - [assert] is kept: with [NDEBUG = false] a failing assertion aborts. *)

From Stdlib Require Import ZArith List Bool String Lia.
From Stdlib Require Import Init.Byte.
From stdpp Require Import base option list gmap sorting.
From Equations Require Import Equations.

Import ListNotations.
Local Open Scope Z_scope.

(** ** Machine integers *)

(** Arithmetic on [size_t] / [uint64_t] is modulo 2^64. *)
Definition wrap64 (z : Z) : Z := z mod 2 ^ 64.

Definition vsize (v : list byte) : Z := Z.of_nat (length v).

(** [v.empty()] *)
Definition empty (v : list byte) : bool :=
  match v with [] => true | _ :: _ => false end.

(** ** asio / std error codes *)

Module Asio.

(** [std::error_category] objects that the code can meet. *)
Inductive error_category :=
| system_category        (* asio::error::get_system_category() *)
| misc_category          (* asio::error::get_misc_category()   *)
| ssl_category           (* asio::error::get_ssl_category()    *)
| ssl_stream_category    (* asio::ssl::error::get_stream_category() *)
| other_category (name : string).

#[global] Instance error_category_eq_dec : EqDecision error_category.
Proof. solve_decision. Defined.

(** [category().name()].  The codes of [asio::error::basic_errors] carry
    asio's own system category, whose name is "asio.system" (not the
    "system" of [std::system_category()]). *)
Definition name (c : error_category) : string :=
  match c with
  | system_category => "asio.system"
  | misc_category => "asio.misc"
  | ssl_category => "asio.ssl"
  | ssl_stream_category => "asio.ssl.stream"
  | other_category n => n
  end.

Record error_code := mk_error_code { value : Z; category : error_category }.

#[global] Instance error_code_eq_dec : EqDecision error_code.
Proof. solve_decision. Defined.

(** [operator==(error_code, error_code)]: same category and same value. *)
Definition eqb (a b : error_code) : bool := bool_decide (a = b).

(** No error: value 0.  (The code never reports a success code, so the
    category of one is never named.) *)
Definition success : error_code := mk_error_code 0 system_category.

(** [static_cast<bool>(err)]: true iff the value is non-zero. *)
Definition is_error (e : error_code) : bool := negb (value e =? 0).

(** The text returned by [err.message()], i.e.
    [category().message(value())]; it is produced by the C library and
    OpenSSL and is kept symbolic. *)
Inductive error_message := message_of (c : error_category) (v : Z).

Definition message (e : error_code) : error_message :=
  message_of (category e) (value e).

(** [asio::error::basic_errors], with the Linux <errno.h> values (the
    README lists Linux as the supported platform). *)
Definition connection_aborted : error_code := mk_error_code 103 system_category.
Definition connection_reset   : error_code := mk_error_code 104 system_category.
Definition no_buffer_space    : error_code := mk_error_code 105 system_category.
Definition connection_refused : error_code := mk_error_code 111 system_category.
Definition operation_aborted  : error_code := mk_error_code 125 system_category.
Definition broken_pipe        : error_code := mk_error_code 32  system_category.
(** [asio::error::misc_errors] *)
Definition eof : error_code := mk_error_code 2 misc_category.
(** [asio::ssl::error::stream_errors] (OpenSSL >= 1.1) *)
Definition stream_truncated : error_code := mk_error_code 1 ssl_stream_category.

End Asio.

(** The part of <openssl/err.h> and <openssl/sslerr.h> that
    [SSL::Session::err] uses; OpenSSL is not part of the repository, so the
    macro and the three reason codes are parameters of the model. *)
Record OpenSSL := {
  ERR_GET_REASON : Z -> Z;
  SSL_R_DECRYPTION_FAILED_OR_BAD_RECORD_MAC : Z;
  SSL_R_PROTOCOL_IS_SHUTDOWN : Z;
  SSL_R_WRONG_VERSION_NUMBER : Z
}.

(** OpenSSL 1.1.1: [ERR_GET_REASON(l) = l & 0xFFF], reasons 281, 207, 267. *)
Definition openssl_1_1_1 : OpenSSL := {|
  ERR_GET_REASON := fun l => Z.land l 4095;
  SSL_R_DECRYPTION_FAILED_OR_BAD_RECORD_MAC := 281;
  SSL_R_PROTOCOL_IS_SHUTDOWN := 207;
  SSL_R_WRONG_VERSION_NUMBER := 267
|}.

(** ** Effects: hook calls and operations handed to the reactor *)

(** Which executor a handler is bound to: the strand when
    [_strand_needed], else the io service. *)
Inductive executor := Strand | Io.

Definition executor_of (strand_needed : bool) : executor :=
  if strand_needed then Strand else Io.

(** The closures the code hands to [dispatch] / [post]. *)
Inductive task :=
| TrySend              (* [this, self]() { trySend(); }           *)
| DisconnectHandler    (* the closure built in disconnect / disconnectAsync *)
| Unregister           (* _server->unregisterSession(id())        *)
| ConnectHandler       (* the closure posted by connectAsync      *)
| StartHandler         (* the closure posted by Server::start     *)
| StopHandler          (* the closure posted by Server::stop      *)
| DisconnectAll        (* the closure dispatched by disconnectAll *)
| AcceptHandler.       (* the closure dispatched by accept        *)

(** The options [Server::start] may set on its acceptor, and the
    acceptor's member functions its closure calls through the overloads
    that throw [asio::system_error]. *)
Inductive acceptor_option := ReuseAddress | ReusePort.

Inductive acceptor_call :=
| CallOpen
| CallSetOption (opt : acceptor_option)
| CallBind
| CallListen.

#[global] Instance acceptor_option_eq_dec : EqDecision acceptor_option.
Proof. solve_decision. Defined.
#[global] Instance acceptor_call_eq_dec : EqDecision acceptor_call.
Proof. solve_decision. Defined.

Inductive effect :=
(* user hooks *)
| OnConnect
| OnDisconnect
| OnReceive (data : list byte) (size : Z)
| OnSend (sent remaining : Z)
| OnEmpty
| OnErr (code : Z) (category : string) (msg : Asio.error_message)
| OnStart
| OnStop
| ServerOnConnect
| ServerOnDisconnect
(* socket and reactor operations *)
| SetOptions (keep_alive no_delay : bool)
| SocketClose
| SocketCancel
| AcceptorOpen
| AcceptorSetOption (opt : acceptor_option)
| AcceptorBind
| AcceptorListen
| AcceptorClose
| AsyncConnect (via : executor)
| AsyncReadSome (via : executor) (capacity : Z)
| AsyncWriteSome (via : executor) (bytes : list byte)
| Dispatch (via : executor) (t : task)
| Post (via : executor) (t : task).

#[global] Instance task_eq_dec : EqDecision task.
Proof. solve_decision. Defined.

(** How many times a hook satisfying [p] was called in a trace. *)
Definition count_effects (p : effect -> bool) (tr : list effect) : nat :=
  length (filter (fun e => p e = true) tr).

Definition is_OnConnect (e : effect) : bool :=
  match e with OnConnect => true | _ => false end.
Definition is_OnErr (e : effect) : bool :=
  match e with OnErr _ _ _ => true | _ => false end.
Definition is_AsyncReadSome (e : effect) : bool :=
  match e with AsyncReadSome _ _ => true | _ => false end.

(** ** A state / trace / abort monad for member functions

    [Returned]: the function returned.  [Aborted]: control left it
    otherwise, with the state and the effects up to there: a failed
    [assert], a dereferenced null pointer, or an exception that nothing in
    the function catches. *)

Inductive outcome (St A : Type) :=
| Returned (a : A) (s : St) (tr : list effect)
| Aborted (msg : string) (s : St) (tr : list effect).
Arguments Returned {St A} a s tr.
Arguments Aborted {St A} msg s tr.

Definition M (St A : Type) : Type := St -> outcome St A.

Definition ret {St A} (a : A) : M St A := fun s => Returned a s [].

Definition bind {St A B} (m : M St A) (f : A -> M St B) : M St B :=
  fun s =>
    match m s with
    | Returned a s1 t1 =>
        match f a s1 with
        | Returned b s2 t2 => Returned b s2 (t1 ++ t2)
        | Aborted msg s2 t2 => Aborted msg s2 (t1 ++ t2)
        end
    | Aborted msg s1 t1 => Aborted msg s1 t1
    end.

Definition get {St} : M St St := fun s => Returned s s [].
Definition modify {St} (f : St -> St) : M St unit := fun s => Returned tt (f s) [].
Definition emit {St} (e : effect) : M St unit := fun s => Returned tt s [e].

(** [assert(cond && msg)] from <cassert>. *)
Definition assert {St} (NDEBUG : bool) (cond : bool) (msg : string) : M St unit :=
  fun s => if NDEBUG || cond then Returned tt s [] else Aborted msg s [].

Declare Scope cxx_scope.
Delimit Scope cxx_scope with cxx.
Notation "x <- m ;; k" := (bind m (fun x => k))
  (at level 100, m at next level, right associativity) : cxx_scope.
Notation "m ;; k" := (bind m (fun _ => k))
  (at level 100, right associativity) : cxx_scope.
Local Open Scope cxx_scope.

Definition trace_of {St A} (o : outcome St A) : list effect :=
  match o with Returned _ _ tr | Aborted _ _ tr => tr end.
Definition state_of {St A} (o : outcome St A) : St :=
  match o with Returned _ s _ | Aborted _ s _ => s end.
Definition value_of {St A} (o : outcome St A) : option A :=
  match o with Returned a _ _ => Some a | Aborted _ _ _ => None end.

(** ** core/memory.hxx: HandlerMemory<S> *)

Module HandlerMemory.

(** Pointers seen by [alloc] / [free]: the address of this object's
    [_fast_storage], a block of the general heap, or [nullptr]. *)
Inductive pointer :=
| fast_storage
| heap_block (addr : positive)
| nullptr.

#[global] Instance pointer_eq_dec : EqDecision pointer.
Proof. solve_decision. Defined.

(** The general heap: live blocks and their requested sizes. *)
Definition heap := gmap positive Z.

(** [std::malloc(size)]: the C library picks the block, or fails;
    [pick] is that choice. *)
Definition std_malloc (pick : option positive) (size : Z) (h : heap)
  : pointer * heap :=
  match pick with
  | Some a => (heap_block a, <[a := size]> h)
  | None => (nullptr, h)
  end.

(** [std::free(ptr)]; freeing [nullptr] does nothing. *)
Definition std_free (p : pointer) (h : heap) : heap :=
  match p with
  | heap_block a => delete a h
  | _ => h
  end.

Record t := mk { _used : bool }.

(** [HandlerMemory() noexcept : _used(false) {}] *)
Definition init : t := mk false.

Section Slab.
(** The template parameter [S] (default 1024). *)
Variable S : Z.

Definition alloc (pick : option positive) (size : Z) (m : t) (h : heap)
  : pointer * t * heap :=
  if negb (_used m) && (size <? S) then
    (fast_storage, mk true, h)
  else
    let '(p, h') := std_malloc pick size h in (p, m, h').

Definition free (ptr : pointer) (m : t) (h : heap) : t * heap :=
  if bool_decide (ptr = fast_storage) then
    (mk false, h)
  else
    (m, std_free ptr h).
End Slab.

End HandlerMemory.

(** A buffer argument [(const void *buffer, size_t size)]: the pointer is
    either [nullptr] or points at readable memory holding [bytes]. *)
Inductive buffer :=
| null_buffer
| buffer_at (bytes : list byte).

Definition is_null (b : buffer) : bool :=
  match b with null_buffer => true | buffer_at _ => false end.

(** The memory behind a non-null pointer. *)
Definition pointee (b : buffer) : list byte :=
  match b with null_buffer => [] | buffer_at bytes => bytes end.

(** The range [bytes, bytes + size). *)
Definition range (bytes : list byte) (size : Z) : list byte :=
  take (Z.to_nat size) bytes.

(** The five disconnect codes tested by the plain [err] routines. *)
Definition disconnect_error (e : Asio.error_code) : bool :=
  Asio.eqb e Asio.connection_aborted || Asio.eqb e Asio.connection_refused
  || Asio.eqb e Asio.connection_reset || Asio.eqb e Asio.eof
  || Asio.eqb e Asio.operation_aborted.

(** ** source/core/tcp/tcp_session.cxx: Tcp::Session

    This revision of the file spells two hooks [onReceived] and [onError];
    tcp_session.hxx declares them [onReceive] and [onErr], the names used
    for the effects. *)

Module Session.

(** The members of the owning [Tcp::Server] that a Session reaches
    through [_server]. *)
Record server_ref := mk_server_ref {
  srv_strand_needed : bool;
  srv_keep_alive : bool;
  srv_no_delay : bool;
  srv_bytes_sent : Z;
  srv_bytes_received : Z
}.

Record t := mk {
  _server : server_ref;
  _strand_needed : bool;
  _connected : bool;
  _bytes_pending : Z;
  _bytes_sending : Z;
  _bytes_sent : Z;
  _bytes_received : Z;
  _receiving : bool;
  _receive_limit : Z;
  _receive_buff : list byte;
  _sending : bool;
  _send_limit : Z;
  _send_buff_main : list byte;
  _send_buff_flush : list byte;
  _send_flush_offset : Z
}.

Definition set_server (x : server_ref) (s : t) : t :=
  mk x (_strand_needed s) (_connected s) (_bytes_pending s)
    (_bytes_sending s) (_bytes_sent s) (_bytes_received s) (_receiving s)
    (_receive_limit s) (_receive_buff s) (_sending s) (_send_limit s)
    (_send_buff_main s) (_send_buff_flush s) (_send_flush_offset s).
Arguments set_server _ _ /.
Definition set_connected (x : bool) (s : t) : t :=
  mk (_server s) (_strand_needed s) x (_bytes_pending s)
    (_bytes_sending s) (_bytes_sent s) (_bytes_received s) (_receiving s)
    (_receive_limit s) (_receive_buff s) (_sending s) (_send_limit s)
    (_send_buff_main s) (_send_buff_flush s) (_send_flush_offset s).
Arguments set_connected _ _ /.
Definition set_bytes_pending (x : Z) (s : t) : t :=
  mk (_server s) (_strand_needed s) (_connected s) x (_bytes_sending s)
    (_bytes_sent s) (_bytes_received s) (_receiving s) (_receive_limit s)
    (_receive_buff s) (_sending s) (_send_limit s) (_send_buff_main s)
    (_send_buff_flush s) (_send_flush_offset s).
Arguments set_bytes_pending _ _ /.
Definition set_bytes_sending (x : Z) (s : t) : t :=
  mk (_server s) (_strand_needed s) (_connected s) (_bytes_pending s) x
    (_bytes_sent s) (_bytes_received s) (_receiving s) (_receive_limit s)
    (_receive_buff s) (_sending s) (_send_limit s) (_send_buff_main s)
    (_send_buff_flush s) (_send_flush_offset s).
Arguments set_bytes_sending _ _ /.
Definition set_bytes_sent (x : Z) (s : t) : t :=
  mk (_server s) (_strand_needed s) (_connected s) (_bytes_pending s)
    (_bytes_sending s) x (_bytes_received s) (_receiving s)
    (_receive_limit s) (_receive_buff s) (_sending s) (_send_limit s)
    (_send_buff_main s) (_send_buff_flush s) (_send_flush_offset s).
Arguments set_bytes_sent _ _ /.
Definition set_bytes_received (x : Z) (s : t) : t :=
  mk (_server s) (_strand_needed s) (_connected s) (_bytes_pending s)
    (_bytes_sending s) (_bytes_sent s) x (_receiving s) (_receive_limit s)
    (_receive_buff s) (_sending s) (_send_limit s) (_send_buff_main s)
    (_send_buff_flush s) (_send_flush_offset s).
Arguments set_bytes_received _ _ /.
Definition set_receiving (x : bool) (s : t) : t :=
  mk (_server s) (_strand_needed s) (_connected s) (_bytes_pending s)
    (_bytes_sending s) (_bytes_sent s) (_bytes_received s) x
    (_receive_limit s) (_receive_buff s) (_sending s) (_send_limit s)
    (_send_buff_main s) (_send_buff_flush s) (_send_flush_offset s).
Arguments set_receiving _ _ /.
Definition set_receive_limit (x : Z) (s : t) : t :=
  mk (_server s) (_strand_needed s) (_connected s) (_bytes_pending s)
    (_bytes_sending s) (_bytes_sent s) (_bytes_received s) (_receiving s)
    x (_receive_buff s) (_sending s) (_send_limit s) (_send_buff_main s)
    (_send_buff_flush s) (_send_flush_offset s).
Arguments set_receive_limit _ _ /.
Definition set_receive_buff (x : list byte) (s : t) : t :=
  mk (_server s) (_strand_needed s) (_connected s) (_bytes_pending s)
    (_bytes_sending s) (_bytes_sent s) (_bytes_received s) (_receiving s)
    (_receive_limit s) x (_sending s) (_send_limit s) (_send_buff_main s)
    (_send_buff_flush s) (_send_flush_offset s).
Arguments set_receive_buff _ _ /.
Definition set_sending (x : bool) (s : t) : t :=
  mk (_server s) (_strand_needed s) (_connected s) (_bytes_pending s)
    (_bytes_sending s) (_bytes_sent s) (_bytes_received s) (_receiving s)
    (_receive_limit s) (_receive_buff s) x (_send_limit s)
    (_send_buff_main s) (_send_buff_flush s) (_send_flush_offset s).
Arguments set_sending _ _ /.
Definition set_send_limit (x : Z) (s : t) : t :=
  mk (_server s) (_strand_needed s) (_connected s) (_bytes_pending s)
    (_bytes_sending s) (_bytes_sent s) (_bytes_received s) (_receiving s)
    (_receive_limit s) (_receive_buff s) (_sending s) x
    (_send_buff_main s) (_send_buff_flush s) (_send_flush_offset s).
Arguments set_send_limit _ _ /.
Definition set_send_buff_main (x : list byte) (s : t) : t :=
  mk (_server s) (_strand_needed s) (_connected s) (_bytes_pending s)
    (_bytes_sending s) (_bytes_sent s) (_bytes_received s) (_receiving s)
    (_receive_limit s) (_receive_buff s) (_sending s) (_send_limit s) x
    (_send_buff_flush s) (_send_flush_offset s).
Arguments set_send_buff_main _ _ /.
Definition set_send_buff_flush (x : list byte) (s : t) : t :=
  mk (_server s) (_strand_needed s) (_connected s) (_bytes_pending s)
    (_bytes_sending s) (_bytes_sent s) (_bytes_received s) (_receiving s)
    (_receive_limit s) (_receive_buff s) (_sending s) (_send_limit s)
    (_send_buff_main s) x (_send_flush_offset s).
Arguments set_send_buff_flush _ _ /.
Definition set_send_flush_offset (x : Z) (s : t) : t :=
  mk (_server s) (_strand_needed s) (_connected s) (_bytes_pending s)
    (_bytes_sending s) (_bytes_sent s) (_bytes_received s) (_receiving s)
    (_receive_limit s) (_receive_buff s) (_sending s) (_send_limit s)
    (_send_buff_main s) (_send_buff_flush s) x.
Arguments set_send_flush_offset _ _ /.

(** [Session::Session(server)]: the member initialisers. *)
Definition init (server : server_ref) : t :=
  mk server (srv_strand_needed server) false 0 0 0 0 false 0 [] false 0 [] [] 0.

Definition isConnected (s : t) : bool := _connected s.

Definition add_server_sent (n : Z) (r : server_ref) : server_ref :=
  mk_server_ref (srv_strand_needed r) (srv_keep_alive r) (srv_no_delay r)
    (wrap64 (srv_bytes_sent r + n)) (srv_bytes_received r).

Definition add_server_received (n : Z) (r : server_ref) : server_ref :=
  mk_server_ref (srv_strand_needed r) (srv_keep_alive r) (srv_no_delay r)
    (srv_bytes_sent r) (wrap64 (srv_bytes_received r + n)).

(** [setReceiveBuffLimit] / [setSendBuffLimit] (tcp_session.hxx) *)
Definition setReceiveBuffLimit (limit : Z) : M t unit :=
  modify (set_receive_limit limit).
Definition setSendBuffLimit (limit : Z) : M t unit :=
  modify (set_send_limit limit).

(** [Session::err] *)
Definition err (e : Asio.error_code) : M t unit :=
  if disconnect_error e then ret tt
  else emit (OnErr (Asio.value e) (Asio.name (Asio.category e)) (Asio.message e)).

(** [Session::clearBuffs] (runs under [_send_lock]) *)
Definition clearBuffs : M t unit :=
  modify (set_send_buff_main []);;
  modify (set_send_buff_flush []);;
  modify (fun s =>
    set_send_flush_offset 0 (set_bytes_pending 0 (set_bytes_sending 0 s))).

(** [Session::disconnect(bool dispatch)]: only schedules the closure. *)
Definition disconnect (dispatch : bool) : M t bool :=
  s <- get;;
  if negb (isConnected s) then ret false
  else
    (if dispatch
     then emit (Dispatch (executor_of (_strand_needed s)) DisconnectHandler)
     else emit (Post (executor_of (_strand_needed s)) DisconnectHandler));;
    ret true.

(** The closure [handler] built by [disconnect]. *)
Definition disconnect_handler : M t unit :=
  s <- get;;
  if negb (isConnected s) then ret tt
  else
    emit SocketClose;;
    modify (fun s => set_connected false (set_receiving false (set_sending false s)));;
    clearBuffs;;
    emit OnDisconnect;;
    emit ServerOnDisconnect;;
    s <- get;;
    emit (Dispatch (executor_of (srv_strand_needed (_server s))) Unregister).

(** [Session::tryReceive] *)
Definition tryReceive : M t unit :=
  s <- get;;
  if _receiving s || negb (isConnected s) then ret tt
  else
    modify (set_receiving true);;
    s <- get;;
    emit (AsyncReadSome (executor_of (_strand_needed s)) (vsize (_receive_buff s))).

(** The completion handler that [tryReceive] passes to [async_read_some]. *)
Definition tryReceive_handler (e : Asio.error_code) (size : Z) : M t unit :=
  modify (set_receiving false);;
  s <- get;;
  if negb (isConnected s) then ret tt
  else
    let rearm : M t unit :=
      if negb (Asio.is_error e) then tryReceive
      else (err e;; _ <- disconnect true;; ret tt) in
    if size >? 0 then
      modify (fun s => set_bytes_received (wrap64 (_bytes_received s + size)) s);;
      modify (fun s => set_server (add_server_received size (_server s)) s);;
      s <- get;;
      emit (OnReceive (range (_receive_buff s) size) size);;
      s <- get;;
      if vsize (_receive_buff s) =? size then
        if (wrap64 (size * 2) >? _receive_limit s) && (_receive_limit s >? 0) then
          err Asio.no_buffer_space;;
          _ <- disconnect true;;
          ret tt
        else
          modify (fun s => set_receive_buff
                   (resize (Z.to_nat (wrap64 (size * 2))) x00 (_receive_buff s)) s);;
          rearm
      else rearm
    else rearm.

(** [Session::connect]; [so_rcvbuf] is what [receiveBufferSize()] reads
    from the socket ([reserve] does not change a vector's contents). *)
Definition connect (so_rcvbuf : Z) : M t unit :=
  s <- get;;
  emit (SetOptions (srv_keep_alive (_server s)) (srv_no_delay (_server s)));;
  modify (fun s => set_receive_buff (resize (Z.to_nat so_rcvbuf) x00 (_receive_buff s)) s);;
  modify (fun s => set_bytes_sending 0 (set_bytes_sent 0
                     (set_bytes_pending 0 (set_bytes_received 0 s))));;
  modify (set_connected true);;
  tryReceive;;
  emit OnConnect;;
  emit ServerOnConnect;;
  s <- get;;
  if empty (_send_buff_main s) then emit OnEmpty else ret tt.

(** [Session::sendAsync] *)
Definition sendAsync (NDEBUG : bool) (buf : buffer) (size : Z) : M t bool :=
  s <- get;;
  if negb (isConnected s) then ret false
  else if size =? 0 then ret true
  else
    assert NDEBUG (negb (is_null buf)) "Pointer to send must not be null";;
    if is_null buf then ret false
    else
      (* std::scoped_lock locker(_send_lock) *)
      let multiple_sends :=
        empty (_send_buff_main s) || empty (_send_buff_flush s) in
      if (wrap64 (vsize (_send_buff_main s) + size) >? _send_limit s)
         && (_send_limit s >? 0)
      then
        err Asio.no_buffer_space;;
        ret false
      else
        let bytes := pointee buf in
        modify (fun s => set_send_buff_main (_send_buff_main s ++ range bytes size) s);;
        modify (fun s => set_bytes_pending (vsize (_send_buff_main s)) s);;
        if negb multiple_sends then ret true
        else
          emit (Dispatch (executor_of (_strand_needed s)) TrySend);;
          ret true.

(** [Session::trySend] *)
Definition trySend : M t unit :=
  s <- get;;
  if _sending s || negb (isConnected s) then ret tt
  else
    (if empty (_send_buff_flush s) then
       (* std::scoped_lock locker(_send_lock) *)
       modify (fun s => set_send_buff_flush (_send_buff_main s)
                          (set_send_buff_main (_send_buff_flush s) s));;
       modify (set_send_flush_offset 0);;
       modify (set_bytes_pending 0);;
       modify (fun s => set_bytes_sending
                          (wrap64 (_bytes_sending s + vsize (_send_buff_flush s))) s)
     else ret tt);;
    s <- get;;
    if empty (_send_buff_flush s) then emit OnEmpty
    else
      modify (set_sending true);;
      emit (AsyncWriteSome (executor_of (_strand_needed s))
              (range (drop (Z.to_nat (_send_flush_offset s)) (_send_buff_flush s))
                     (wrap64 (vsize (_send_buff_flush s) - _send_flush_offset s)))).

(** The completion handler that [trySend] passes to [async_write_some]. *)
Definition trySend_handler (e : Asio.error_code) (size : Z) : M t unit :=
  modify (set_sending false);;
  s <- get;;
  if negb (isConnected s) then ret tt
  else
    (if size >? 0 then
       modify (fun s => set_bytes_sending (wrap64 (_bytes_sending s - size)) s);;
       modify (fun s => set_bytes_sent (wrap64 (_bytes_sent s + size)) s);;
       modify (fun s => set_server (add_server_sent size (_server s)) s);;
       modify (fun s => set_send_flush_offset (wrap64 (_send_flush_offset s + size)) s);;
       s <- get;;
       (if _send_flush_offset s =? vsize (_send_buff_flush s) then
          modify (set_send_buff_flush []);;
          modify (set_send_flush_offset 0)
        else ret tt);;
       s <- get;;
       emit (OnSend size (_bytes_pending s))
     else ret tt);;
    if negb (Asio.is_error e) then trySend
    else (err e;; _ <- disconnect true;; ret tt).

(** [Session::receiveAsync] *)
Definition receiveAsync : M t unit := tryReceive.

End Session.

(** ** source/core/tcp/tcp_client.cxx: Tcp::Client *)

Module Client.

Record t := mk {
  _strand_needed : bool;
  _connecting : bool;
  _connected : bool;
  _bytes_pending : Z;
  _bytes_sending : Z;
  _bytes_sent : Z;
  _bytes_received : Z;
  _receiving : bool;
  _receive_buff_limit : Z;
  _receive_buff : list byte;
  _sending : bool;
  _send_buff_limit : Z;
  _send_buff_main : list byte;
  _send_buff_flush : list byte;
  _send_flush_offset : Z;
  _keep_alive : bool;
  _no_delay : bool
}.

Definition set_connecting (x : bool) (s : t) : t :=
  mk (_strand_needed s) x (_connected s) (_bytes_pending s)
    (_bytes_sending s) (_bytes_sent s) (_bytes_received s) (_receiving s)
    (_receive_buff_limit s) (_receive_buff s) (_sending s)
    (_send_buff_limit s) (_send_buff_main s) (_send_buff_flush s)
    (_send_flush_offset s) (_keep_alive s) (_no_delay s).
Arguments set_connecting _ _ /.
Definition set_connected (x : bool) (s : t) : t :=
  mk (_strand_needed s) (_connecting s) x (_bytes_pending s)
    (_bytes_sending s) (_bytes_sent s) (_bytes_received s) (_receiving s)
    (_receive_buff_limit s) (_receive_buff s) (_sending s)
    (_send_buff_limit s) (_send_buff_main s) (_send_buff_flush s)
    (_send_flush_offset s) (_keep_alive s) (_no_delay s).
Arguments set_connected _ _ /.
Definition set_bytes_pending (x : Z) (s : t) : t :=
  mk (_strand_needed s) (_connecting s) (_connected s) x
    (_bytes_sending s) (_bytes_sent s) (_bytes_received s) (_receiving s)
    (_receive_buff_limit s) (_receive_buff s) (_sending s)
    (_send_buff_limit s) (_send_buff_main s) (_send_buff_flush s)
    (_send_flush_offset s) (_keep_alive s) (_no_delay s).
Arguments set_bytes_pending _ _ /.
Definition set_bytes_sending (x : Z) (s : t) : t :=
  mk (_strand_needed s) (_connecting s) (_connected s) (_bytes_pending s)
    x (_bytes_sent s) (_bytes_received s) (_receiving s)
    (_receive_buff_limit s) (_receive_buff s) (_sending s)
    (_send_buff_limit s) (_send_buff_main s) (_send_buff_flush s)
    (_send_flush_offset s) (_keep_alive s) (_no_delay s).
Arguments set_bytes_sending _ _ /.
Definition set_bytes_sent (x : Z) (s : t) : t :=
  mk (_strand_needed s) (_connecting s) (_connected s) (_bytes_pending s)
    (_bytes_sending s) x (_bytes_received s) (_receiving s)
    (_receive_buff_limit s) (_receive_buff s) (_sending s)
    (_send_buff_limit s) (_send_buff_main s) (_send_buff_flush s)
    (_send_flush_offset s) (_keep_alive s) (_no_delay s).
Arguments set_bytes_sent _ _ /.
Definition set_bytes_received (x : Z) (s : t) : t :=
  mk (_strand_needed s) (_connecting s) (_connected s) (_bytes_pending s)
    (_bytes_sending s) (_bytes_sent s) x (_receiving s)
    (_receive_buff_limit s) (_receive_buff s) (_sending s)
    (_send_buff_limit s) (_send_buff_main s) (_send_buff_flush s)
    (_send_flush_offset s) (_keep_alive s) (_no_delay s).
Arguments set_bytes_received _ _ /.
Definition set_receiving (x : bool) (s : t) : t :=
  mk (_strand_needed s) (_connecting s) (_connected s) (_bytes_pending s)
    (_bytes_sending s) (_bytes_sent s) (_bytes_received s) x
    (_receive_buff_limit s) (_receive_buff s) (_sending s)
    (_send_buff_limit s) (_send_buff_main s) (_send_buff_flush s)
    (_send_flush_offset s) (_keep_alive s) (_no_delay s).
Arguments set_receiving _ _ /.
Definition set_receive_buff_limit (x : Z) (s : t) : t :=
  mk (_strand_needed s) (_connecting s) (_connected s) (_bytes_pending s)
    (_bytes_sending s) (_bytes_sent s) (_bytes_received s) (_receiving s)
    x (_receive_buff s) (_sending s) (_send_buff_limit s)
    (_send_buff_main s) (_send_buff_flush s) (_send_flush_offset s)
    (_keep_alive s) (_no_delay s).
Arguments set_receive_buff_limit _ _ /.
Definition set_receive_buff (x : list byte) (s : t) : t :=
  mk (_strand_needed s) (_connecting s) (_connected s) (_bytes_pending s)
    (_bytes_sending s) (_bytes_sent s) (_bytes_received s) (_receiving s)
    (_receive_buff_limit s) x (_sending s) (_send_buff_limit s)
    (_send_buff_main s) (_send_buff_flush s) (_send_flush_offset s)
    (_keep_alive s) (_no_delay s).
Arguments set_receive_buff _ _ /.
Definition set_sending (x : bool) (s : t) : t :=
  mk (_strand_needed s) (_connecting s) (_connected s) (_bytes_pending s)
    (_bytes_sending s) (_bytes_sent s) (_bytes_received s) (_receiving s)
    (_receive_buff_limit s) (_receive_buff s) x (_send_buff_limit s)
    (_send_buff_main s) (_send_buff_flush s) (_send_flush_offset s)
    (_keep_alive s) (_no_delay s).
Arguments set_sending _ _ /.
Definition set_send_buff_limit (x : Z) (s : t) : t :=
  mk (_strand_needed s) (_connecting s) (_connected s) (_bytes_pending s)
    (_bytes_sending s) (_bytes_sent s) (_bytes_received s) (_receiving s)
    (_receive_buff_limit s) (_receive_buff s) (_sending s) x
    (_send_buff_main s) (_send_buff_flush s) (_send_flush_offset s)
    (_keep_alive s) (_no_delay s).
Arguments set_send_buff_limit _ _ /.
Definition set_send_buff_main (x : list byte) (s : t) : t :=
  mk (_strand_needed s) (_connecting s) (_connected s) (_bytes_pending s)
    (_bytes_sending s) (_bytes_sent s) (_bytes_received s) (_receiving s)
    (_receive_buff_limit s) (_receive_buff s) (_sending s)
    (_send_buff_limit s) x (_send_buff_flush s) (_send_flush_offset s)
    (_keep_alive s) (_no_delay s).
Arguments set_send_buff_main _ _ /.
Definition set_send_buff_flush (x : list byte) (s : t) : t :=
  mk (_strand_needed s) (_connecting s) (_connected s) (_bytes_pending s)
    (_bytes_sending s) (_bytes_sent s) (_bytes_received s) (_receiving s)
    (_receive_buff_limit s) (_receive_buff s) (_sending s)
    (_send_buff_limit s) (_send_buff_main s) x (_send_flush_offset s)
    (_keep_alive s) (_no_delay s).
Arguments set_send_buff_flush _ _ /.
Definition set_send_flush_offset (x : Z) (s : t) : t :=
  mk (_strand_needed s) (_connecting s) (_connected s) (_bytes_pending s)
    (_bytes_sending s) (_bytes_sent s) (_bytes_received s) (_receiving s)
    (_receive_buff_limit s) (_receive_buff s) (_sending s)
    (_send_buff_limit s) (_send_buff_main s) (_send_buff_flush s) x
    (_keep_alive s) (_no_delay s).
Arguments set_send_flush_offset _ _ /.

(** [Client::Client(service, addr, port)]: the member initialisers;
    [strand_needed] is [_service->isStrandNeeded()]. *)
Definition init (strand_needed : bool) : t :=
  mk strand_needed false false 0 0 0 0 false 0 [] false 0 [] [] 0 false false.

Definition isConnected (c : t) : bool := _connected c.

(** Modelled from the spec: [Tcp::Client::isReady] is called by
    tcp_client.cxx but declared in a revision of tcp_client.hxx that is
    not among the sources (the TLS override in ssl_client.hxx is
    [isConnected() && hasHandshaked()]).  The spec: "A client is ready
    when connected (and, for TLS, also handshaked)". *)
Definition isReady (c : t) : bool := isConnected c.

(** [Client::err] *)
Definition err (e : Asio.error_code) : M t unit :=
  if disconnect_error e then ret tt
  else emit (OnErr (Asio.value e) (Asio.name (Asio.category e)) (Asio.message e)).

(** [Client::clearBuffs] (runs under [_send_lock]) *)
Definition clearBuffs : M t unit :=
  modify (set_send_buff_main []);;
  modify (set_send_buff_flush []);;
  modify (fun c =>
    set_bytes_sending 0 (set_bytes_pending 0 (set_send_flush_offset 0 c))).

(** [Client::asyncWriteSome] / [Client::asyncReadSome] *)
Definition asyncWriteSome (bytes : list byte) (size : Z) : M t unit :=
  c <- get;;
  emit (AsyncWriteSome (executor_of (_strand_needed c)) (range bytes size)).

Definition asyncReadSome (size : Z) : M t unit :=
  c <- get;;
  emit (AsyncReadSome (executor_of (_strand_needed c)) size).

(** [Client::disconnect] *)
Definition disconnect : M t bool :=
  c <- get;;
  if negb (isConnected c) then ret false
  else
    emit SocketClose;;
    modify (set_connecting false);;
    modify (set_connected false);;
    modify (set_receiving false);;
    modify (set_sending false);;
    clearBuffs;;
    emit OnDisconnect;;
    ret true.

(** [Client::disconnectAsync(bool dispatch)]; the scheduled closure is
    [disconnect_handler]. *)
Definition disconnectAsync (dispatch : bool) : M t bool :=
  c <- get;;
  if negb (isConnected c) || _connecting c then ret false
  else
    emit SocketCancel;;
    (if dispatch
     then emit (Dispatch (executor_of (_strand_needed c)) DisconnectHandler)
     else emit (Post (executor_of (_strand_needed c)) DisconnectHandler));;
    ret true.

Definition disconnect_handler : M t unit :=
  _ <- disconnect;; ret tt.

(** [Client::tryReceive] *)
Definition tryReceive : M t unit :=
  c <- get;;
  if _receiving c || negb (isReady c) then ret tt
  else
    modify (set_receiving true);;
    c <- get;;
    asyncReadSome (vsize (_receive_buff c)).

(** The completion handler that [tryReceive] passes to [asyncReadSome]. *)
Definition tryReceive_handler (e : Asio.error_code) (size : Z) : M t unit :=
  modify (set_receiving false);;
  c <- get;;
  if negb (isReady c) then ret tt
  else
    let rearm : M t unit :=
      if negb (Asio.is_error e) then tryReceive
      else (err e;; _ <- disconnectAsync true;; ret tt) in
    if size >? 0 then
      modify (fun c => set_bytes_received (wrap64 (_bytes_received c + size)) c);;
      c <- get;;
      emit (OnReceive (range (_receive_buff c) size) size);;
      c <- get;;
      if vsize (_receive_buff c) =? size then
        if (wrap64 (size * 2) >? _receive_buff_limit c)
           && (_receive_buff_limit c >? 0)
        then
          err Asio.no_buffer_space;;
          _ <- disconnectAsync true;;
          ret tt
        else
          modify (fun c => set_receive_buff
                   (resize (Z.to_nat (wrap64 (2 * size))) x00 (_receive_buff c)) c);;
          rearm
      else rearm
    else rearm.

(** [Client::connect]; [connect_result] is the code that
    [socket().connect] stores in [err], [so_rcvbuf] what
    [receiveBuffSize()] reads from the socket. *)
Definition connect (connect_result : Asio.error_code) (so_rcvbuf : Z) : M t bool :=
  c <- get;;
  if isConnected c then ret false
  else if Asio.is_error connect_result then
    err connect_result;;
    emit OnDisconnect;;
    ret false
  else
    emit (SetOptions (_keep_alive c) (_no_delay c));;
    modify (fun c => set_receive_buff (resize (Z.to_nat so_rcvbuf) x00 (_receive_buff c)) c);;
    modify (fun c => set_bytes_pending 0 (set_bytes_sending 0
                       (set_bytes_received 0 (set_bytes_sent 0 c))));;
    modify (set_connected true);;
    emit OnConnect;;
    c <- get;;
    (if empty (_send_buff_main c) then emit OnEmpty else ret tt);;
    ret true.

(** [Client::connectAsync]: posts [connect_handler]. *)
Definition connectAsync : M t bool :=
  c <- get;;
  if isConnected c || _connecting c then ret false
  else
    emit (Post (executor_of (_strand_needed c)) ConnectHandler);;
    ret true.

(** The closure [handler] posted by [connectAsync]. *)
Definition connect_handler : M t unit :=
  c <- get;;
  if isConnected c || _connecting c then ret tt
  else
    modify (set_connecting true);;
    emit (AsyncConnect (executor_of (_strand_needed c))).

(** The closure [connected_handler] passed to [async_connect]. *)
Definition connected_handler (e : Asio.error_code) (so_rcvbuf : Z) : M t unit :=
  modify (set_connecting false);;
  c <- get;;
  if isConnected c || _connecting c then ret tt
  else if negb (Asio.is_error e) then
    emit (SetOptions (_keep_alive c) (_no_delay c));;
    modify (fun c => set_receive_buff (resize (Z.to_nat so_rcvbuf) x00 (_receive_buff c)) c);;
    modify (fun c => set_bytes_pending 0 (set_bytes_sending 0
                       (set_bytes_received 0 (set_bytes_sent 0 c))));;
    modify (set_connected true);;
    emit OnConnect;;
    tryReceive;;
    emit OnConnect;;
    c <- get;;
    if empty (_send_buff_main c) then emit OnEmpty else ret tt
  else
    err e;;
    emit OnDisconnect.

(** [Client::sendAsync] *)
Definition sendAsync (NDEBUG : bool) (buf : buffer) (size : Z) : M t bool :=
  assert NDEBUG (negb (is_null buf)) "Pointer to buffer should not be null";;
  c <- get;;
  if negb (isReady c) || (size =? 0) || is_null buf then ret false
  else
    (* std::scoped_lock lock(_send_lock) *)
    if (wrap64 (vsize (_send_buff_main c) + size) >? _send_buff_limit c)
       && (_send_buff_limit c >? 0)
    then
      err Asio.no_buffer_space;;
      ret false
    else
      let multiple_send_required :=
        empty (_send_buff_main c) || empty (_send_buff_flush c) in
      let buff8 := pointee buf in
      modify (fun c => set_send_buff_main (_send_buff_main c ++ range buff8 size) c);;
      modify (fun c => set_bytes_pending (vsize (_send_buff_main c)) c);;
      if negb multiple_send_required then ret true
      else
        emit (Dispatch (executor_of (_strand_needed c)) TrySend);;
        ret true.

(** [Client::trySend] *)
Definition trySend : M t unit :=
  c <- get;;
  if _sending c || negb (isReady c) then ret tt
  else
    (if empty (_send_buff_flush c) then
       (* std::scoped_lock lock(_send_lock) *)
       modify (fun c => set_send_buff_flush (_send_buff_main c)
                          (set_send_buff_main (_send_buff_flush c) c));;
       modify (set_send_flush_offset 0);;
       modify (set_bytes_pending 0);;
       modify (fun c => set_bytes_sending
                          (wrap64 (_bytes_sending c + vsize (_send_buff_flush c))) c)
     else ret tt);;
    c <- get;;
    if empty (_send_buff_flush c) then emit OnEmpty
    else
      modify (set_sending true);;
      asyncWriteSome (_send_buff_flush c) (vsize (_send_buff_flush c)).

(** The completion handler that [trySend] passes to [asyncWriteSome]. *)
Definition trySend_handler (e : Asio.error_code) (size : Z) : M t unit :=
  modify (set_sending false);;
  c <- get;;
  if negb (isReady c) then ret tt
  else
    (if size >? 0 then
       modify (fun c => set_bytes_sending (wrap64 (_bytes_sending c - size)) c);;
       modify (fun c => set_bytes_sent (wrap64 (_bytes_sent c + size)) c);;
       modify (fun c => set_send_flush_offset (wrap64 (_send_flush_offset c + size)) c);;
       c <- get;;
       (if _send_flush_offset c =? vsize (_send_buff_flush c) then
          modify (set_send_buff_flush []);;
          modify (set_send_flush_offset 0)
        else ret tt);;
       c <- get;;
       emit (OnSend size (_bytes_pending c))
     else ret tt);;
    if negb (Asio.is_error e) then trySend
    else (err e;; _ <- disconnectAsync true;; ret tt).

(** [Client::receiveAsync] *)
Definition receiveAsync : M t unit := tryReceive.

(** [Client::reconnect]; the arguments are those of [connect]. *)
Definition reconnect (connect_result : Asio.error_code) (so_rcvbuf : Z) : M t bool :=
  disconnected <- disconnect;;
  if negb disconnected then ret false
  else connect connect_result so_rcvbuf.

End Client.

(** ** source/core/tcp/ssl_session.cxx: SSL::Session *)

Module SslSession.

(** [SSL::Session] derives from [Tcp::Session] and adds the TLS stream
    state. *)
Record t := mk {
  base : Session.t;
  _handshaked : bool
}.

Section WithOpenSSL.
Variable ssl : OpenSSL.

(** [SSL::Session::err] *)
Definition err (e : Asio.error_code) : M t unit :=
  (* ignore disconnect errors *)
  if Asio.eqb e Asio.connection_aborted
     || Asio.eqb e Asio.connection_refused
     || Asio.eqb e Asio.connection_reset
     || Asio.eqb e Asio.eof
     || Asio.eqb e Asio.operation_aborted
     || Asio.eqb e Asio.stream_truncated
  then ret tt
  (* Skip OpenSSL annoying errors *)
  else if bool_decide (Asio.category e = Asio.ssl_category)
          && ((ERR_GET_REASON ssl (Asio.value e)
                 =? SSL_R_DECRYPTION_FAILED_OR_BAD_RECORD_MAC ssl)
              || (ERR_GET_REASON ssl (Asio.value e)
                    =? SSL_R_PROTOCOL_IS_SHUTDOWN ssl)
              || (ERR_GET_REASON ssl (Asio.value e)
                    =? SSL_R_WRONG_VERSION_NUMBER ssl))
  then ret tt
  else emit (OnErr (Asio.value e) (Asio.name (Asio.category e)) (Asio.message e)).
End WithOpenSSL.

End SslSession.

(** ** ssl_client.cxx: SSL::Client *)

Module SslClient.

(** [SSL::Client] derives from [Tcp::Client] and adds the TLS stream
    state. *)
Record t := mk {
  base : Client.t;
  _handshaking : bool;
  _handshaked : bool
}.

Definition hasHandshaked (c : t) : bool := _handshaked c.

(** [isReady] as overridden in ssl_client.hxx *)
Definition isReady (c : t) : bool :=
  Client.isConnected (base c) && hasHandshaked c.

Section WithOpenSSL.
Variable ssl : OpenSSL.

(** [SSL::Client::err] *)
Definition err (e : Asio.error_code) : M t unit :=
  (* ignore disconnect errors *)
  if Asio.eqb e Asio.connection_aborted
     || Asio.eqb e Asio.connection_refused
     || Asio.eqb e Asio.connection_reset
     || Asio.eqb e Asio.eof
     || Asio.eqb e Asio.operation_aborted
     || Asio.eqb e Asio.stream_truncated
  then ret tt
  (* Skip OpenSSL annoying errors *)
  else if bool_decide (Asio.category e = Asio.ssl_category)
          && ((ERR_GET_REASON ssl (Asio.value e)
                 =? SSL_R_DECRYPTION_FAILED_OR_BAD_RECORD_MAC ssl)
              || (ERR_GET_REASON ssl (Asio.value e)
                    =? SSL_R_PROTOCOL_IS_SHUTDOWN ssl)
              || (ERR_GET_REASON ssl (Asio.value e)
                    =? SSL_R_WRONG_VERSION_NUMBER ssl))
  then ret tt
  else emit (OnErr (Asio.value e) (Asio.name (Asio.category e)) (Asio.message e)).
End WithOpenSSL.


(** *** The life of an [SSL::Client]

    The TLS client adds a hook and stream operations to those of the plain
    client; [Plain] wraps what the plain client already does. *)
Inductive event :=
| Plain (e : effect)
| OnHandshaked
| NewStream                           (* _stream is assigned a fresh ssl::stream *)
| AsyncHandshake (via : executor)
| AsyncShutdown (via : executor).

Inductive result (A : Type) :=
| Done (a : A) (c : t) (tr : list event)
| Failed (msg : string) (c : t) (tr : list event).
Arguments Done {A} a c tr.
Arguments Failed {A} msg c tr.

Definition MS (A : Type) : Type := t -> result A.

Definition sret {A} (a : A) : MS A := fun c => Done a c [].

Definition sbind {A B} (m : MS A) (f : A -> MS B) : MS B :=
  fun c =>
    match m c with
    | Done a c1 t1 =>
        match f a c1 with
        | Done b c2 t2 => Done b c2 (t1 ++ t2)
        | Failed msg c2 t2 => Failed msg c2 (t1 ++ t2)
        end
    | Failed msg c1 t1 => Failed msg c1 t1
    end.

Definition sget : MS t := fun c => Done c c [].
Definition smodify (f : t -> t) : MS unit := fun c => Done tt (f c) [].
Definition semit (e : event) : MS unit := fun c => Done tt c [e].

(** A member of [Tcp::Client] run on the base subobject. *)
Definition on_base {A} (m : M Client.t A) : MS A :=
  fun c =>
    match m (base c) with
    | Returned a b tr => Done a (mk b (_handshaking c) (_handshaked c)) (map Plain tr)
    | Aborted msg b tr => Failed msg (mk b (_handshaking c) (_handshaked c)) (map Plain tr)
    end.

(** A member of [SSL::Client] written over the plain effects. *)
Definition plain {A} (m : M t A) : MS A :=
  fun c =>
    match m c with
    | Returned a c' tr => Done a c' (map Plain tr)
    | Aborted msg c' tr => Failed msg c' (map Plain tr)
    end.

Definition events_of {A} (r : result A) : list event :=
  match r with Done _ _ tr | Failed _ _ tr => tr end.
Definition client_of {A} (r : result A) : t :=
  match r with Done _ c _ | Failed _ c _ => c end.
Definition answer_of {A} (r : result A) : option A :=
  match r with Done a _ _ => Some a | Failed _ _ _ => None end.

Declare Scope ssl_scope.
Notation "x <- m ;; k" := (sbind m (fun x => k))
  (at level 100, m at next level, right associativity) : ssl_scope.
Notation "m ;; k" := (sbind m (fun _ => k))
  (at level 100, right associativity) : ssl_scope.

Definition set_handshaking (x : bool) (c : t) : t := mk (base c) x (_handshaked c).
Definition set_handshaked (x : bool) (c : t) : t := mk (base c) (_handshaking c) x.
Arguments set_handshaking _ _ /.
Arguments set_handshaked _ _ /.

Section Life.
Variable ssl : OpenSSL.
Local Open Scope ssl_scope.

(** The test [!isConnected() || _connecting || _handshaking] *)
Definition cannot_disconnect (c : t) : bool :=
  negb (Client.isConnected (base c)) || Client._connecting (base c) || _handshaking c.

(** The test [isConnected() || hasHandshaked() || _handshaking || _connecting] *)
Definition cannot_connect (c : t) : bool :=
  Client.isConnected (base c) || hasHandshaked c || _handshaking c
  || Client._connecting (base c).

(** [SSL::Client::disconnect] *)
Definition disconnect : MS bool :=
  c <- sget;;
  if cannot_disconnect c then sret false
  else
    smodify (set_handshaked false);;
    smodify (set_handshaking false);;
    _ <- on_base Client.disconnect;;
    sret true.

(** [SSL::Client::disconnectAsync(bool dispatch)] *)
Definition disconnectAsync (dispatch : bool) : MS bool :=
  c <- sget;;
  if cannot_disconnect c then sret false
  else
    (if dispatch
     then semit (Plain (Dispatch (executor_of (Client._strand_needed (base c)))
                                 DisconnectHandler))
     else semit (Plain (Post (executor_of (Client._strand_needed (base c)))
                             DisconnectHandler)));;
    sret true.

(** The closure [disconnect_handler] scheduled by [disconnectAsync]. *)
Definition disconnect_handler : MS unit :=
  c <- sget;;
  if cannot_disconnect c then sret tt
  else
    semit (Plain SocketCancel);;
    semit (AsyncShutdown (executor_of (Client._strand_needed (base c)))).

(** The closure [shutdown_handler] passed to [async_shutdown]; the code
    of the shutdown is not looked at. *)
Definition shutdown_handler (shut_err : Asio.error_code) : MS unit :=
  _ <- disconnect;; sret tt.

(** What [connect] and [connectEndpoint] do once the socket is connected:
    socket options, the receive buffer, the counters, [_connected],
    [onConnect]. *)
Definition established (so_rcvbuf : Z) : MS unit :=
  c <- sget;;
  semit (Plain (SetOptions (Client._keep_alive (base c)) (Client._no_delay (base c))));;
  on_base (modify (fun b => Client.set_receive_buff
                     (resize (Z.to_nat so_rcvbuf) x00 (Client._receive_buff b)) b));;
  on_base (modify (fun b => Client.set_bytes_pending 0 (Client.set_bytes_sending 0
                     (Client.set_bytes_received 0 (Client.set_bytes_sent 0 b)))));;
  on_base (modify (Client.set_connected true));;
  semit (Plain OnConnect).

(** [SSL::Client::connect]; [connect_result] is the code stored by
    [socket().connect], [handshake_result] the one stored by
    [_stream.handshake], [so_rcvbuf] what [receiveBuffSize()] reads. *)
Definition connect (connect_result handshake_result : Asio.error_code)
    (so_rcvbuf : Z) : MS bool :=
  c <- sget;;
  if cannot_connect c then sret false
  else
    semit NewStream;;
    if Asio.is_error connect_result then
      plain (err ssl connect_result);;
      semit (Plain OnDisconnect);;
      sret false
    else
      established so_rcvbuf;;
      if Asio.is_error handshake_result then
        plain (err ssl handshake_result);;
        semit (Plain OnDisconnect);;
        sret false
      else
        smodify (set_handshaked true);;
        semit OnHandshaked;;
        c <- sget;;
        (if empty (Client._send_buff_main (base c))
         then semit (Plain OnEmpty) else sret tt);;
        sret true.

(** [Tcp::Client::tryReceive] as it runs on an SSL client: [isReady] and
    [asyncReadSome] are the overrides, the read is one of the stream. *)
Definition tryReceive : MS unit :=
  c <- sget;;
  if Client._receiving (base c) || negb (isReady c) then sret tt
  else
    on_base (modify (Client.set_receiving true));;
    c <- sget;;
    semit (Plain (AsyncReadSome (executor_of (Client._strand_needed (base c)))
                                (vsize (Client._receive_buff (base c))))).

(** [SSL::Client::connectEndpoint], the completion of [async_connect]. *)
Definition connectEndpoint (e : Asio.error_code) (so_rcvbuf : Z) : MS unit :=
  on_base (modify (Client.set_connecting false));;
  c <- sget;;
  if cannot_connect c then sret tt
  else if Asio.is_error e then
    plain (err ssl e);;
    semit (Plain OnDisconnect)
  else
    established so_rcvbuf;;
    smodify (set_handshaking true);;
    c <- sget;;
    semit (AsyncHandshake (executor_of (Client._strand_needed (base c)))).

(** The closure [handshake_handler] passed to [async_handshake]. *)
Definition handshake_handler (handshake_err : Asio.error_code) : MS unit :=
  smodify (set_handshaking false);;
  c <- sget;;
  if hasHandshaked c then sret tt
  else if Asio.is_error handshake_err then
    plain (err ssl handshake_err);;
    _ <- disconnectAsync true;;
    sret tt
  else
    smodify (set_handshaked true);;
    semit OnHandshaked;;
    tryReceive;;
    c <- sget;;
    if empty (Client._send_buff_main (base c))
    then semit (Plain OnEmpty) else sret tt.

(** [SSL::Client::connectAsync] *)
Definition connectAsync : MS bool :=
  c <- sget;;
  if cannot_connect c then sret false
  else
    semit NewStream;;
    semit (Plain (Post (executor_of (Client._strand_needed (base c))) ConnectHandler));;
    sret true.

(** The closure [connect_handler] posted by [connectAsync]. *)
Definition connect_handler : MS unit :=
  c <- sget;;
  if cannot_connect c then sret tt
  else
    on_base (modify (Client.set_connecting true));;
    c <- sget;;
    semit (Plain (AsyncConnect (executor_of (Client._strand_needed (base c))))).

(** [Tcp::Client::reconnect] on an SSL client: [disconnect] and [connect]
    are the overrides. *)
Definition reconnect (connect_result handshake_result : Asio.error_code)
    (so_rcvbuf : Z) : MS bool :=
  disconnected <- disconnect;;
  if negb disconnected then sret false
  else connect connect_result handshake_result so_rcvbuf.
End Life.
Arguments plain {A} m c : simpl never.

End SslClient.

(** ** source/core/tcp/tcp_server.cxx: Tcp::Server *)

Module Server.

Record t := mk {
  _strand_needed : bool;
  _started : bool;
  _session : option positive;           (* the Session awaiting accept *)
  _sessions : gmap positive Session.t;  (* std::map<Uuid, shared_ptr<Session>> *)
  _bytes_pending : Z;
  _bytes_received : Z;
  _bytes_sent : Z;
  _keep_alive : bool;
  _no_delay : bool;
  _reuse_addr : bool;
  _reuse_port : bool
}.

Definition set_started (x : bool) (s : t) : t :=
  mk (_strand_needed s) x (_session s) (_sessions s) (_bytes_pending s)
    (_bytes_received s) (_bytes_sent s) (_keep_alive s) (_no_delay s)
    (_reuse_addr s) (_reuse_port s).
Arguments set_started _ _ /.
Definition set_session (x : option positive) (s : t) : t :=
  mk (_strand_needed s) (_started s) x (_sessions s) (_bytes_pending s)
    (_bytes_received s) (_bytes_sent s) (_keep_alive s) (_no_delay s)
    (_reuse_addr s) (_reuse_port s).
Arguments set_session _ _ /.
Definition set_sessions (x : gmap positive Session.t) (s : t) : t :=
  mk (_strand_needed s) (_started s) (_session s) x (_bytes_pending s)
    (_bytes_received s) (_bytes_sent s) (_keep_alive s) (_no_delay s)
    (_reuse_addr s) (_reuse_port s).
Arguments set_sessions _ _ /.
Definition set_counters (pending received sent : Z) (s : t) : t :=
  mk (_strand_needed s) (_started s) (_session s) (_sessions s) pending
    received sent (_keep_alive s) (_no_delay s) (_reuse_addr s)
    (_reuse_port s).

(** [Server::Server(service, port, proto)]: the member initialisers. *)
Definition init (strand_needed : bool) : t :=
  mk strand_needed false None ∅ 0 0 0 false false false false.

Definition isStarted (s : t) : bool := _started s.

(** [Server::clearMulticastBuffs] *)
Definition clearMulticastBuffs : M t unit :=
  modify (fun s => set_counters 0 (_bytes_received s) (_bytes_sent s) s).

(** [Server::unregisterSession] *)
Definition unregisterSession (id : positive) : M t unit :=
  modify (fun s => set_sessions (delete id (_sessions s)) s).

(** [Server::findSession] *)
Definition findSession (id : positive) (s : t) : option Session.t :=
  _sessions s !! id.

(** [Server::accept]: dispatches the closure that arms [async_accept]. *)
Definition accept : M t unit :=
  s <- get;;
  if negb (isStarted s) then ret tt
  else emit (Dispatch (executor_of (_strand_needed s)) AcceptHandler).

(** [Server::disconnectAll]: dispatches the closure that walks
    [_sessions]. *)
Definition disconnectAll : M t bool :=
  s <- get;;
  if negb (isStarted s) then ret false
  else
    emit (Dispatch (executor_of (_strand_needed s)) DisconnectAll);;
    ret true.

(** [Server::start] *)
Definition start (NDEBUG : bool) : M t bool :=
  s <- get;;
  assert NDEBUG (negb (isStarted s)) "TCP server is already running";;
  if isStarted s then ret false
  else
    emit (Post (executor_of (_strand_needed s)) StartHandler);;
    ret true.

(** One call on the acceptor in the start closure.  The closure uses the
    overloads without an [error_code] argument; [throws] names the call
    that throws [asio::system_error], if one does.  Nothing in the closure
    catches the exception, so the closure ends there
    ([Service::serviceThread] reports it through the Service's [onErr] and
    the thread that ran the closure ends). *)
Definition on_acceptor (throws : option acceptor_call) (call : acceptor_call)
    (e : effect) : M t unit :=
  if bool_decide (throws = Some call)
  then fun s => Aborted "asio::system_error thrown by the acceptor" s []
  else emit e.

(** The closure [handler] posted by [start]. *)
Definition start_handler (throws : option acceptor_call) : M t unit :=
  s <- get;;
  if isStarted s then ret tt
  else
    on_acceptor throws CallOpen AcceptorOpen;;
    (if _reuse_addr s
     then on_acceptor throws (CallSetOption ReuseAddress)
                      (AcceptorSetOption ReuseAddress)
     else ret tt);;
    (if _reuse_port s
     then on_acceptor throws (CallSetOption ReusePort)
                      (AcceptorSetOption ReusePort)
     else ret tt);;
    on_acceptor throws CallBind AcceptorBind;;
    on_acceptor throws CallListen AcceptorListen;;
    modify (set_counters 0 0 0);;
    modify (set_started true);;
    emit OnStart;;
    (* perform first server accept *)
    accept.

(** [Server::stop] *)
Definition stop : M t bool :=
  s <- get;;
  if negb (isStarted s) then ret false
  else
    emit (Post (executor_of (_strand_needed s)) StopHandler);;
    ret true.

(** The closure [handler] posted by [stop]. *)
Definition stop_handler : M t unit :=
  s <- get;;
  if negb (isStarted s) then ret tt
  else
    emit AcceptorClose;;
    modify (set_session None);;
    _ <- disconnectAll;;
    modify (set_started false);;
    clearMulticastBuffs;;
    emit OnStop.

(** *** [Server::restart], run against the reactor thread

    [restart] runs on the caller's thread while the handlers it posts run
    on a reactor thread; [_started] is the [std::atomic<bool>] both
    read and write.  The caller's progress through

      if (!stop()) return false;
      while (!isStarted()) std::this_thread::yield();
      return start();

    is a program counter, and a schedule says which thread moves next. *)

Inductive pc :=
| AtStop                       (* about to call stop()                 *)
| AtWhile                      (* about to test  !isStarted()          *)
| AtStart                      (* about to call start()                *)
| Finished (result : bool)     (* restart() returned [result]           *)
| Crashed (msg : string).      (* an assertion aborted the process      *)

(** Who moves next: the caller of [restart], or the reactor, which runs
    the closure at the head of its queue; [throws] is what the acceptor
    does if that closure is the one of [start]. *)
Inductive thread := Caller | Reactor (throws : option acceptor_call).

Record config := mk_config {
  server : t;
  posted : list task;          (* handlers waiting in the reactor, FIFO *)
  log : list effect;
  caller : pc
}.

(** The handlers that a trace hands to the reactor. *)
Definition scheduled (tr : list effect) : list task :=
  omap (fun e => match e with
                 | Post _ t | Dispatch _ t => Some t
                 | _ => None
                 end) tr.

(** The reactor runs one posted closure.  Only the closures of [start]
    and [stop] write [_started]; the accept and disconnect-all closures
    work on the acceptor and the sessions and are not followed here.
    When a closure ends by an exception the reactor thread that ran it
    ends; the schedules in which the reactor does not move again cover
    that. *)
Definition run_task (throws : option acceptor_call) (k : task) : M t unit :=
  match k with
  | StartHandler => start_handler throws
  | StopHandler => stop_handler
  | _ => ret tt
  end.

Definition after {A} (cfg : config) (o : outcome t A) (next : pc) : config :=
  mk_config (state_of o) (posted cfg ++ scheduled (trace_of o))
            (log cfg ++ trace_of o) next.

Definition step (NDEBUG : bool) (who : thread) (cfg : config) : config :=
  match who with
  | Caller =>
      match caller cfg with
      | AtStop =>
          let o := stop (server cfg) in
          after cfg o (match value_of o with
                       | Some true => AtWhile
                       | _ => Finished false
                       end)
      | AtWhile =>
          if negb (isStarted (server cfg))
          then cfg                                   (* yield, test again *)
          else mk_config (server cfg) (posted cfg) (log cfg) AtStart
      | AtStart =>
          let o := start NDEBUG (server cfg) in
          after cfg o (match o with
                       | Returned r _ _ => Finished r
                       | Aborted msg _ _ => Crashed msg
                       end)
      | Finished _ | Crashed _ => cfg
      end
  | Reactor throws =>
      match posted cfg with
      | [] => cfg
      | k :: rest =>
          let o := run_task throws k (server cfg) in
          mk_config (state_of o) (rest ++ scheduled (trace_of o))
                    (log cfg ++ trace_of o) (caller cfg)
      end
  end.

Definition run (NDEBUG : bool) (sched : list thread) (cfg : config) : config :=
  fold_left (fun c who => step NDEBUG who c) sched cfg.

(** A call of [restart()] on server [s] with an idle reactor. *)
Definition restart_call (s : t) : config := mk_config s [] [] AtStop.

(** Effects of a member function of another object, run from a member of
    this one. *)
Definition emit_all (tr : list effect) : M t unit :=
  fun s => Returned tt s tr.

(** [Server::err] *)
Definition err (e : Asio.error_code) : M t unit :=
  if disconnect_error e then ret tt
  else emit (OnErr (Asio.value e) (Asio.name (Asio.category e)) (Asio.message e)).

(** [Server::registerSession]: [_sessions.emplace(_session->id(), _session)].
    [_session] of the model holds the id; [pending] is the Session object
    behind that pointer.  [emplace] leaves the map alone when the key is
    taken; a null [_session] is dereferenced, which ends the run. *)
Definition registerSession (pending : Session.t) : M t unit :=
  s <- get;;
  match _session s with
  | None => fun s => Aborted "null _session dereferenced" s []
  | Some id =>
      match _sessions s !! id with
      | Some _ => ret tt
      | None => modify (set_sessions (<[id := pending]> (_sessions s)))
      end
  end.

(** The completion handler [async_handler] that the accept closure passes
    to [async_accept]; [pending] is the Session behind [_session] and
    [so_rcvbuf] what its socket reports in [connect].  [_session->connect()]
    works on the object the registry shares when [emplace] inserted it. *)
Definition accept_completed (e : Asio.error_code) (pending : Session.t)
    (so_rcvbuf : Z) : M t unit :=
  (if negb (Asio.is_error e) then
     s <- get;;
     registerSession pending;;
     let o := Session.connect so_rcvbuf pending in
     emit_all (trace_of o);;
     match _session s with
     | Some id =>
         if bool_decide (_sessions s !! id = None)
         then modify (fun s => set_sessions (<[id := state_of o]> (_sessions s)) s)
         else ret tt
     | None => ret tt
     end
   else err e);;
  accept.

(** The order of the keys of [_sessions], a [std::map] keyed by the
    Uuid of the session (the positive numbers that stand for the Uuids
    carry their order). *)
Definition key_le (a b : positive * Session.t) : Prop :=
  (a.1 <= b.1)%positive.

#[global] Instance key_le_dec : RelDecision key_le.
Proof. intros a b. unfold key_le. apply _. Defined.

(** The sessions in the order in which a loop over [_sessions] meets
    them: a [std::map] iterates by ascending key. *)
Definition in_key_order (m : gmap positive Session.t)
  : list (positive * Session.t) :=
  merge_sort key_le (map_to_list m).

(** [Server::multicast]: [sendAsync] on every registered Session, under
    the shared lock, in the order of the map. *)
Definition multicast (NDEBUG : bool) (buf : buffer) (size : Z) : M t bool :=
  s <- get;;
  if negb (isStarted s) then ret false
  else if size =? 0 then ret true
  else
    assert NDEBUG (negb (is_null buf))
      "Pointer to buffer to send should not be null";;
    if is_null buf then ret false
    else
      emit_all (concat (map (fun kv => trace_of (Session.sendAsync NDEBUG buf size kv.2))
                            (in_key_order (_sessions s))));;
      modify (set_sessions
                ((fun sess => state_of (Session.sendAsync NDEBUG buf size sess))
                   <$> _sessions s));;
      ret true.

(** The closure dispatched by [disconnectAll]: [disconnect()] on every
    registered Session, under the shared lock. *)
Definition disconnectAll_handler : M t unit :=
  s <- get;;
  if negb (isStarted s) then ret tt
  else
    emit_all (concat (map (fun kv => trace_of (Session.disconnect false kv.2))
                          (in_key_order (_sessions s))));;
    modify (set_sessions
              ((fun sess => state_of (Session.disconnect false sess))
                 <$> _sessions s)).

End Server.

(** ** The benign error set as the specification words it (section 4.5)

    "benign post-disconnect errors: connection_aborted, connection_refused,
    connection_reset, eof, operation_aborted, TLS stream_truncated, and the
    OpenSSL-origin reasons DECRYPTION_FAILED_OR_BAD_RECORD_MAC,
    PROTOCOL_IS_SHUTDOWN, WRONG_VERSION_NUMBER". *)

Definition benign_socket_errors : list Asio.error_code :=
  [Asio.connection_aborted; Asio.connection_refused; Asio.connection_reset;
   Asio.eof; Asio.operation_aborted].

Definition benign_openssl_reasons (ssl : OpenSSL) : list Z :=
  [SSL_R_DECRYPTION_FAILED_OR_BAD_RECORD_MAC ssl;
   SSL_R_PROTOCOL_IS_SHUTDOWN ssl;
   SSL_R_WRONG_VERSION_NUMBER ssl].

(** Benign for the plain transport. *)
Definition benign_plain (e : Asio.error_code) : Prop :=
  e ∈ benign_socket_errors.

(** Benign for the TLS transport. *)
Definition benign_tls (ssl : OpenSSL) (e : Asio.error_code) : Prop :=
  e ∈ benign_socket_errors
  \/ e = Asio.stream_truncated
  \/ (Asio.category e = Asio.ssl_category
      /\ ERR_GET_REASON ssl (Asio.value e) ∈ benign_openssl_reasons ssl).

(** The single [onErr(err.value(), err.category().name(), err.message())]
    call. *)
Definition reported (e : Asio.error_code) : list effect :=
  [OnErr (Asio.value e) (Asio.name (Asio.category e)) (Asio.message e)].

(** ** Predicates and states used in the statements *)

(** The limit test of [sendAsync], read over the integers: the limit is
    set and the appended size would pass it. *)
Definition over_limit (limit main_size size : Z) : Prop :=
  0 < limit /\ limit < main_size + size.

(** What a successful [Session::sendAsync] leaves behind. *)
Definition session_appended (s : Session.t) (bytes : list byte) (size : Z)
  : Session.t :=
  Session.set_bytes_pending
    (vsize (Session._send_buff_main s ++ range bytes size))
    (Session.set_send_buff_main
       (Session._send_buff_main s ++ range bytes size) s).

Definition client_appended (c : Client.t) (bytes : list byte) (size : Z)
  : Client.t :=
  Client.set_bytes_pending
    (vsize (Client._send_buff_main c ++ range bytes size))
    (Client.set_send_buff_main
       (Client._send_buff_main c ++ range bytes size) c).

(** The invariant of spec section 3: [bytes_pending] is the size of the
    send-main buffer. *)
Definition pending_matches_main (s : Session.t) : Prop :=
  Session._bytes_pending s = vsize (Session._send_buff_main s).

(** A connected session / ready client in the middle of its life, with the
    given send limit and send buffers. *)
Definition a_server : Session.server_ref :=
  Session.mk_server_ref false false false 0 0.

Definition live_session (limit : Z) (main flush : list byte) (offset : Z)
    (sending : bool) : Session.t :=
  Session.mk a_server false true (vsize main) (vsize flush - offset) offset 0
    true 0 (replicate 8 x00) sending limit main flush offset.

Definition live_client (limit : Z) (main flush : list byte) (offset : Z)
    (sending : bool) : Client.t :=
  Client.mk false false true (vsize main) (vsize flush - offset) offset 0
    true 0 (replicate 8 x00) sending limit main flush offset false false.

(** The payload of the tests: "test". *)
Definition test_payload : list byte := [x74; x65; x73; x74].

(** The receive-limit test of the read completion, read over the
    integers: the limit is set and twice the read size passes it. *)
Definition receive_limit_hit (limit size : Z) : Prop :=
  0 < limit /\ limit < 2 * size.

(** A session / client like [live_session] / [live_client] with a receive
    buffer of 8 bytes and the given receive limit. *)
Definition receiving_session (limit : Z) : Session.t :=
  Session.set_receive_limit limit (live_session 0 [] [] 0 false).

Definition receiving_client (limit : Z) : Client.t :=
  Client.set_receive_buff_limit limit (live_client 0 [] [] 0 false).

(** One asynchronous connect of a Client, start to finish: the call of
    [connectAsync], the closure it posted, and the completion of
    [async_connect] with code [e]. *)
Definition connectAsync_pass (e : Asio.error_code) (so_rcvbuf : Z)
  : M Client.t bool :=
  (accepted <- Client.connectAsync;;
   Client.connect_handler;;
   Client.connected_handler e so_rcvbuf;;
   ret accepted)%cxx.

(** The state in which [restart] can only spin: the caller is at the loop
    test, the server has stopped, and no start closure is waiting. *)
Definition restart_stuck (cfg : Server.config) : Prop :=
  Server.caller cfg = Server.AtWhile
  /\ Server.isStarted (Server.server cfg) = false
  /\ StartHandler ∉ Server.posted cfg.

(** A started server with default options. *)
Definition started_server : Server.t :=
  Server.set_started true (Server.init false).

(** ** core/memory.hxx: HandlerStorageAllocator<T> *)

Module HandlerStorageAllocator.

Section Allocator.
(** [sizeof(T)] *)
Variable sizeof_T : Z.

(** [allocate(num)]: [_storage.alloc(num * sizeof(T))] on the
    [HandlerMemory<>] (slab of 1024 bytes) the allocator is bound to. *)
Definition allocate (pick : option positive) (num : Z)
    (m : HandlerMemory.t) (h : HandlerMemory.heap)
  : HandlerMemory.pointer * HandlerMemory.t * HandlerMemory.heap :=
  HandlerMemory.alloc 1024 pick (wrap64 (num * sizeof_T)) m h.

(** [deallocate(p, num)]: [_storage.free(p)] *)
Definition deallocate (p : HandlerMemory.pointer) (num : Z)
    (m : HandlerMemory.t) (h : HandlerMemory.heap)
  : HandlerMemory.t * HandlerMemory.heap :=
  HandlerMemory.free p m h.
End Allocator.

End HandlerStorageAllocator.

(** The bytes behind a pointer handed out by a slab of capacity [S]:
    [aligned_storage<S>] for the inline buffer, the requested size for a
    heap block. *)
Definition capacity (S : Z) (h : HandlerMemory.heap) (p : HandlerMemory.pointer)
  : option Z :=
  match p with
  | HandlerMemory.fast_storage => Some S
  | HandlerMemory.heap_block a => h !! a
  | HandlerMemory.nullptr => None
  end.

(** A client of one slab: it allocates, and frees pointers it holds. *)
Inductive slab_op :=
| Alloc (pick : option positive) (size : Z)
| Free (p : HandlerMemory.pointer).

Record slab_state := mk_slab_state {
  slab : HandlerMemory.t;
  slab_heap : HandlerMemory.heap;
  held : list HandlerMemory.pointer        (* allocated and not yet freed *)
}.

(** Removes the first occurrence of [p]. *)
Fixpoint release (p : HandlerMemory.pointer) (l : list HandlerMemory.pointer)
  : list HandlerMemory.pointer :=
  match l with
  | [] => []
  | q :: l' => if bool_decide (q = p) then l' else q :: release p l'
  end.

(** One operation.  [None] when the environment or the client breaks the
    rules of the C heap: [malloc] returning a live block, or a [free] of a
    pointer that is not held. *)
Definition slab_step (S : Z) (st : slab_state) (op : slab_op) : option slab_state :=
  match op with
  | Alloc pick size =>
      match pick with
      | Some a =>
          if bool_decide (slab_heap st !! a = None) then
            let '(p, m, h) := HandlerMemory.alloc S pick size (slab st) (slab_heap st) in
            Some (mk_slab_state m h (p :: held st))
          else None
      | None =>
          let '(p, m, h) := HandlerMemory.alloc S pick size (slab st) (slab_heap st) in
          Some (mk_slab_state m h (match p with
                                   | HandlerMemory.nullptr => held st
                                   | _ => p :: held st
                                   end))
      end
  | Free p =>
      if bool_decide (p ∈ held st) then
        let '(m, h) := HandlerMemory.free p (slab st) (slab_heap st) in
        Some (mk_slab_state m h (release p (held st)))
      else None
  end.

Fixpoint slab_run (S : Z) (st : slab_state) (ops : list slab_op) : option slab_state :=
  match ops with
  | [] => Some st
  | op :: ops' =>
      match slab_step S st op with
      | Some st' => slab_run S st' ops'
      | None => None
      end
  end.

Definition new_slab : slab_state := mk_slab_state HandlerMemory.init ∅ [].

(** ** core/service.hxx, service.cxx: the loops of a Service *)

Module Service.

Record t := mk {
  _services : list positive;     (* vector<shared_ptr<io_service>>, by handle *)
  _threads : nat;                (* _threads.size() *)
  _strand : option positive;     (* the strand, by the loop it is built on *)
  _strand_needed : bool;
  _polling : bool;
  _started : bool;
  _rr_idx : Z
}.

(** The [i]-th [make_shared<asio::io_service>()] of a constructor. *)
Definition new_io_service (i : nat) : positive := Pos.of_succ_nat i.

(** [Service::Service(num_threads, own_io)] *)
Definition create (num_threads : nat) (own_io : bool) : t :=
  if bool_decide (num_threads = 0%nat) then
    (* no threads => single IO service *)
    mk [new_io_service 0] 0 None false false false 0
  else if negb own_io then
    mk (map new_io_service (seq 0 num_threads)) num_threads None
       false false false 0
  else
    mk [new_io_service 0] num_threads (Some (new_io_service 0))
       true false false 0.

(** [Service::Service(service, strands)] for a non-null [service] *)
Definition adopt (service : positive) (strands : bool) : t :=
  mk [service] 0 (if strands then Some service else None)
     strands false false 0.

(** [getIoService]: [_services[++_rr_idx % _services.size()]].  [None]
    stands for the division by zero on an empty vector. *)
Definition getIoService (s : t) : option positive * t :=
  let rr := wrap64 (_rr_idx s + 1) in
  let s' := mk (_services s) (_threads s) (_strand s) (_strand_needed s)
               (_polling s) (_started s) rr in
  (if bool_decide (_services s = [])
   then None
   else _services s !! Z.to_nat (rr mod Z.of_nat (length (_services s))),
   s').

(** The loops that [Service::start] gives its threads: thread [i] runs
    [serviceThread(self, _services[i % _services.size()])]. *)
Definition thread_loops (s : t) : list (option positive) :=
  map (fun i => if bool_decide (_services s = [])
                then None
                else _services s !! (i mod length (_services s))%nat)
      (seq 0 (_threads s)).

(** [k] calls of [getIoService] in a row: the loops handed out. *)
Fixpoint hand_out (k : nat) (s : t) : list (option positive) :=
  match k with
  | O => []
  | S k' => let '(io, s') := getIoService s in io :: hand_out k' s'
  end.

End Service.

(** ** core/timer.hxx, timer.cxx: the completion of a wait *)

Module Timer.

(** What a completion makes of the timer: [timerNotify(canceled)] (declared
    in timer.hxx, its body is not among the sources) or the [onError]
    hook. *)
Inductive event :=
| TimerNotify (canceled : bool)
| OnError (code : Z) (category : string) (msg : Asio.error_message).

(** [Timer::err] *)
Definition err (e : Asio.error_code) : list event :=
  (* skip abort error *)
  if Asio.eqb e Asio.operation_aborted then []
  else [OnError (Asio.value e) (Asio.name (Asio.category e)) (Asio.message e)].

(** The closure [async_wait_handler] of [Timer::waitAsync] *)
Definition async_wait_handler (e : Asio.error_code) : list event :=
  (if Asio.eqb e Asio.operation_aborted then [TimerNotify true] else [])
  ++ (if Asio.is_error e then err e else [TimerNotify false]).

(** [Timer::waitSync]; [e] is the code that [_timer.wait] stores. *)
Definition waitSync (e : Asio.error_code) : bool * list event :=
  let aborted :=
    if Asio.eqb e Asio.operation_aborted then [TimerNotify true] else [] in
  if Asio.is_error e then (false, aborted ++ err e)
  else (true, aborted ++ [TimerNotify false]).

End Timer.

(** ** A Session's send path under arbitrary use *)

(** The bytes of the write in flight that the kernel has not taken yet:
    the suffix of flush from the flush offset. *)
Definition in_flight (s : Session.t) : list byte :=
  drop (Z.to_nat (Session._send_flush_offset s)) (Session._send_buff_flush s).

(** Everything accepted and not yet written, in order. *)
Definition unsent (s : Session.t) : list byte :=
  in_flight s ++ Session._send_buff_main s.

(** What can happen to the send path of a connected session: a user
    thread calls [sendAsync] with [bytes], the reactor runs a dispatched
    [trySend], or the oldest write handed to the socket completes without
    error after the kernel took the first [k] bytes of it. *)
Inductive send_op :=
| DoSend (bytes : list byte)
| DoTrySend
| DoComplete (k : Z).

(** The buffers handed to [async_write_some] in a trace, in order. *)
Definition writes_of (tr : list effect) : list (list byte) :=
  omap (fun e => match e with
                 | AsyncWriteSome _ bytes => Some bytes
                 | _ => None
                 end) tr.

Record send_log := mk_send_log {
  written : list byte;      (* taken by the kernel, in order *)
  accepted : list byte;     (* handed to sendAsync calls that returned true *)
  effects : list effect;
  in_kernel : list (list byte);  (* the buffers of the writes handed to the
                                    socket and not yet completed, oldest first *)
  now : Session.t
}.

(** The start of a run.  If a write is in flight at the start, its buffer
    is the one [trySend] gave the socket: flush from the flush offset. *)
Definition start_log (s : Session.t) : send_log :=
  mk_send_log [] [] [] (if Session._sending s then [in_flight s] else []) s.

(** One step.  The kernel sees only what [async_write_some] was given: a
    completion of [k] bytes takes the first [k] bytes of the oldest buffer
    in [in_kernel], and every [async_write_some] of the step adds its
    buffer to [in_kernel].  [None] when the step cannot happen: a
    completion without a write handed to the socket or of more bytes than
    its buffer holds, or an append that would take send-main past what a
    [size_t] can count. *)
Definition send_step (l : send_log) (op : send_op) : option send_log :=
  match op with
  | DoSend bytes =>
      if vsize (Session._send_buff_main (now l)) + vsize bytes <? 2 ^ 64 then
        let o := Session.sendAsync false (buffer_at bytes) (vsize bytes) (now l) in
        Some (mk_send_log (written l)
                (accepted l ++ (if bool_decide (value_of o = Some true)
                                then bytes else []))
                (effects l ++ trace_of o)
                (in_kernel l ++ writes_of (trace_of o)) (state_of o))
      else None
  | DoTrySend =>
      let o := Session.trySend (now l) in
      Some (mk_send_log (written l) (accepted l)
              (effects l ++ trace_of o)
              (in_kernel l ++ writes_of (trace_of o)) (state_of o))
  | DoComplete k =>
      match in_kernel l with
      | oldest :: rest =>
          if (0 <=? k) && (k <=? vsize oldest) then
            let o := Session.trySend_handler Asio.success k (now l) in
            Some (mk_send_log (written l ++ take (Z.to_nat k) oldest)
                    (accepted l) (effects l ++ trace_of o)
                    (rest ++ writes_of (trace_of o)) (state_of o))
          else None
      | [] => None
      end
  end.

Fixpoint send_run (l : send_log) (ops : list send_op) : option send_log :=
  match ops with
  | [] => Some l
  | op :: ops' =>
      match send_step l op with
      | Some l' => send_run l' ops'
      | None => None
      end
  end.

(** The shape of the send path between steps: connected; while a write
    is in flight the offset lies inside flush; otherwise flush is empty. *)
Definition send_path_ok (s : Session.t) : Prop :=
  Session.isConnected s = true
  /\ vsize (Session._send_buff_main s) < 2 ^ 64
  /\ vsize (Session._send_buff_flush s) < 2 ^ 64
  /\ (if Session._sending s
      then 0 <= Session._send_flush_offset s < vsize (Session._send_buff_flush s)
      else Session._send_buff_flush s = [] /\ Session._send_flush_offset s = 0).

(** What the socket holds between steps: while [_sending] is set, one
    write, whose buffer is flush from the flush offset; otherwise none. *)
Definition kernel_ok (l : send_log) : Prop :=
  in_kernel l = if Session._sending (now l) then [in_flight (now l)] else [].

(** The counters of the send path: [bytes_pending] counts send-main,
    [bytes_sending] the part of flush not yet written. *)
Definition send_counters_ok (s : Session.t) : Prop :=
  Session._bytes_pending s = vsize (Session._send_buff_main s)
  /\ Session._bytes_sending s = vsize (in_flight s).

Definition is_completion (op : send_op) : bool :=
  match op with DoComplete _ => true | _ => false end.

Definition count_completions (ops : list send_op) : nat :=
  length (filter (fun op => is_completion op = true) ops).

Definition is_AsyncWriteSome (e : effect) : bool :=
  match e with AsyncWriteSome _ _ => true | _ => false end.

Definition flag (b : bool) : nat := if b then 1%nat else 0%nat.

(** The reactor's steps: the ones after which the session itself has
    decided whether another write is needed. *)
Definition is_reactor_step (op : send_op) : bool :=
  match op with DoSend _ => false | DoTrySend | DoComplete _ => true end.

(** A connected session with empty send buffers, and a run on it: "test"
    is sent and its write armed, "te" is sent while that write is in
    flight, and the kernel takes the bytes two at a time. *)
Definition idle_session : Session.t := live_session 0 [] [] 0 false.

Definition sample_run : list send_op :=
  [DoSend test_payload; DoTrySend; DoSend [x74; x65];
   DoComplete 2; DoComplete 2; DoComplete 2].

(** What holds of a slab and its client between operations: no pointer is
    held twice, [nullptr] is never held, the inline buffer is held exactly
    when the slab is marked used, and the live heap blocks are exactly the
    heap pointers held. *)
Definition slab_ok (st : slab_state) : Prop :=
  NoDup (held st)
  /\ (HandlerMemory.nullptr ∉ held st)
  /\ (HandlerMemory._used (slab st) = true <-> HandlerMemory.fast_storage ∈ held st)
  /\ (forall a, is_Some (slab_heap st !! a) <-> HandlerMemory.heap_block a ∈ held st).

(** A handler of 64 bytes and one of 2000 bytes allocated, a third request
    while the inline buffer is out, then everything freed. *)
Definition sample_slab_ops : list slab_op :=
  [Alloc (Some 5%positive) 64; Alloc (Some 6%positive) 2000;
   Alloc (Some 7%positive) 64;
   Free HandlerMemory.fast_storage; Free (HandlerMemory.heap_block 7);
   Free (HandlerMemory.heap_block 6)].

(** ** core/utils.hxx: fastItoa, CacheView *)

Module Utils.

(** ['0' + d] for a digit [d] *)
Definition digit_char (d : Z) : byte :=
  nth (Z.to_nat d) [x30; x31; x32; x33; x34; x35; x36; x37; x38; x39] x30.

(** A [std::string_view] into the buffer: first index and length. *)
Record string_view := mk_view { view_begin : Z; view_size : Z }.

(** The loop of [fastItoa].  [None] stands for the write before the start
    of the buffer ([--idx] on [idx = 0]) or past its end. *)
Equations? fastItoa_loop (val : Z) (buf : list byte) (idx : Z)
  : option (list byte * Z) by wf (Z.to_nat val) lt :=
  fastItoa_loop val buf idx with decide (0 < idx <= Z.of_nat (length buf)) => {
    | right _ := None;
    | left _ with decide (0 < val / 10) => {
        | left _ := fastItoa_loop (val / 10)
                      (<[Z.to_nat (idx - 1) := digit_char (val mod 10)]> buf) (idx - 1);
        | right _ := Some (<[Z.to_nat (idx - 1) := digit_char (val mod 10)]> buf, idx - 1) } }.
Proof.
  assert (0 < val) by (destruct (Z.lt_ge_cases 0 val); [assumption | exfalso; assert (val / 10 <= 0) by (apply Z.div_le_upper_bound; lia); lia]).
  assert (val / 10 < val) by (apply Z.div_lt; lia).
  lia.
Qed.

Definition fastItoa (val : Z) (buf : list byte) (buf_size : Z)
  : option (list byte * string_view) :=
  match fastItoa_loop val buf buf_size with
  | Some (buf', idx) => Some (buf', mk_view idx (buf_size - idx))
  | None => None
  end.

(** The bytes a view covers in the buffer it points into. *)
Definition view_bytes (buf : list byte) (v : string_view) : list byte :=
  take (Z.to_nat (view_size v)) (drop (Z.to_nat (view_begin v)) buf).

(** [CacheView]: a window of [_size] chars at [_idx] into a string held
    through a [weak_ptr]; [_str] is the string while it is alive. *)
Record CacheView := mk_cache_view {
  _str : option (list byte);
  _idx : Z;
  _size : Z
}.

(** What [data()] points at: the chars of [c_str()] from [_idx] on, the
    terminating NUL included; [None] is [nullptr]. *)
Definition data (v : CacheView) : option (list byte) :=
  match _str v with
  | Some str => Some (drop (Z.to_nat (_idx v)) (str ++ [x00]))
  | None => None
  end.

(** [operator std::string_view()] of a CacheView, as the chars viewed. *)
Definition to_string_view (v : CacheView) : list byte :=
  match _str v with
  | Some str => take (Z.to_nat (_size v)) (drop (Z.to_nat (_idx v)) (str ++ [x00]))
  | None => []
  end.

(** [std::char_traits<char>::compare(s1, s2, n)]: the first [n] chars
    compared as unsigned chars, the result reduced to its sign.  [None]
    is a read through [nullptr] or past the end of the memory given. *)
Fixpoint traits_compare (s1 s2 : option (list byte)) (n : nat) : option comparison :=
  match n with
  | O => Some Eq
  | S n' =>
      match s1, s2 with
      | Some (c1 :: s1'), Some (c2 :: s2') =>
          match N.compare (Byte.to_N c1) (Byte.to_N c2) with
          | Eq => traits_compare (Some s1') (Some s2') n'
          | c => Some c
          end
      | _, _ => None
      end
  end.

(** [CacheViewSparseMapHash::compare] on the [data()] and [size()] of its
    two arguments, the result reduced to its sign. *)
Definition compare (data1 : option (list byte)) (size1 : Z)
    (data2 : option (list byte)) (size2 : Z) : option comparison :=
  let _rlen := Z.min size1 size2 in
  match traits_compare data1 data2 (Z.to_nat _rlen) with
  | Some Eq =>
      Some (if size1 <? size2 then Lt
            else if size1 =? size2 then Eq else Gt)
  | ret => ret
  end.

(** [bool operator()(const CacheView &, const CacheView &)] *)
Definition equal (view1 view2 : CacheView) : option bool :=
  match compare (data view1) (_size view1) (data view2) (_size view2) with
  | Some Eq => Some true
  | Some _ => Some false
  | None => None
  end.

(** A view that lies inside its string. *)
Definition in_its_string (v : CacheView) : Prop :=
  exists str, _str v = Some str
    /\ 0 <= _idx v /\ 0 <= _size v
    /\ _idx v + _size v <= Z.of_nat (length str).

End Utils.

(** The value of a string of decimal digits. *)
Definition char_digit (c : byte) : Z := Z.of_N (Byte.to_N c) - 48.
Definition decimal_value (digits : list byte) : Z :=
  fold_left (fun acc c => 10 * acc + char_digit c) digits 0.
Definition is_decimal_digit (c : byte) : Prop := 0 <= char_digit c <= 9.

(** The decimal digits of [val], most significant first. *)
Equations? decimal_digits (val : Z) : list byte by wf (Z.to_nat val) lt :=
  decimal_digits val with decide (0 < val / 10) => {
    | left _ := decimal_digits (val / 10) ++ [Utils.digit_char (val mod 10)];
    | right _ := [Utils.digit_char (val mod 10)] }.
Proof.
  assert (0 < val) by (destruct (Z.lt_ge_cases 0 val); [assumption | exfalso; assert (val / 10 <= 0) by (apply Z.div_le_upper_bound; lia); lia]).
  assert (val / 10 < val) by (apply Z.div_lt; lia).
  lia.
Qed.

(** ** A Session under arbitrary use *)

(** What can happen to a Session after its [connect]: calls of its public
    members from any thread, the closures it scheduled running on the
    reactor, and the completions of its reads and writes with whatever
    error code and byte count the socket reports. *)
Inductive session_op :=
| CallSendAsync (buf : buffer) (size : Z)
| CallReceiveAsync
| CallDisconnect (dispatch : bool)
| RunTrySend
| RunDisconnectHandler
| ReadDone (e : Asio.error_code) (size : Z)
| WriteDone (e : Asio.error_code) (size : Z).

Definition session_step (NDEBUG : bool) (op : session_op) : M Session.t unit :=
  match op with
  | CallSendAsync buf size => _ <- Session.sendAsync NDEBUG buf size;; ret tt
  | CallReceiveAsync => Session.receiveAsync
  | CallDisconnect dispatch => _ <- Session.disconnect dispatch;; ret tt
  | RunTrySend => Session.trySend
  | RunDisconnectHandler => Session.disconnect_handler
  | ReadDone e size => Session.tryReceive_handler e size
  | WriteDone e size => Session.trySend_handler e size
  end.

Fixpoint session_run (NDEBUG : bool) (ops : list session_op) : M Session.t unit :=
  match ops with
  | [] => ret tt
  | op :: ops' => session_step NDEBUG op;; session_run NDEBUG ops'
  end.

Definition is_OnDisconnect (e : effect) : bool :=
  match e with OnDisconnect => true | _ => false end.
Definition is_ServerOnDisconnect (e : effect) : bool :=
  match e with ServerOnDisconnect => true | _ => false end.
Definition is_SocketClose (e : effect) : bool :=
  match e with SocketClose => true | _ => false end.
Definition is_Unregister (e : effect) : bool :=
  match e with Dispatch _ Unregister => true | _ => false end.

(** The send side of a Session that holds nothing. *)
Definition send_side_cleared (s : Session.t) : Prop :=
  Session._send_buff_main s = [] /\ Session._send_buff_flush s = []
  /\ Session._send_flush_offset s = 0
  /\ Session._bytes_pending s = 0 /\ Session._bytes_sending s = 0.

(** What a step, or a run, does to the life of the connection. *)
Definition step_accounts (s : Session.t) (o : outcome Session.t unit) : Prop :=
  (count_effects is_OnDisconnect (trace_of o)
   + flag (Session.isConnected (state_of o)) = flag (Session.isConnected s))%nat
  /\ count_effects is_SocketClose (trace_of o)
     = count_effects is_OnDisconnect (trace_of o)
  /\ count_effects is_ServerOnDisconnect (trace_of o)
     = count_effects is_OnDisconnect (trace_of o)
  /\ count_effects is_Unregister (trace_of o)
     = count_effects is_OnDisconnect (trace_of o)
  /\ Session._receive_limit (state_of o) = Session._receive_limit s
  /\ (0 < Session._receive_limit s ->
      vsize (Session._receive_buff (state_of o))
      <= Z.max (vsize (Session._receive_buff s)) (Session._receive_limit s))
  /\ (Session.isConnected s = true -> Session.isConnected (state_of o) = false ->
      send_side_cleared (state_of o)).

(** A connection that breaks while a read and a write are in flight: both
    completions report the reset, each schedules the disconnect closure,
    and the reactor runs the closure twice. *)
Definition broken_connection : list session_op :=
  [ReadDone Asio.connection_reset 0; WriteDone Asio.broken_pipe 0;
   RunDisconnectHandler; RunDisconnectHandler;
   CallSendAsync (buffer_at test_payload) 4; RunTrySend].

(** ** The reactor of a Server *)

(** The closures that the reactor runs, in the order in which they were
    queued, each with what the acceptor does if it is a start closure.
    The run ends with the first closure that ends by an exception. *)
Fixpoint server_run (tasks : list (option acceptor_call * task)) : M Server.t unit :=
  match tasks with
  | [] => ret tt
  | (throws, k) :: tasks' => Server.run_task throws k;; server_run tasks'
  end.

Definition is_OnStart (e : effect) : bool :=
  match e with OnStart => true | _ => false end.
Definition is_OnStop (e : effect) : bool :=
  match e with OnStop => true | _ => false end.
Definition is_AcceptorOpen (e : effect) : bool :=
  match e with AcceptorOpen => true | _ => false end.
Definition is_AcceptorListen (e : effect) : bool :=
  match e with AcceptorListen => true | _ => false end.
Definition is_AcceptorClose (e : effect) : bool :=
  match e with AcceptorClose => true | _ => false end.

(** What a closure, or a run of closures, does to the life of a Server:
    [onStart] and [onStop] calls balance the change of [_started]; every
    [listen] that returned is followed by [onStart]; the acceptor was
    opened at least once per [onStart] and closed once per [onStop]; and
    a run that ended by an exception leaves the server not started. *)
Definition server_accounts (s : Server.t) (o : outcome Server.t unit) : Prop :=
  (count_effects is_OnStart (trace_of o) + flag (Server.isStarted s)
   = count_effects is_OnStop (trace_of o) + flag (Server.isStarted (state_of o)))%nat
  /\ count_effects is_AcceptorListen (trace_of o)
     = count_effects is_OnStart (trace_of o)
  /\ (count_effects is_OnStart (trace_of o)
      <= count_effects is_AcceptorOpen (trace_of o))%nat
  /\ count_effects is_AcceptorClose (trace_of o)
     = count_effects is_OnStop (trace_of o)
  /\ (value_of o = None -> Server.isStarted (state_of o) = false).

(** A start closure whose [bind] throws (the port is taken), between two
    that go well. *)
Definition bind_fails_once : list (option acceptor_call * task) :=
  [(None, StartHandler); (None, StopHandler);
   (Some CallBind, StartHandler); (None, StartHandler)].

Definition is_PostDisconnect (e : effect) : bool :=
  match e with Post _ DisconnectHandler => true | _ => false end.

(** A started server with two sessions: one idle, one whose send limit of
    6 bytes is nearly used up. *)
Definition busy_server : Server.t :=
  Server.mk false true (Some 3%positive)
    (<[1%positive := idle_session]>
       (<[2%positive := live_session 6 test_payload [] 0 false]> ∅))
    0 0 0 false false false false.

(** ** A Client that is not connected *)

(** Everything that can reach a Client except the connect family: calls
    of its public members with a readable buffer, its scheduled closures,
    and the completions of reads and writes of an earlier connection. *)
Inductive client_op :=
| ClSendAsync (bytes : list byte) (size : Z)
| ClReceiveAsync
| ClDisconnect
| ClDisconnectAsync (dispatch : bool)
| ClReconnect (connect_result : Asio.error_code) (so_rcvbuf : Z)
| ClRunTrySend
| ClRunDisconnectHandler
| ClReadDone (e : Asio.error_code) (size : Z)
| ClWriteDone (e : Asio.error_code) (size : Z).

Definition client_step (NDEBUG : bool) (op : client_op) : M Client.t unit :=
  match op with
  | ClSendAsync bytes size =>
      _ <- Client.sendAsync NDEBUG (buffer_at bytes) size;; ret tt
  | ClReceiveAsync => Client.receiveAsync
  | ClDisconnect => _ <- Client.disconnect;; ret tt
  | ClDisconnectAsync dispatch => _ <- Client.disconnectAsync dispatch;; ret tt
  | ClReconnect connect_result so_rcvbuf =>
      _ <- Client.reconnect connect_result so_rcvbuf;; ret tt
  | ClRunTrySend => Client.trySend
  | ClRunDisconnectHandler => Client.disconnect_handler
  | ClReadDone e size => Client.tryReceive_handler e size
  | ClWriteDone e size => Client.trySend_handler e size
  end.

Fixpoint client_run (NDEBUG : bool) (ops : list client_op) : M Client.t unit :=
  match ops with
  | [] => ret tt
  | op :: ops' => client_step NDEBUG op;; client_run NDEBUG ops'
  end.

(** A ready client with a read in flight and "test" queued for sending. *)
Definition reading_client : Client.t :=
  Client.set_receiving true (live_client 0 test_payload [] 0 false).

(** "hello world", the string behind the sample views. *)
Definition hello_world : list byte :=
  [x68; x65; x6c; x6c; x6f; x20; x77; x6f; x72; x6c; x64].

(** ** An SSL client between connect and handshake *)

(** The public members of an SSL client that start or end a connection,
    and the closures they schedule; the completions of the connect, of the
    handshake and of the shutdown are not among them. *)
Inductive ssl_call :=
| SslDisconnect
| SslDisconnectAsync (dispatch : bool)
| SslRunDisconnectHandler
| SslConnect (connect_result handshake_result : Asio.error_code) (so_rcvbuf : Z)
| SslConnectAsync
| SslRunConnectHandler
| SslReconnect (connect_result handshake_result : Asio.error_code) (so_rcvbuf : Z)
| SslReceiveAsync.

Definition ssl_call_step (ssl : OpenSSL) (op : ssl_call) : SslClient.MS unit :=
  match op with
  | SslDisconnect =>
      SslClient.sbind SslClient.disconnect (fun _ => SslClient.sret tt)
  | SslDisconnectAsync dispatch =>
      SslClient.sbind (SslClient.disconnectAsync dispatch) (fun _ => SslClient.sret tt)
  | SslRunDisconnectHandler => SslClient.disconnect_handler
  | SslConnect connect_result handshake_result so_rcvbuf =>
      SslClient.sbind (SslClient.connect ssl connect_result handshake_result so_rcvbuf)
                      (fun _ => SslClient.sret tt)
  | SslConnectAsync =>
      SslClient.sbind SslClient.connectAsync (fun _ => SslClient.sret tt)
  | SslRunConnectHandler => SslClient.connect_handler
  | SslReconnect connect_result handshake_result so_rcvbuf =>
      SslClient.sbind (SslClient.reconnect ssl connect_result handshake_result so_rcvbuf)
                      (fun _ => SslClient.sret tt)
  | SslReceiveAsync => SslClient.tryReceive
  end.

Fixpoint ssl_calls (ssl : OpenSSL) (ops : list ssl_call) : SslClient.MS unit :=
  match ops with
  | [] => SslClient.sret tt
  | op :: ops' => SslClient.sbind (ssl_call_step ssl op) (fun _ => ssl_calls ssl ops')
  end.

(** One asynchronous connect whose handshake fails with [handshake_err]:
    the posted closure, the completion of the connect, the completion of
    the handshake, the disconnect closure it dispatches, and the
    completion of the shutdown. *)
Definition failed_async_handshake (ssl : OpenSSL) (handshake_err shut_err : Asio.error_code)
    (so_rcvbuf : Z) : SslClient.MS unit :=
  SslClient.sbind SslClient.connect_handler (fun _ =>
  SslClient.sbind (SslClient.connectEndpoint ssl Asio.success so_rcvbuf) (fun _ =>
  SslClient.sbind (SslClient.handshake_handler ssl handshake_err) (fun _ =>
  SslClient.sbind SslClient.disconnect_handler (fun _ =>
  SslClient.shutdown_handler shut_err)))).

(** What [err] may have reported for [e]: nothing, or the one [onErr]. *)
Definition at_most_the_report (e : Asio.error_code) (errs : list SslClient.event) : Prop :=
  errs = [] \/ errs = map SslClient.Plain (reported e).

(** A new SSL client (the [std::atomic<bool>] flags that the constructors
    do not name are value-initialised under C++20, the standard the build
    sets), and a TLS failure: certificate verify failed. *)
Definition new_ssl_client : SslClient.t :=
  SslClient.mk (Client.init false) false false.

Definition certificate_verify_failed : Asio.error_code :=
  Asio.mk_error_code 337047686 Asio.ssl_category.

(** One asynchronous connect that goes well: the posted closure, the
    completion of the connect and the completion of the handshake. *)
Definition good_async_handshake (ssl : OpenSSL) (so_rcvbuf : Z) : SslClient.MS unit :=
  SslClient.sbind SslClient.connect_handler (fun _ =>
  SslClient.sbind (SslClient.connectEndpoint ssl Asio.success so_rcvbuf) (fun _ =>
  SslClient.handshake_handler ssl Asio.success)).

(** * Properties *)

(** ** Arithmetic and vector facts *)

Lemma wrap64_small z : 0 <= z < 2 ^ 64 -> wrap64 z = z.
Proof. intros Hz. unfold wrap64. apply Z.mod_small. exact Hz. Qed.

Lemma vsize_nonneg v : 0 <= vsize v.
Proof. unfold vsize. lia. Qed.

Lemma vsize_nil_iff v : vsize v = 0 <-> v = [].
Proof.
  unfold vsize. destruct v as [|b v]; simpl; split; intros H;
    try reflexivity; try discriminate; lia.
Qed.

Lemma vsize_app u v : vsize (u ++ v) = vsize u + vsize v.
Proof. unfold vsize. rewrite length_app. lia. Qed.

Lemma empty_true v : empty v = true <-> v = [].
Proof. destruct v; simpl; split; intros H; congruence. Qed.

Lemma empty_false v : empty v = false <-> v <> [].
Proof. destruct v; simpl; split; intros H; congruence. Qed.

Lemma gtb_true a b : b < a -> (a >? b) = true.
Proof. intros H. rewrite Z.gtb_ltb. apply Z.ltb_lt. exact H. Qed.

Lemma gtb_false a b : a <= b -> (a >? b) = false.
Proof. intros H. rewrite Z.gtb_ltb. apply Z.ltb_ge. exact H. Qed.

Lemma eqb_false a b : a <> b -> (a =? b) = false.
Proof. apply Z.eqb_neq. Qed.

Lemma bool_decide_false_iff (P : Prop) `{Decision P} : bool_decide P = false <-> ~ P.
Proof. rewrite <- not_true_iff_false, bool_decide_eq_true. reflexivity. Qed.

(** Unfolding of the monad's operations, leaving the member function's own
    tests in the goal. *)
Ltac run_monad :=
  unfold bind, get, modify, emit, ret, assert; simpl.

(** ** HandlerMemory *)

Section HandlerMemoryFacts.
Import HandlerMemory.
Variable S : Z.

Lemma alloc_fast pick n m h :
  _used m = false -> n < S ->
  alloc S pick n m h = (fast_storage, mk true, h).
Proof.
  intros Hfree Hlt. unfold alloc. rewrite Hfree.
  replace (n <? S) with true by (symmetry; apply Z.ltb_lt; exact Hlt).
  reflexivity.
Qed.

Lemma alloc_slow pick n m h :
  _used m = true \/ S <= n ->
  alloc S pick n m h
  = (fst (std_malloc pick n h), m, snd (std_malloc pick n h)).
Proof.
  intros Hno. unfold alloc.
  assert (negb (_used m) && (n <? S) = false) as ->.
  { destruct Hno as [Hu | Hge].
    - rewrite Hu. reflexivity.
    - apply andb_false_iff. right. apply Z.ltb_ge. exact Hge. }
  destruct (std_malloc pick n h) as [p h']. reflexivity.
Qed.

Lemma std_malloc_not_fast pick n h : fst (std_malloc pick n h) <> fast_storage.
Proof. destruct pick; simpl; discriminate. Qed.

Lemma free_fast m h : free fast_storage m h = (mk false, h).
Proof. reflexivity. Qed.

Lemma free_other q m h :
  q <> fast_storage -> free q m h = (m, std_free q h).
Proof.
  intros Hq. unfold free.
  rewrite (proj2 (bool_decide_false_iff (q = fast_storage)) Hq). reflexivity.
Qed.
End HandlerMemoryFacts.

(** C9.  For a [HandlerMemory] slab of capacity [S]: [alloc n] returns the
    inline fast buffer exactly when the slab is free and [n < S], and it
    then marks the slab used; otherwise the request goes to the general
    heap ([std::malloc]) and the slab is left as it was.  [free] of the
    inline pointer marks the slab free, [free] of any other pointer hands
    it to the general heap ([std::free]) and leaves the slab alone.  Hence
    an [alloc] that got the inline buffer, followed by the [free] of that
    pointer, leaves the slab free, and any [alloc] followed by its [free]
    restores the slab's flag. *)
Theorem handler_memory_alloc_free
    (S : Z) (pick : option positive) (n : Z)
    (m : HandlerMemory.t) (h : HandlerMemory.heap) :
  let r := HandlerMemory.alloc S pick n m h in
  let p := fst (fst r) in
  let m' := snd (fst r) in
  let h' := snd r in
  (p = HandlerMemory.fast_storage
     <-> HandlerMemory._used m = false /\ n < S)
  /\ (p = HandlerMemory.fast_storage
       -> m' = HandlerMemory.mk true /\ h' = h)
  /\ (p <> HandlerMemory.fast_storage
       -> (p, h') = HandlerMemory.std_malloc pick n h /\ m' = m)
  /\ HandlerMemory.free HandlerMemory.fast_storage m' h'
      = (HandlerMemory.mk false, h')
  /\ (forall q, q <> HandlerMemory.fast_storage ->
        HandlerMemory.free q m' h' = (m', HandlerMemory.std_free q h'))
  /\ (p = HandlerMemory.fast_storage ->
        HandlerMemory._used (fst (HandlerMemory.free p m' h')) = false)
  /\ HandlerMemory._used (fst (HandlerMemory.free p m' h'))
      = HandlerMemory._used m.
Proof.
  intros r p m' h'.
  assert (Hcases :
    (HandlerMemory._used m = false /\ n < S
     /\ r = (HandlerMemory.fast_storage, HandlerMemory.mk true, h))
    \/ (~ (HandlerMemory._used m = false /\ n < S)
        /\ r = (fst (HandlerMemory.std_malloc pick n h), m,
                snd (HandlerMemory.std_malloc pick n h)))).
  { destruct (HandlerMemory._used m) eqn:Hu.
    - right. split; [intros [Hf _]; discriminate |].
      apply alloc_slow. left. exact Hu.
    - destruct (Z.lt_ge_cases n S) as [Hlt | Hge].
      + left. repeat split; try assumption. apply alloc_fast; assumption.
      + right. split; [intros [_ Hlt]; lia |].
        apply alloc_slow. right. exact Hge. }
  destruct Hcases as [(Hfree & Hlt & Hr) | (Hno & Hr)];
    subst p m' h'; rewrite Hr; simpl.
  - (* fast path *)
    refine (conj _ (conj _ (conj _ (conj _ (conj _ (conj _ _)))))).
    + split; [intros _; split; assumption | reflexivity].
    + intros _. split; reflexivity.
    + intros Hne. contradiction.
    + reflexivity.
    + intros q Hq. apply free_other. exact Hq.
    + reflexivity.
    + symmetry. exact Hfree.
  - (* slow path *)
    pose proof (std_malloc_not_fast pick n h) as Hp.
    refine (conj _ (conj _ (conj _ (conj _ (conj _ (conj _ _)))))).
    + split; [intros Hfast; contradiction | intros Hyes; contradiction].
    + intros Hfast. contradiction.
    + intros _. split; [| reflexivity].
      destruct (HandlerMemory.std_malloc pick n h); reflexivity.
    + reflexivity.
    + intros q Hq. apply free_other. exact Hq.
    + intros Hfast. contradiction.
    + rewrite free_other by exact Hp. reflexivity.
Qed.

(** The default slab ([S = 1024]): a 64-byte handler gets the inline buffer
    and gives it back; a second request while it is out goes to the heap. *)
Example handler_memory_default_slab :
  HandlerMemory.alloc 1024 (Some 7%positive) 64 HandlerMemory.init ∅
  = (HandlerMemory.fast_storage, HandlerMemory.mk true, ∅)
  /\ fst (fst (HandlerMemory.alloc 1024 (Some 7%positive) 64 (HandlerMemory.mk true) ∅))
     = HandlerMemory.heap_block 7
  /\ fst (fst (HandlerMemory.alloc 1024 (Some 7%positive) 1024 HandlerMemory.init ∅))
     = HandlerMemory.heap_block 7
  /\ HandlerMemory.free HandlerMemory.fast_storage (HandlerMemory.mk true) ∅
     = (HandlerMemory.init, ∅).
Proof. repeat split. Qed.

(** ** Error filtering *)

Lemma disconnect_error_spec e :
  disconnect_error e = true <-> benign_plain e.
Proof.
  unfold disconnect_error, benign_plain, benign_socket_errors, Asio.eqb.
  rewrite !orb_true_iff, !bool_decide_eq_true, !elem_of_cons, elem_of_nil.
  tauto.
Qed.

Lemma disconnect_error_false e :
  disconnect_error e = false <-> ~ benign_plain e.
Proof.
  rewrite <- disconnect_error_spec. destruct (disconnect_error e); split;
    intros H; try reflexivity; try discriminate; try congruence.
Qed.

Lemma session_err_spec e s :
  Session.err e s
  = Returned tt s (if disconnect_error e then [] else reported e).
Proof. unfold Session.err. destruct (disconnect_error e); reflexivity. Qed.

Lemma client_err_spec e c :
  Client.err e c
  = Returned tt c (if disconnect_error e then [] else reported e).
Proof. unfold Client.err. destruct (disconnect_error e); reflexivity. Qed.

Lemma no_buffer_space_reported : disconnect_error Asio.no_buffer_space = false.
Proof. reflexivity. Qed.

(** The test of [SSL::Session::err], as one boolean. *)
Lemma ssl_session_err_spec ssl e s :
  SslSession.err ssl e s
  = Returned tt s
      (if disconnect_error e || Asio.eqb e Asio.stream_truncated
          || (bool_decide (Asio.category e = Asio.ssl_category)
              && ((ERR_GET_REASON ssl (Asio.value e)
                     =? SSL_R_DECRYPTION_FAILED_OR_BAD_RECORD_MAC ssl)
                  || (ERR_GET_REASON ssl (Asio.value e)
                        =? SSL_R_PROTOCOL_IS_SHUTDOWN ssl)
                  || (ERR_GET_REASON ssl (Asio.value e)
                        =? SSL_R_WRONG_VERSION_NUMBER ssl)))
       then [] else reported e).
Proof.
  unfold SslSession.err, disconnect_error.
  repeat match goal with
         | |- context [Asio.eqb e ?x] => destruct (Asio.eqb e x); simpl; try reflexivity
         end.
  destruct (bool_decide _ && _); reflexivity.
Qed.

Lemma ssl_client_err_spec ssl e c :
  SslClient.err ssl e c
  = Returned tt c
      (if disconnect_error e || Asio.eqb e Asio.stream_truncated
          || (bool_decide (Asio.category e = Asio.ssl_category)
              && ((ERR_GET_REASON ssl (Asio.value e)
                     =? SSL_R_DECRYPTION_FAILED_OR_BAD_RECORD_MAC ssl)
                  || (ERR_GET_REASON ssl (Asio.value e)
                        =? SSL_R_PROTOCOL_IS_SHUTDOWN ssl)
                  || (ERR_GET_REASON ssl (Asio.value e)
                        =? SSL_R_WRONG_VERSION_NUMBER ssl)))
       then [] else reported e).
Proof.
  unfold SslClient.err, disconnect_error.
  repeat match goal with
         | |- context [Asio.eqb e ?x] => destruct (Asio.eqb e x); simpl; try reflexivity
         end.
  destruct (bool_decide _ && _); reflexivity.
Qed.

Lemma ssl_benign_spec ssl e :
  disconnect_error e || Asio.eqb e Asio.stream_truncated
  || (bool_decide (Asio.category e = Asio.ssl_category)
      && ((ERR_GET_REASON ssl (Asio.value e)
             =? SSL_R_DECRYPTION_FAILED_OR_BAD_RECORD_MAC ssl)
          || (ERR_GET_REASON ssl (Asio.value e)
                =? SSL_R_PROTOCOL_IS_SHUTDOWN ssl)
          || (ERR_GET_REASON ssl (Asio.value e)
                =? SSL_R_WRONG_VERSION_NUMBER ssl))) = true
  <-> benign_tls ssl e.
Proof.
  unfold benign_tls, benign_openssl_reasons, Asio.eqb.
  rewrite !orb_true_iff, andb_true_iff, !orb_true_iff, !bool_decide_eq_true,
    !Z.eqb_eq, disconnect_error_spec, !elem_of_cons, elem_of_nil.
  unfold benign_plain. tauto.
Qed.

(** C6.  The [err] routines of [Tcp::Session], [Tcp::Client],
    [SSL::Session] and [SSL::Client] leave the object untouched and call
    [onErr] not at all for an error code of the benign set (the five socket
    codes; for TLS also [stream_truncated] and the three OpenSSL reasons),
    and exactly once, with the code's value, category name and message, for
    every other code. *)
Theorem err_reports_exactly_the_non_benign_codes
    (ssl : OpenSSL) (e : Asio.error_code) :
  (forall s : Session.t,
      (benign_plain e -> Session.err e s = Returned tt s [])
      /\ (~ benign_plain e -> Session.err e s = Returned tt s (reported e)))
  /\ (forall c : Client.t,
      (benign_plain e -> Client.err e c = Returned tt c [])
      /\ (~ benign_plain e -> Client.err e c = Returned tt c (reported e)))
  /\ (forall t : SslSession.t,
      (benign_tls ssl e -> SslSession.err ssl e t = Returned tt t [])
      /\ (~ benign_tls ssl e ->
          SslSession.err ssl e t = Returned tt t (reported e)))
  /\ (forall t : SslClient.t,
      (benign_tls ssl e -> SslClient.err ssl e t = Returned tt t [])
      /\ (~ benign_tls ssl e ->
          SslClient.err ssl e t = Returned tt t (reported e)))
  /\ count_effects is_OnErr (reported e) = 1%nat.
Proof.
  refine (conj _ (conj _ (conj _ (conj _ _)))).
  - intros s. rewrite session_err_spec. split; intros H.
    + apply disconnect_error_spec in H. rewrite H. reflexivity.
    + apply disconnect_error_false in H. rewrite H. reflexivity.
  - intros c. rewrite client_err_spec. split; intros H.
    + apply disconnect_error_spec in H. rewrite H. reflexivity.
    + apply disconnect_error_false in H. rewrite H. reflexivity.
  - intros t. rewrite ssl_session_err_spec. split; intros H.
    + apply ssl_benign_spec in H. rewrite H. reflexivity.
    + rewrite <- ssl_benign_spec in H.
      apply not_true_is_false in H. rewrite H. reflexivity.
  - intros t. rewrite ssl_client_err_spec. split; intros H.
    + apply ssl_benign_spec in H. rewrite H. reflexivity.
    + rewrite <- ssl_benign_spec in H.
      apply not_true_is_false in H. rewrite H. reflexivity.
  - reflexivity.
Qed.

(** Each benign code on a fresh object, and two codes that are reported:
    [broken_pipe] everywhere, [stream_truncated] by the plain session
    only. *)
Example err_examples :
  let s := Session.init (Session.mk_server_ref false false false 0 0) in
  let t := SslSession.mk s false in
  Forall (fun e => trace_of (Session.err e s) = []) benign_socket_errors
  /\ Forall (fun e => trace_of (SslSession.err openssl_1_1_1 e t) = [])
       (Asio.stream_truncated :: benign_socket_errors)
  /\ trace_of (SslSession.err openssl_1_1_1
                 (Asio.mk_error_code 167772427 Asio.ssl_category) t) = []
  /\ trace_of (Session.err Asio.broken_pipe s)
     = [OnErr 32 "asio.system" (Asio.message_of Asio.system_category 32)]
  /\ trace_of (Session.err Asio.stream_truncated s)
     = [OnErr 1 "asio.ssl.stream" (Asio.message_of Asio.ssl_stream_category 1)]
  /\ trace_of (SslSession.err openssl_1_1_1 Asio.broken_pipe t)
     = [OnErr 32 "asio.system" (Asio.message_of Asio.system_category 32)].
Proof.
  simpl. repeat split; repeat constructor.
Qed.

(** ** The send path: [sendAsync] *)

Lemma limit_test_true limit main_size size :
  0 <= main_size -> main_size + size < 2 ^ 64 -> 0 < size ->
  over_limit limit main_size size ->
  (wrap64 (main_size + size) >? limit) && (limit >? 0) = true.
Proof.
  intros Hm Hfit Hs [Hl Hover].
  rewrite wrap64_small by lia. rewrite !gtb_true by lia. reflexivity.
Qed.

Lemma limit_test_false limit main_size size :
  0 <= main_size -> main_size + size < 2 ^ 64 -> 0 < size ->
  ~ over_limit limit main_size size ->
  (wrap64 (main_size + size) >? limit) && (limit >? 0) = false.
Proof.
  intros Hm Hfit Hs Hno. unfold over_limit in Hno.
  rewrite wrap64_small by lia. apply andb_false_iff.
  destruct (Z.lt_ge_cases 0 limit) as [Hl | Hl].
  - left. apply gtb_false. lia.
  - right. apply gtb_false. lia.
Qed.

Lemma session_sendAsync_refused NDEBUG s bytes size :
  Session.isConnected s = true ->
  0 < size ->
  vsize (Session._send_buff_main s) + size < 2 ^ 64 ->
  over_limit (Session._send_limit s) (vsize (Session._send_buff_main s)) size ->
  Session.sendAsync NDEBUG (buffer_at bytes) size s
  = Returned false s (reported Asio.no_buffer_space).
Proof.
  intros Hc Hs Hfit Hover.
  unfold Session.sendAsync. run_monad. rewrite Hc. simpl.
  rewrite eqb_false by lia. rewrite orb_true_r.
  rewrite limit_test_true by (auto using vsize_nonneg).
  reflexivity.
Qed.

Lemma session_sendAsync_accepted NDEBUG s bytes size :
  Session.isConnected s = true ->
  0 < size ->
  vsize (Session._send_buff_main s) + size < 2 ^ 64 ->
  ~ over_limit (Session._send_limit s) (vsize (Session._send_buff_main s)) size ->
  Session.sendAsync NDEBUG (buffer_at bytes) size s
  = Returned true (session_appended s bytes size)
      (if empty (Session._send_buff_main s) || empty (Session._send_buff_flush s)
       then [Dispatch (executor_of (Session._strand_needed s)) TrySend]
       else []).
Proof.
  intros Hc Hs Hfit Hok.
  unfold Session.sendAsync. run_monad. rewrite Hc. simpl.
  rewrite eqb_false by lia. rewrite orb_true_r.
  rewrite limit_test_false by (auto using vsize_nonneg).
  destruct (empty (Session._send_buff_main s) || empty (Session._send_buff_flush s));
    reflexivity.
Qed.

Lemma client_sendAsync_refused NDEBUG c bytes size :
  Client.isReady c = true ->
  0 < size ->
  vsize (Client._send_buff_main c) + size < 2 ^ 64 ->
  over_limit (Client._send_buff_limit c) (vsize (Client._send_buff_main c)) size ->
  Client.sendAsync NDEBUG (buffer_at bytes) size c
  = Returned false c (reported Asio.no_buffer_space).
Proof.
  intros Hc Hs Hfit Hover.
  unfold Client.sendAsync. run_monad. rewrite orb_true_r. rewrite Hc. simpl.
  rewrite eqb_false by lia. simpl.
  rewrite limit_test_true by (auto using vsize_nonneg).
  reflexivity.
Qed.

Lemma client_sendAsync_accepted NDEBUG c bytes size :
  Client.isReady c = true ->
  0 < size ->
  vsize (Client._send_buff_main c) + size < 2 ^ 64 ->
  ~ over_limit (Client._send_buff_limit c) (vsize (Client._send_buff_main c)) size ->
  Client.sendAsync NDEBUG (buffer_at bytes) size c
  = Returned true (client_appended c bytes size)
      (if empty (Client._send_buff_main c) || empty (Client._send_buff_flush c)
       then [Dispatch (executor_of (Client._strand_needed c)) TrySend]
       else []).
Proof.
  intros Hc Hs Hfit Hok.
  unfold Client.sendAsync. run_monad. rewrite orb_true_r. rewrite Hc. simpl.
  rewrite eqb_false by lia. simpl.
  rewrite limit_test_false by (auto using vsize_nonneg).
  destruct (empty (Client._send_buff_main c) || empty (Client._send_buff_flush c));
    reflexivity.
Qed.

(** C4.  On a connected Session, and on a ready Client, with a non-zero
    send limit, a [sendAsync] of [size > 0] bytes from a valid buffer whose
    size added to the current send-main size exceeds the limit calls
    [onErr] once with [no_buffer_space] (the buffer-exhausted code),
    returns false and changes nothing: send-main, [bytes_pending] and the
    connected flag are as before. *)
Theorem sendAsync_over_limit_is_refused :
  (forall NDEBUG (s : Session.t) bytes size,
      Session.isConnected s = true ->
      0 < size ->
      vsize (Session._send_buff_main s) + size < 2 ^ 64 ->
      over_limit (Session._send_limit s) (vsize (Session._send_buff_main s)) size ->
      Session.sendAsync NDEBUG (buffer_at bytes) size s
      = Returned false s
          [OnErr 105 "asio.system" (Asio.message Asio.no_buffer_space)])
  /\ (forall NDEBUG (c : Client.t) bytes size,
      Client.isReady c = true ->
      0 < size ->
      vsize (Client._send_buff_main c) + size < 2 ^ 64 ->
      over_limit (Client._send_buff_limit c) (vsize (Client._send_buff_main c)) size ->
      Client.sendAsync NDEBUG (buffer_at bytes) size c
      = Returned false c
          [OnErr 105 "asio.system" (Asio.message Asio.no_buffer_space)]).
Proof.
  split; intros NDEBUG x bytes size Hc Hs Hfit Hover.
  - apply session_sendAsync_refused; assumption.
  - apply client_sendAsync_refused; assumption.
Qed.

(** Scenario 5 of the specification: limit 1024, 1025 bytes enqueued. *)
Lemma sendAsync_over_limit_witness :
  Session.sendAsync false (buffer_at (replicate 1025 x74)) 1025
    (live_session 1024 [] [] 0 false)
  = Returned false (live_session 1024 [] [] 0 false)
      [OnErr 105 "asio.system" (Asio.message Asio.no_buffer_space)]
  /\ Client.sendAsync false (buffer_at (replicate 1025 x74)) 1025
       (live_client 1024 [] [] 0 false)
     = Returned false (live_client 1024 [] [] 0 false)
         [OnErr 105 "asio.system" (Asio.message Asio.no_buffer_space)].
Proof.
  destruct sendAsync_over_limit_is_refused as [HS HC].
  split.
  - apply HS; [reflexivity | lia | vm_compute; reflexivity |].
    split; vm_compute; reflexivity.
  - apply HC; [reflexivity | lia | vm_compute; reflexivity |].
    split; vm_compute; reflexivity.
Defined.

(** What holds of a [sendAsync] of size 0: on a connected Session it
    returns true whatever the buffer and the build; on a ready Client it
    returns false when the buffer is not null or assertions are compiled
    out.  In both cases the object is unchanged and the trace is empty. *)
Lemma sendAsync_zero_size_returns :
  (forall NDEBUG (s : Session.t) buf,
      Session.isConnected s = true ->
      Session.sendAsync NDEBUG buf 0 s = Returned true s [])
  /\ (forall NDEBUG (c : Client.t) buf,
      Client.isReady c = true ->
      NDEBUG = true \/ buf <> null_buffer ->
      Client.sendAsync NDEBUG buf 0 c = Returned false c []).
Proof.
  split.
  - intros NDEBUG s buf Hc.
    unfold Session.sendAsync. run_monad. rewrite Hc. reflexivity.
  - intros NDEBUG c buf Hc Hbuf.
    unfold Client.sendAsync. run_monad.
    assert (NDEBUG || negb (is_null buf) = true) as ->.
    { destruct Hbuf as [-> | Hnn]; [reflexivity |].
      destruct buf; [contradiction | apply orb_true_r]. }
    rewrite Hc. simpl. reflexivity.
Qed.

(** C10.  The claim fails on [Client::sendAsync]: it asserts
    [buffer != nullptr] before it looks at the size, so with assertions
    compiled in (the build does not define NDEBUG) a call with a null
    buffer and size 0, which is what [sendAsync(std::string_view)] passes
    for an empty view, aborts instead of returning false, on every Client,
    ready or not.  [Session::sendAsync] tests the size before its
    assertion and returns true on the same arguments.  For every other
    zero-size call the claim holds: a connected Session returns true, a
    ready Client returns false, the object is unchanged and the trace
    empty. *)
Theorem client_sendAsync_asserts_before_the_size_test :
  (forall c : Client.t,
      Client.sendAsync false null_buffer 0 c
      = Aborted "Pointer to buffer should not be null" c [])
  /\ (forall NDEBUG (s : Session.t) buf,
      Session.isConnected s = true ->
      Session.sendAsync NDEBUG buf 0 s = Returned true s [])
  /\ (forall NDEBUG (c : Client.t) buf,
      Client.isReady c = true ->
      NDEBUG = true \/ buf <> null_buffer ->
      Client.sendAsync NDEBUG buf 0 c = Returned false c []).
Proof.
  destruct sendAsync_zero_size_returns as [HS HC].
  refine (conj _ (conj HS HC)).
  intros c. unfold Client.sendAsync. run_monad. reflexivity.
Qed.

Lemma client_sendAsync_asserts_witness :
  Client.sendAsync false null_buffer 0 (live_client 0 [] [] 0 false)
  = Aborted "Pointer to buffer should not be null" (live_client 0 [] [] 0 false) []
  /\ Session.sendAsync false null_buffer 0 (live_session 0 [] [] 0 false)
     = Returned true (live_session 0 [] [] 0 false) []
  /\ Client.sendAsync false (buffer_at []) 0 (live_client 0 [] [] 0 false)
     = Returned false (live_client 0 [] [] 0 false) [].
Proof.
  destruct client_sendAsync_asserts_before_the_size_test
    as (Habort & Hsession & Hclient).
  split; [apply Habort |]. split.
  - apply Hsession. reflexivity.
  - apply Hclient; [reflexivity | right; discriminate].
Defined.

(** C3, as the specification words it, fails: with a write in flight (the
    flush buffer holds one byte) and an empty send-main buffer, [sendAsync]
    still dispatches [trySend], on the Session and on the Client alike. *)
Lemma sendAsync_dispatches_with_write_in_flight :
  Session._send_buff_main (live_session 0 [] [x01] 0 true) = []
  /\ Session._send_buff_flush (live_session 0 [] [x01] 0 true) = [x01]
  /\ Session.sendAsync false (buffer_at test_payload) 4
       (live_session 0 [] [x01] 0 true)
     = Returned true (live_session 0 test_payload [x01] 0 true)
         [Dispatch Io TrySend]
  /\ Client.sendAsync false (buffer_at test_payload) 4
       (live_client 0 [] [x01] 0 true)
     = Returned true (live_client 0 test_payload [x01] 0 true)
         [Dispatch Io TrySend].
Proof. repeat split. Qed.

(** C3, amended.  On a connected Session, and on a ready Client, a
    [sendAsync] that passes the pre-checks (size > 0, valid buffer, limit
    not exceeded) appends the bytes to send-main, sets [bytes_pending] to
    the new size and returns true; it dispatches [trySend] exactly when
    send-main or send-flush was empty before the append, and schedules
    nothing when both held bytes. *)
Theorem sendAsync_dispatches_when_a_buffer_was_empty :
  (forall NDEBUG (s : Session.t) bytes size,
      Session.isConnected s = true ->
      0 < size ->
      vsize (Session._send_buff_main s) + size < 2 ^ 64 ->
      ~ over_limit (Session._send_limit s) (vsize (Session._send_buff_main s)) size ->
      exists tr,
        Session.sendAsync NDEBUG (buffer_at bytes) size s
        = Returned true (session_appended s bytes size) tr
        /\ (Session._send_buff_main s = [] \/ Session._send_buff_flush s = []
            -> tr = [Dispatch (executor_of (Session._strand_needed s)) TrySend])
        /\ (Session._send_buff_main s <> [] /\ Session._send_buff_flush s <> []
            -> tr = []))
  /\ (forall NDEBUG (c : Client.t) bytes size,
      Client.isReady c = true ->
      0 < size ->
      vsize (Client._send_buff_main c) + size < 2 ^ 64 ->
      ~ over_limit (Client._send_buff_limit c) (vsize (Client._send_buff_main c)) size ->
      exists tr,
        Client.sendAsync NDEBUG (buffer_at bytes) size c
        = Returned true (client_appended c bytes size) tr
        /\ (Client._send_buff_main c = [] \/ Client._send_buff_flush c = []
            -> tr = [Dispatch (executor_of (Client._strand_needed c)) TrySend])
        /\ (Client._send_buff_main c <> [] /\ Client._send_buff_flush c <> []
            -> tr = [])).
Proof.
  split; intros NDEBUG x bytes size Hc Hs Hfit Hok.
  - eexists. split; [apply session_sendAsync_accepted; assumption |].
    split.
    + intros [Hm | Hf]; [rewrite Hm | rewrite Hf]; simpl;
        rewrite ?orb_true_r; reflexivity.
    + intros [Hm Hf]. apply empty_false in Hm, Hf. rewrite Hm, Hf. reflexivity.
  - eexists. split; [apply client_sendAsync_accepted; assumption |].
    split.
    + intros [Hm | Hf]; [rewrite Hm | rewrite Hf]; simpl;
        rewrite ?orb_true_r; reflexivity.
    + intros [Hm Hf]. apply empty_false in Hm, Hf. rewrite Hm, Hf. reflexivity.
Qed.

(** Three sends on one session: into two empty buffers, behind a write in
    flight, and behind pending bytes with a write in flight. *)
Lemma sendAsync_dispatch_witness :
  (exists tr,
      Session.sendAsync false (buffer_at test_payload) 4
        (live_session 0 [] [] 0 false)
      = Returned true
          (session_appended (live_session 0 [] [] 0 false) test_payload 4) tr
      /\ tr = [Dispatch Io TrySend])
  /\ (exists tr,
      Client.sendAsync false (buffer_at test_payload) 4
        (live_client 0 [x00] [x01] 0 true)
      = Returned true
          (client_appended (live_client 0 [x00] [x01] 0 true) test_payload 4) tr
      /\ tr = []).
Proof.
  destruct sendAsync_dispatches_when_a_buffer_was_empty as [HS HC].
  split.
  - destruct (HS false (live_session 0 [] [] 0 false) test_payload 4)
      as (tr & Hrun & Hsome & _);
      [reflexivity | lia | vm_compute; reflexivity
      | intros [Hl _]; vm_compute in Hl; discriminate |].
    exists tr. split; [exact Hrun | apply Hsome; left; reflexivity].
  - destruct (HC false (live_client 0 [x00] [x01] 0 true) test_payload 4)
      as (tr & Hrun & _ & Hnone);
      [reflexivity | lia | vm_compute; reflexivity
      | intros [Hl _]; vm_compute in Hl; discriminate |].
    exists tr. split; [exact Hrun | apply Hnone; split; discriminate].
Defined.

(** ** The invariant [bytes_pending = |send-main|] *)

Lemma session_sendAsync_state NDEBUG buf size s :
  state_of (Session.sendAsync NDEBUG buf size s) = s
  \/ state_of (Session.sendAsync NDEBUG buf size s)
     = session_appended s (pointee buf) size.
Proof.
  unfold Session.sendAsync. run_monad.
  destruct (Session.isConnected s); simpl; [| left; reflexivity].
  destruct (size =? 0); simpl; [left; reflexivity |].
  destruct (NDEBUG || negb (is_null buf)); simpl; [| left; reflexivity].
  destruct (is_null buf); simpl; [left; reflexivity |].
  destruct ((wrap64 (vsize (Session._send_buff_main s) + size) >? Session._send_limit s)
            && (Session._send_limit s >? 0)); simpl; [left; reflexivity |].
  right.
  destruct (empty (Session._send_buff_main s) || empty (Session._send_buff_flush s));
    reflexivity.
Qed.

Lemma session_trySend_state s :
  state_of (Session.trySend s) = s
  \/ Session._send_buff_main (state_of (Session.trySend s)) = Session._send_buff_main s
     /\ Session._bytes_pending (state_of (Session.trySend s)) = Session._bytes_pending s
  \/ Session._send_buff_main (state_of (Session.trySend s)) = []
     /\ Session._bytes_pending (state_of (Session.trySend s)) = 0.
Proof.
  unfold Session.trySend. run_monad.
  destruct (Session._sending s || negb (Session.isConnected s)); simpl;
    [left; reflexivity |].
  destruct (empty (Session._send_buff_flush s)) eqn:Hflush; simpl.
  - apply empty_true in Hflush. right. right.
    destruct (empty (Session._send_buff_main s)); simpl; rewrite Hflush;
      split; reflexivity.
  - rewrite Hflush. simpl. right. left. split; reflexivity.
Qed.

(** C8.  [bytes_pending] equals the size of the send-main buffer on a new
    Session, and every operation of the send path keeps it so: the append
    of [sendAsync] (and each of its refusals), the main-to-flush swap of
    [trySend], and [clearBuffs]. *)
Theorem bytes_pending_is_send_main_size (s : Session.t) :
  pending_matches_main s ->
  (forall NDEBUG buf size,
      pending_matches_main (state_of (Session.sendAsync NDEBUG buf size s)))
  /\ pending_matches_main (state_of (Session.trySend s))
  /\ pending_matches_main (state_of (Session.clearBuffs s)).
Proof.
  unfold pending_matches_main. intros Hinv.
  refine (conj _ (conj _ _)).
  - intros NDEBUG buf size.
    destruct (session_sendAsync_state NDEBUG buf size s) as [-> | ->].
    + exact Hinv.
    + reflexivity.
  - destruct (session_trySend_state s) as [-> | [[-> ->] | [-> ->]]].
    + exact Hinv.
    + exact Hinv.
    + reflexivity.
  - reflexivity.
Qed.

Lemma bytes_pending_is_send_main_size_witness :
  (forall NDEBUG buf size,
      pending_matches_main
        (state_of (Session.sendAsync NDEBUG buf size
                     (live_session 0 test_payload [] 0 false))))
  /\ pending_matches_main
       (state_of (Session.trySend (live_session 0 test_payload [] 0 false)))
  /\ pending_matches_main
       (state_of (Session.clearBuffs (live_session 0 test_payload [] 0 false))).
Proof.
  apply (bytes_pending_is_send_main_size (live_session 0 test_payload [] 0 false)).
  reflexivity.
Defined.

Lemma new_session_pending_matches_main server :
  pending_matches_main (Session.init server).
Proof. reflexivity. Qed.

(** The other members of Session keep the invariant as well: the write
    and read completions, [disconnect] and its closure, and [connect] on a
    session whose send-main buffer is empty (as it is on a new one). *)
Lemma pending_matches_main_elsewhere (s : Session.t) :
  pending_matches_main s ->
  (forall e size, pending_matches_main (state_of (Session.trySend_handler e size s)))
  /\ (forall e size, pending_matches_main (state_of (Session.tryReceive_handler e size s)))
  /\ pending_matches_main (state_of (Session.tryReceive s))
  /\ (forall d, pending_matches_main (state_of (Session.disconnect d s)))
  /\ pending_matches_main (state_of (Session.disconnect_handler s))
  /\ (forall so_rcvbuf, Session._send_buff_main s = [] ->
        pending_matches_main (state_of (Session.connect so_rcvbuf s))).
Proof.
  unfold pending_matches_main. intros Hinv.
  destruct s; simpl in *. subst.
  refine (conj _ (conj _ (conj _ (conj _ (conj _ _))))).
  - intros e size.
    unfold Session.trySend_handler, Session.trySend, Session.disconnect,
      Session.err, Session.isConnected. run_monad.
    repeat match goal with
           | |- context [if ?b then _ else _] => destruct b eqn:?; simpl in *
           end;
      try reflexivity;
      repeat match goal with
             | H : empty ?v = true |- _ => apply empty_true in H; subst
             end;
      try reflexivity; try discriminate.
  - intros e size.
    unfold Session.tryReceive_handler, Session.tryReceive, Session.disconnect,
      Session.err, Session.isConnected. run_monad.
    repeat match goal with
           | |- context [if ?b then _ else _] => destruct b eqn:?; simpl in *
           end;
      reflexivity.
  - unfold Session.tryReceive, Session.isConnected. run_monad.
    repeat match goal with
           | |- context [if ?b then _ else _] => destruct b eqn:?; simpl in *
           end;
      reflexivity.
  - intros d. unfold Session.disconnect, Session.isConnected. run_monad.
    destruct _connected, d; reflexivity.
  - unfold Session.disconnect_handler, Session.clearBuffs, Session.isConnected.
    run_monad. destruct _connected; reflexivity.
  - intros so_rcvbuf Hmain. simpl in Hmain. subst.
    unfold Session.connect, Session.tryReceive, Session.isConnected. run_monad.
    destruct _receiving; reflexivity.
Qed.

(** ** The receive completion *)

Lemma receive_limit_test_true limit size :
  0 <= size -> 2 * size < 2 ^ 64 -> receive_limit_hit limit size ->
  (wrap64 (size * 2) >? limit) && (limit >? 0) = true.
Proof.
  intros Hs Hfit [Hl Hhit].
  rewrite wrap64_small by lia. rewrite !gtb_true by lia. reflexivity.
Qed.

Lemma receive_limit_test_false limit size :
  0 <= size -> 2 * size < 2 ^ 64 -> ~ receive_limit_hit limit size ->
  (wrap64 (size * 2) >? limit) && (limit >? 0) = false.
Proof.
  intros Hs Hfit Hno. unfold receive_limit_hit in Hno.
  rewrite wrap64_small by lia. apply andb_false_iff.
  destruct (Z.lt_ge_cases 0 limit) as [Hl | Hl].
  - left. apply gtb_false. lia.
  - right. apply gtb_false. lia.
Qed.

Lemma vsize_resize n v : vsize (resize n x00 v) = Z.of_nat n.
Proof. unfold vsize. rewrite length_resize. reflexivity. Qed.

Lemma vsize_doubled size v :
  0 <= size -> 2 * size < 2 ^ 64 ->
  vsize (resize (Z.to_nat (wrap64 (size * 2))) x00 v) = 2 * size.
Proof.
  intros Hs Hfit. rewrite vsize_resize, wrap64_small by lia. lia.
Qed.

(** Session: the read completion on a connected session, for a read of
    [size] bytes. *)
Lemma session_receive_completion (s : Session.t) (e : Asio.error_code) (size : Z) :
  Session.isConnected s = true ->
  0 <= size -> 2 * size < 2 ^ 64 ->
  let o := Session.tryReceive_handler e size s in
  (* the buffer was filled and may grow: it is doubled *)
  (vsize (Session._receive_buff s) = size ->
   ~ receive_limit_hit (Session._receive_limit s) size ->
   vsize (Session._receive_buff (state_of o)) = 2 * size
   /\ take (Z.to_nat size) (Session._receive_buff (state_of o))
      = Session._receive_buff s)
  (* the buffer was filled and may not grow: error, disconnect, no re-arm *)
  /\ (vsize (Session._receive_buff s) = size ->
      receive_limit_hit (Session._receive_limit s) size ->
      Session._receive_buff (state_of o) = Session._receive_buff s
      /\ trace_of o
         = [OnReceive (range (Session._receive_buff s) size) size;
            OnErr 105 "asio.system" (Asio.message Asio.no_buffer_space);
            Dispatch (executor_of (Session._strand_needed s)) DisconnectHandler]
      /\ Session._receiving (state_of o) = false
      /\ Session.isConnected
           (state_of (Session.disconnect_handler (state_of o))) = false)
  (* no error, and the limit was not hit: another read is armed *)
  /\ (Asio.is_error e = false ->
      ~ (vsize (Session._receive_buff s) = size
         /\ receive_limit_hit (Session._receive_limit s) size) ->
      Session._receiving (state_of o) = true
      /\ filter (fun x => is_AsyncReadSome x = true) (trace_of o)
         = [AsyncReadSome (executor_of (Session._strand_needed s))
              (vsize (Session._receive_buff (state_of o)))]).
Proof.
  intros Hc Hs Hfit o. subst o.
  unfold Session.tryReceive_handler, Session.tryReceive, Session.disconnect,
    Session.disconnect_handler, Session.clearBuffs, Session.err.
  unfold Session.isConnected in *.
  destruct s; simpl in *. subst _connected. run_monad.
  destruct (Z.eq_dec size 0) as [-> | Hnz].
  - (* nothing was read *)
    simpl. refine (conj _ (conj _ _)).
    + intros Hfull _. apply vsize_nil_iff in Hfull. subst _receive_buff.
      destruct (Asio.is_error e); simpl;
        [destruct (disconnect_error e) |]; simpl; split; reflexivity.
    + intros _ [Hl Hhit]. lia.
    + intros He _. rewrite He. simpl. split; reflexivity.
  - rewrite gtb_true by lia. simpl.
    refine (conj _ (conj _ _)).
    + intros Hfull Hno. rewrite Hfull, Z.eqb_refl.
      rewrite receive_limit_test_false by (auto; lia).
      assert (Htake : take (Z.to_nat size)
                        (resize (Z.to_nat (wrap64 (size * 2))) x00 _receive_buff)
                      = _receive_buff).
      { rewrite wrap64_small by lia.
        rewrite take_resize, Nat.min_l by lia.
        apply resize_all_alt. unfold vsize in Hfull. lia. }
      pose proof (vsize_doubled size _receive_buff Hs Hfit) as Hlen.
      destruct (Asio.is_error e); simpl;
        [destruct (disconnect_error e) |]; simpl; split; assumption.
    + intros Hfull Hhit. rewrite Hfull, Z.eqb_refl.
      rewrite receive_limit_test_true by (auto; lia).
      simpl. repeat split.
    + intros He Hno. rewrite He. simpl.
      destruct (vsize _receive_buff =? size) eqn:Hfull.
      * apply Z.eqb_eq in Hfull.
        rewrite receive_limit_test_false by (auto; lia; tauto).
        simpl. split; reflexivity.
      * simpl. split; reflexivity.
Qed.

(** Client: the same completion; the disconnect goes through
    [disconnectAsync(true)], which also cancels the socket's operations. *)
Lemma client_receive_completion (c : Client.t) (e : Asio.error_code) (size : Z) :
  Client.isReady c = true ->
  Client._connecting c = false ->
  0 <= size -> 2 * size < 2 ^ 64 ->
  let o := Client.tryReceive_handler e size c in
  (vsize (Client._receive_buff c) = size ->
   ~ receive_limit_hit (Client._receive_buff_limit c) size ->
   vsize (Client._receive_buff (state_of o)) = 2 * size
   /\ take (Z.to_nat size) (Client._receive_buff (state_of o))
      = Client._receive_buff c)
  /\ (vsize (Client._receive_buff c) = size ->
      receive_limit_hit (Client._receive_buff_limit c) size ->
      Client._receive_buff (state_of o) = Client._receive_buff c
      /\ trace_of o
         = [OnReceive (range (Client._receive_buff c) size) size;
            OnErr 105 "asio.system" (Asio.message Asio.no_buffer_space);
            SocketCancel;
            Dispatch (executor_of (Client._strand_needed c)) DisconnectHandler]
      /\ Client._receiving (state_of o) = false
      /\ Client.isConnected
           (state_of (Client.disconnect_handler (state_of o))) = false)
  /\ (Asio.is_error e = false ->
      ~ (vsize (Client._receive_buff c) = size
         /\ receive_limit_hit (Client._receive_buff_limit c) size) ->
      Client._receiving (state_of o) = true
      /\ filter (fun x => is_AsyncReadSome x = true) (trace_of o)
         = [AsyncReadSome (executor_of (Client._strand_needed c))
              (vsize (Client._receive_buff (state_of o)))]).
Proof.
  intros Hc Hnc Hs Hfit o. subst o.
  unfold Client.tryReceive_handler, Client.tryReceive, Client.disconnectAsync,
    Client.disconnect_handler, Client.disconnect, Client.clearBuffs,
    Client.asyncReadSome, Client.err.
  unfold Client.isReady, Client.isConnected in *.
  destruct c; simpl in *. subst _connected _connecting. run_monad.
  destruct (Z.eq_dec size 0) as [-> | Hnz].
  - simpl. refine (conj _ (conj _ _)).
    + intros Hfull _. apply vsize_nil_iff in Hfull. subst _receive_buff.
      destruct (Asio.is_error e); simpl;
        [destruct (disconnect_error e) |]; simpl; split; reflexivity.
    + intros _ [Hl Hhit]. lia.
    + intros He _. rewrite He. simpl. split; reflexivity.
  - rewrite gtb_true by lia. simpl.
    refine (conj _ (conj _ _)).
    + intros Hfull Hno. rewrite Hfull, Z.eqb_refl.
      rewrite receive_limit_test_false by (auto; lia).
      replace (wrap64 (2 * size)) with (wrap64 (size * 2)) by (f_equal; lia).
      assert (Htake : take (Z.to_nat size)
                        (resize (Z.to_nat (wrap64 (size * 2))) x00 _receive_buff)
                      = _receive_buff).
      { rewrite wrap64_small by lia.
        rewrite take_resize, Nat.min_l by lia.
        apply resize_all_alt. unfold vsize in Hfull. lia. }
      pose proof (vsize_doubled size _receive_buff Hs Hfit) as Hlen.
      destruct (Asio.is_error e); simpl;
        [destruct (disconnect_error e) |]; simpl; split; assumption.
    + intros Hfull Hhit. rewrite Hfull, Z.eqb_refl.
      rewrite receive_limit_test_true by (auto; lia).
      simpl. repeat split.
    + intros He Hno. rewrite He. simpl.
      destruct (vsize _receive_buff =? size) eqn:Hfull.
      * apply Z.eqb_eq in Hfull.
        rewrite receive_limit_test_false by (auto; lia; tauto).
        simpl. split; reflexivity.
      * simpl. split; reflexivity.
Qed.

(** C5.  In the read completion of a connected Session and of a ready
    Client: a read that filled the receive buffer exactly doubles the
    buffer (its old contents kept); but when twice the size would pass a
    non-zero receive limit, [onErr] is called with [no_buffer_space], the
    disconnect is dispatched (and, run, leaves the object disconnected), the
    buffer is not grown and no read is armed; and when the completion
    carries no error and the limit was not hit, exactly one new read is
    armed, over the whole buffer. *)
Theorem receive_completion_doubles_or_disconnects
    (e : Asio.error_code) (size : Z) :
  0 <= size -> 2 * size < 2 ^ 64 ->
  (forall s : Session.t,
      Session.isConnected s = true ->
      let o := Session.tryReceive_handler e size s in
      (vsize (Session._receive_buff s) = size ->
       ~ receive_limit_hit (Session._receive_limit s) size ->
       vsize (Session._receive_buff (state_of o)) = 2 * size
       /\ take (Z.to_nat size) (Session._receive_buff (state_of o))
          = Session._receive_buff s)
      /\ (vsize (Session._receive_buff s) = size ->
          receive_limit_hit (Session._receive_limit s) size ->
          Session._receive_buff (state_of o) = Session._receive_buff s
          /\ trace_of o
             = [OnReceive (range (Session._receive_buff s) size) size;
                OnErr 105 "asio.system" (Asio.message Asio.no_buffer_space);
                Dispatch (executor_of (Session._strand_needed s)) DisconnectHandler]
          /\ Session._receiving (state_of o) = false
          /\ Session.isConnected
               (state_of (Session.disconnect_handler (state_of o))) = false)
      /\ (Asio.is_error e = false ->
          ~ (vsize (Session._receive_buff s) = size
             /\ receive_limit_hit (Session._receive_limit s) size) ->
          Session._receiving (state_of o) = true
          /\ filter (fun x => is_AsyncReadSome x = true) (trace_of o)
             = [AsyncReadSome (executor_of (Session._strand_needed s))
                  (vsize (Session._receive_buff (state_of o)))]))
  /\ (forall c : Client.t,
      Client.isReady c = true ->
      Client._connecting c = false ->
      let o := Client.tryReceive_handler e size c in
      (vsize (Client._receive_buff c) = size ->
       ~ receive_limit_hit (Client._receive_buff_limit c) size ->
       vsize (Client._receive_buff (state_of o)) = 2 * size
       /\ take (Z.to_nat size) (Client._receive_buff (state_of o))
          = Client._receive_buff c)
      /\ (vsize (Client._receive_buff c) = size ->
          receive_limit_hit (Client._receive_buff_limit c) size ->
          Client._receive_buff (state_of o) = Client._receive_buff c
          /\ trace_of o
             = [OnReceive (range (Client._receive_buff c) size) size;
                OnErr 105 "asio.system" (Asio.message Asio.no_buffer_space);
                SocketCancel;
                Dispatch (executor_of (Client._strand_needed c)) DisconnectHandler]
          /\ Client._receiving (state_of o) = false
          /\ Client.isConnected
               (state_of (Client.disconnect_handler (state_of o))) = false)
      /\ (Asio.is_error e = false ->
          ~ (vsize (Client._receive_buff c) = size
             /\ receive_limit_hit (Client._receive_buff_limit c) size) ->
          Client._receiving (state_of o) = true
          /\ filter (fun x => is_AsyncReadSome x = true) (trace_of o)
             = [AsyncReadSome (executor_of (Client._strand_needed c))
                  (vsize (Client._receive_buff (state_of o)))])).
Proof.
  intros Hs Hfit. split.
  - intros s Hc. apply session_receive_completion; assumption.
  - intros c Hc Hnc. apply client_receive_completion; assumption.
Qed.

(** Scenario 6 of the specification: an 8-byte buffer filled by one read,
    limit 12 (doubling to 16 would pass it) on the session; no limit on the
    client, whose buffer grows to 16 and is read again. *)
Lemma receive_completion_witness :
  trace_of (Session.tryReceive_handler Asio.success 8 (receiving_session 12))
  = [OnReceive (replicate 8 x00) 8;
     OnErr 105 "asio.system" (Asio.message Asio.no_buffer_space);
     Dispatch Io DisconnectHandler]
  /\ vsize (Client._receive_buff
             (state_of (Client.tryReceive_handler Asio.success 8
                          (receiving_client 0)))) = 16
  /\ filter (fun x => is_AsyncReadSome x = true)
       (trace_of (Client.tryReceive_handler Asio.success 8 (receiving_client 0)))
     = [AsyncReadSome Io 16].
Proof.
  destruct (receive_completion_doubles_or_disconnects Asio.success 8)
    as [HS HC]; [lia | vm_compute; reflexivity |].
  destruct (HS (receiving_session 12) eq_refl) as (_ & Hhit & _).
  destruct (HC (receiving_client 0) eq_refl eq_refl) as (Hgrow & _ & Harm).
  split; [| split].
  - apply Hhit; [reflexivity | split; vm_compute; reflexivity].
  - apply Hgrow; [reflexivity | intros [Hl _]; simpl in Hl; lia].
  - destruct Harm as [_ Harm];
      [reflexivity | intros [_ [Hl _]]; simpl in Hl; lia |].
    exact Harm.
Defined.

(** ** The send path: [trySend] and its completion *)

(** [Session::trySend] with bytes left in flush: one write, over the
    suffix of flush that starts at the flush offset. *)
Lemma session_trySend_writes_tail (s : Session.t) :
  Session.isConnected s = true ->
  Session._sending s = false ->
  Session._send_buff_flush s <> [] ->
  0 <= Session._send_flush_offset s <= vsize (Session._send_buff_flush s) ->
  vsize (Session._send_buff_flush s) < 2 ^ 64 ->
  Session.trySend s
  = Returned tt (Session.set_sending true s)
      [AsyncWriteSome (executor_of (Session._strand_needed s))
         (drop (Z.to_nat (Session._send_flush_offset s)) (Session._send_buff_flush s))].
Proof.
  intros Hc Hns Hne Hoff Hfit.
  unfold Session.trySend. unfold Session.isConnected in *.
  destruct s; simpl in *. subst _connected _sending. run_monad.
  apply empty_false in Hne. rewrite Hne. simpl. rewrite Hne.
  unfold range. rewrite wrap64_small by lia.
  rewrite take_ge; [reflexivity |].
  rewrite length_drop. unfold vsize in *. lia.
Qed.

(** [Session::trySend] on an empty flush: send-main is swapped in and
    written from its first byte. *)
Lemma session_trySend_swaps (s : Session.t) :
  Session.isConnected s = true ->
  Session._sending s = false ->
  Session._send_buff_flush s = [] ->
  Session._send_buff_main s <> [] ->
  vsize (Session._send_buff_main s) < 2 ^ 64 ->
  trace_of (Session.trySend s)
  = [AsyncWriteSome (executor_of (Session._strand_needed s))
       (Session._send_buff_main s)]
  /\ Session._send_buff_flush (state_of (Session.trySend s))
     = Session._send_buff_main s
  /\ Session._send_buff_main (state_of (Session.trySend s)) = []
  /\ Session._send_flush_offset (state_of (Session.trySend s)) = 0.
Proof.
  intros Hc Hns Hfl Hne Hfit.
  unfold Session.trySend. unfold Session.isConnected in *.
  destruct s; simpl in *. subst _connected _sending _send_buff_flush. run_monad.
  apply empty_false in Hne. rewrite Hne. simpl.
  unfold range. rewrite Z.sub_0_r, wrap64_small by (pose proof (vsize_nonneg _send_buff_main); lia).
  change (Z.to_nat 0) with 0%nat. rewrite drop_0.
  rewrite take_ge by (unfold vsize; lia).
  repeat split.
Qed.

(** [Client::trySend] with bytes left in flush: one write, over the whole
    of flush, whatever the flush offset. *)
Lemma client_trySend_writes_whole_flush (c : Client.t) :
  Client.isReady c = true ->
  Client._sending c = false ->
  Client._send_buff_flush c <> [] ->
  Client.trySend c
  = Returned tt (Client.set_sending true c)
      [AsyncWriteSome (executor_of (Client._strand_needed c))
         (Client._send_buff_flush c)].
Proof.
  intros Hc Hns Hne.
  unfold Client.trySend, Client.asyncWriteSome.
  unfold Client.isReady, Client.isConnected in *.
  destruct c; simpl in *. subst _connected _sending. run_monad.
  apply empty_false in Hne. rewrite Hne. simpl. rewrite Hne.
  unfold range. rewrite take_ge by (unfold vsize; lia). reflexivity.
Qed.

(** The completion of a partial write on a Session: the next write is
    issued over the bytes not yet written. *)
Lemma session_partial_write_continues_with_tail
    (s : Session.t) (written rest : list byte) :
  Session.isConnected s = true ->
  Session._send_buff_flush s = written ++ rest ->
  Session._send_flush_offset s = 0 ->
  written <> [] -> rest <> [] ->
  vsize (written ++ rest) < 2 ^ 64 ->
  trace_of (Session.trySend_handler Asio.success (vsize written) s)
  = [OnSend (vsize written) (Session._bytes_pending s);
     AsyncWriteSome (executor_of (Session._strand_needed s)) rest].
Proof.
  intros Hc Hfl Hoff Hw Hr Hfit.
  assert (0 < vsize written).
  { pose proof (vsize_nonneg written). pose proof (vsize_nil_iff written). 
    destruct (Z.eq_dec (vsize written) 0); [tauto | lia]. }
  assert (0 < vsize rest).
  { pose proof (vsize_nonneg rest). pose proof (vsize_nil_iff rest).
    destruct (Z.eq_dec (vsize rest) 0); [tauto | lia]. }
  rewrite vsize_app in Hfit.
  unfold Session.trySend_handler, Session.trySend. unfold Session.isConnected in *.
  destruct s; simpl in *. subst. run_monad.
  rewrite gtb_true by lia. simpl.
  rewrite Z.add_0_l, (wrap64_small (vsize written)) by lia.
  rewrite vsize_app. rewrite eqb_false by lia. simpl.
  assert (Hne : empty (written ++ rest) = false).
  { apply empty_false. destruct written; [congruence | discriminate]. }
  rewrite Hne. simpl. rewrite Hne. rewrite ?vsize_app.
  replace (vsize written + vsize rest - vsize written) with (vsize rest) by lia.
  rewrite (wrap64_small (vsize rest)) by lia.
  unfold range, vsize. rewrite !Nat2Z.id, drop_app_length, firstn_all.
  reflexivity.
Qed.

(** C2.  The claim fails on the Client: after a write that took only the
    first [|written|] bytes of flush, the completion advances the flush
    offset to [|written|] and re-arms a write over the whole of flush, so
    the bytes already written are submitted again.  (The Session submits
    [rest]: [session_partial_write_continues_with_tail].) *)
Theorem client_partial_write_resubmits_written_bytes
    (c : Client.t) (written rest : list byte) :
  Client.isReady c = true ->
  Client._send_buff_flush c = written ++ rest ->
  Client._send_flush_offset c = 0 ->
  written <> [] -> rest <> [] ->
  vsize (written ++ rest) < 2 ^ 64 ->
  trace_of (Client.trySend_handler Asio.success (vsize written) c)
  = [OnSend (vsize written) (Client._bytes_pending c);
     AsyncWriteSome (executor_of (Client._strand_needed c)) (written ++ rest)]
  /\ Client._send_flush_offset
       (state_of (Client.trySend_handler Asio.success (vsize written) c))
     = vsize written.
Proof.
  intros Hc Hfl Hoff Hw Hr Hfit.
  assert (0 < vsize written).
  { pose proof (vsize_nonneg written). pose proof (vsize_nil_iff written).
    destruct (Z.eq_dec (vsize written) 0); [tauto | lia]. }
  assert (0 < vsize rest).
  { pose proof (vsize_nonneg rest). pose proof (vsize_nil_iff rest).
    destruct (Z.eq_dec (vsize rest) 0); [tauto | lia]. }
  rewrite vsize_app in Hfit.
  unfold Client.trySend_handler, Client.trySend, Client.asyncWriteSome.
  unfold Client.isReady, Client.isConnected in *.
  destruct c; simpl in *. subst. run_monad.
  rewrite gtb_true by lia. simpl.
  rewrite Z.add_0_l, (wrap64_small (vsize written)) by lia.
  rewrite vsize_app. rewrite eqb_false by lia. simpl.
  assert (Hne : empty (written ++ rest) = false).
  { apply empty_false. destruct written; [congruence | discriminate]. }
  rewrite Hne. simpl. rewrite Hne. simpl.
  unfold range. rewrite take_ge by (unfold vsize; lia).
  split; reflexivity.
Qed.

(** "test" in flush, the first write takes "te": the next write is issued
    over "test" again. *)
Lemma client_partial_write_witness :
  trace_of (Client.trySend_handler Asio.success 2
              (live_client 0 [] test_payload 0 true))
  = [OnSend 2 0; AsyncWriteSome Io test_payload]
  /\ Client._send_flush_offset
       (state_of (Client.trySend_handler Asio.success 2
                    (live_client 0 [] test_payload 0 true)))
     = 2.
Proof.
  apply (client_partial_write_resubmits_written_bytes
           (live_client 0 [] test_payload 0 true) [x74; x65] [x73; x74]);
    [reflexivity | reflexivity | reflexivity | discriminate | discriminate
    | vm_compute; reflexivity].
Defined.

(** The same campaign one step further: the second write takes all four
    bytes, the offset becomes 6, which is not the size of flush, so flush
    is not cleared and "test" is submitted a third time.  On the Session
    the second write is "st" and the campaign ends with [onEmpty]. *)
Example client_flush_is_never_drained :
  let c1 := state_of (Client.trySend_handler Asio.success 2
                        (live_client 0 [] test_payload 0 true)) in
  let o2 := Client.trySend_handler Asio.success 4 c1 in
  Client._send_flush_offset (state_of o2) = 6
  /\ Client._send_buff_flush (state_of o2) = test_payload
  /\ trace_of o2 = [OnSend 4 0; AsyncWriteSome Io test_payload].
Proof. repeat split. Qed.

Example session_flush_is_drained :
  let s1 := state_of (Session.trySend_handler Asio.success 2
                        (live_session 0 [] test_payload 0 true)) in
  let o2 := Session.trySend_handler Asio.success 2 s1 in
  trace_of (Session.trySend_handler Asio.success 2
              (live_session 0 [] test_payload 0 true))
  = [OnSend 2 0; AsyncWriteSome Io [x73; x74]]
  /\ Session._send_buff_flush (state_of o2) = []
  /\ Session._send_flush_offset (state_of o2) = 0
  /\ trace_of o2 = [OnSend 2 0; OnEmpty].
Proof. repeat split. Qed.

(** ** The Client's connect *)

(** The completion of [async_connect] without error on a client that is
    not connected. *)
Lemma client_connected_handler_trace (c : Client.t) (so_rcvbuf : Z) :
  Client.isConnected c = false ->
  trace_of (Client.connected_handler Asio.success so_rcvbuf c)
  = [SetOptions (Client._keep_alive c) (Client._no_delay c); OnConnect]
    ++ (if Client._receiving c then []
        else [AsyncReadSome (executor_of (Client._strand_needed c))
                (Z.of_nat (Z.to_nat so_rcvbuf))])
    ++ [OnConnect]
    ++ (if empty (Client._send_buff_main c) then [OnEmpty] else []).
Proof.
  intros Hc.
  unfold Client.connected_handler, Client.tryReceive, Client.asyncReadSome.
  unfold Client.isReady, Client.isConnected in *.
  destruct c; simpl in *. subst. run_monad.
  destruct _receiving; simpl; rewrite ?vsize_resize;
    destruct (empty _send_buff_main); reflexivity.
Qed.

(** C1.  The claim fails on [Client::connectAsync]: a successful
    asynchronous connect calls [onConnect] twice, once before and once
    after arming the receive loop, and then [onEmpty]. *)
Theorem connectAsync_calls_onConnect_twice (c : Client.t) (so_rcvbuf : Z) :
  Client.isConnected c = false ->
  Client._connecting c = false ->
  trace_of (connectAsync_pass Asio.success so_rcvbuf c)
  = [Post (executor_of (Client._strand_needed c)) ConnectHandler;
     AsyncConnect (executor_of (Client._strand_needed c));
     SetOptions (Client._keep_alive c) (Client._no_delay c);
     OnConnect]
    ++ (if Client._receiving c then []
        else [AsyncReadSome (executor_of (Client._strand_needed c))
                (Z.of_nat (Z.to_nat so_rcvbuf))])
    ++ [OnConnect]
    ++ (if empty (Client._send_buff_main c) then [OnEmpty] else [])
  /\ count_effects is_OnConnect
       (trace_of (connectAsync_pass Asio.success so_rcvbuf c)) = 2%nat
  /\ value_of (connectAsync_pass Asio.success so_rcvbuf c) = Some true
  /\ Client.isConnected (state_of (connectAsync_pass Asio.success so_rcvbuf c))
     = true.
Proof.
  intros Hc Hnc.
  unfold connectAsync_pass, Client.connectAsync, Client.connect_handler,
    Client.connected_handler, Client.tryReceive, Client.asyncReadSome.
  unfold Client.isReady, Client.isConnected in *.
  destruct c; simpl in *. subst. run_monad.
  destruct _receiving; simpl; rewrite ?vsize_resize;
    destruct (empty _send_buff_main); repeat split.
Qed.

(** A new client, [SO_RCVBUF] of 8 bytes. *)
Lemma connectAsync_witness :
  trace_of (connectAsync_pass Asio.success 8 (Client.init false))
  = [Post Io ConnectHandler; AsyncConnect Io; SetOptions false false;
     OnConnect; AsyncReadSome Io 8; OnConnect; OnEmpty]
  /\ count_effects is_OnConnect
       (trace_of (connectAsync_pass Asio.success 8 (Client.init false))) = 2%nat
  /\ value_of (connectAsync_pass Asio.success 8 (Client.init false)) = Some true
  /\ Client.isConnected
       (state_of (connectAsync_pass Asio.success 8 (Client.init false))) = true.
Proof.
  apply (connectAsync_calls_onConnect_twice (Client.init false) 8);
    reflexivity.
Defined.

(** The sibling paths call [onConnect] once: the synchronous
    [Client::connect] and [Session::connect]. *)
Lemma connect_calls_onConnect_once :
  (forall (c : Client.t) so_rcvbuf,
      Client.isConnected c = false ->
      count_effects is_OnConnect
        (trace_of (Client.connect Asio.success so_rcvbuf c)) = 1%nat)
  /\ (forall (s : Session.t) so_rcvbuf,
      count_effects is_OnConnect (trace_of (Session.connect so_rcvbuf s)) = 1%nat).
Proof.
  split.
  - intros c so_rcvbuf Hc.
    unfold Client.connect. unfold Client.isConnected in *.
    destruct c; simpl in *. subst. run_monad.
    destruct (empty _send_buff_main); reflexivity.
  - intros s so_rcvbuf.
    unfold Session.connect, Session.tryReceive. unfold Session.isConnected.
    destruct s; simpl. run_monad.
    destruct _receiving; simpl; destruct (empty _send_buff_main); reflexivity.
Qed.

(** ** [Server::restart] *)

Lemma run_cons NDEBUG who sched cfg :
  Server.run NDEBUG (who :: sched) cfg
  = Server.run NDEBUG sched (Server.step NDEBUG who cfg).
Proof. reflexivity. Qed.

Lemma restart_stuck_step NDEBUG who cfg :
  restart_stuck cfg -> restart_stuck (Server.step NDEBUG who cfg).
Proof.
  intros (Hpc & Hstopped & Hnostart).
  destruct who as [| throws]; unfold Server.step.
  - (* the caller tests the flag and yields *)
    rewrite Hpc, Hstopped. simpl. repeat split; assumption.
  - (* the reactor runs one closure; none of them starts the server *)
    destruct (Server.posted cfg) as [| k rest] eqn:Hq.
    + repeat split; try assumption. rewrite Hq. exact Hnostart.
    + assert (Hk : k <> StartHandler).
      { intros ->. apply Hnostart. apply list_elem_of_here. }
      assert (Hrest : StartHandler ∉ rest).
      { intros Hin. apply Hnostart. apply list_elem_of_further. exact Hin. }
      assert (Hrun : Server.run_task throws k (Server.server cfg)
                     = Returned tt (Server.server cfg) []).
      { unfold Server.isStarted in Hstopped.
        destruct k; try reflexivity; try contradiction.
        unfold Server.run_task, Server.stop_handler. run_monad.
        unfold Server.isStarted. rewrite Hstopped. reflexivity. }
      rewrite Hrun. simpl. rewrite app_nil_r.
      repeat split; assumption.
Qed.

Lemma restart_stuck_forever NDEBUG sched : forall cfg,
  restart_stuck cfg -> restart_stuck (Server.run NDEBUG sched cfg).
Proof.
  induction sched as [| who sched IH]; intros cfg Hstuck.
  - exact Hstuck.
  - rewrite run_cons. apply IH. apply restart_stuck_step. exact Hstuck.
Qed.

(** The call of [stop()] and one turn of the reactor: the server has
    stopped and the caller is at the loop. *)
Lemma restart_after_stop_ran NDEBUG throws (s : Server.t) :
  Server.isStarted s = true ->
  restart_stuck (Server.run NDEBUG [Server.Caller; Server.Reactor throws]
                   (Server.restart_call s)).
Proof.
  intros Hs. unfold Server.isStarted in Hs.
  destruct s; simpl in *. subst.
  unfold restart_stuck. cbn.
  repeat split. intros Hin.
  apply list_elem_of_singleton in Hin. discriminate.
Qed.

(** C7.  The claim fails on [Server::restart]: its loop
    [while (!isStarted()) yield()] waits while the server is stopped, not
    until it has stopped.  Called on a started server, if the reactor has
    not yet run the stop closure when the loop is tested, the loop is left
    at once and [start()] finds the server still started: it trips its
    assertion, or (with NDEBUG) returns false, and the server is left with
    the stop closure pending.  If the reactor runs the stop closure first,
    the loop spins under every further schedule and [restart] never
    returns. *)
Theorem restart_waits_while_stopped (NDEBUG : bool) (s : Server.t) :
  Server.isStarted s = true ->
  Server.caller (Server.run NDEBUG [Server.Caller; Server.Caller; Server.Caller]
                   (Server.restart_call s))
  = (if NDEBUG then Server.Finished false
     else Server.Crashed "TCP server is already running")
  /\ Server.posted (Server.run NDEBUG [Server.Caller; Server.Caller; Server.Caller]
                     (Server.restart_call s))
     = [StopHandler]
  /\ (forall throws sched,
        Server.caller
          (Server.run NDEBUG (Server.Caller :: Server.Reactor throws :: sched)
             (Server.restart_call s))
        = Server.AtWhile
        /\ Server.isStarted
             (Server.server
                (Server.run NDEBUG
                   (Server.Caller :: Server.Reactor throws :: sched)
                   (Server.restart_call s)))
           = false).
Proof.
  intros Hs. refine (conj _ (conj _ _)).
  - unfold Server.isStarted in Hs. destruct s; simpl in *. subst.
    destruct NDEBUG; reflexivity.
  - unfold Server.isStarted in Hs. destruct s; simpl in *. subst.
    destruct NDEBUG; reflexivity.
  - intros throws sched.
    pose proof (restart_after_stop_ran NDEBUG throws s Hs) as Hstuck.
    apply (restart_stuck_forever NDEBUG sched) in Hstuck.
    destruct Hstuck as (Hpc & Hstopped & _).
    split; assumption.
Qed.

Lemma restart_witness :
  Server.caller (Server.run false [Server.Caller; Server.Caller; Server.Caller]
                   (Server.restart_call started_server))
  = Server.Crashed "TCP server is already running"
  /\ Server.posted (Server.run false [Server.Caller; Server.Caller; Server.Caller]
                     (Server.restart_call started_server))
     = [StopHandler]
  /\ (forall throws sched,
        Server.caller
          (Server.run false (Server.Caller :: Server.Reactor throws :: sched)
             (Server.restart_call started_server))
        = Server.AtWhile
        /\ Server.isStarted
             (Server.server
                (Server.run false
                   (Server.Caller :: Server.Reactor throws :: sched)
                   (Server.restart_call started_server)))
           = false).
Proof.
  apply (restart_waits_while_stopped false started_server). reflexivity.
Defined.

(** [restart] returns true only through a race: the loop is tested before
    the stop closure runs, and the stop closure runs before [start()]
    tests the flag. *)
Example restart_succeeds_by_race :
  Server.caller
    (Server.run true
       [Server.Caller; Server.Caller; Server.Reactor None; Server.Caller]
       (Server.restart_call started_server))
  = Server.Finished true
  /\ Server.isStarted
       (Server.server
          (Server.run true
             [Server.Caller; Server.Caller; Server.Reactor None; Server.Caller;
              Server.Reactor None; Server.Reactor None]
             (Server.restart_call started_server)))
     = true.
Proof. split; reflexivity. Qed.

(** * Further properties of the code *)

(** ** A Session's send path under arbitrary use *)

Lemma vsize_drop (n : Z) (v : list byte) :
  0 <= n <= vsize v -> vsize (drop (Z.to_nat n) v) = vsize v - n.
Proof. intros Hn. unfold vsize in *. rewrite length_drop. lia. Qed.

Lemma vsize_pos_nonempty (v : list byte) : v <> [] -> 0 < vsize v.
Proof.
  intros Hne. pose proof (vsize_nonneg v). pose proof (vsize_nil_iff v).
  destruct (Z.eq_dec (vsize v) 0); [tauto | lia].
Qed.

Lemma empty_iff_vsize (v : list byte) : empty v = (vsize v =? 0).
Proof. destruct v; reflexivity. Qed.

(** The buffer that [trySend] hands to [async_write_some]. *)
Lemma range_tail (v : list byte) (off : Z) :
  0 <= off <= vsize v -> vsize v < 2 ^ 64 ->
  range (drop (Z.to_nat off) v) (wrap64 (vsize v - off)) = drop (Z.to_nat off) v.
Proof.
  intros Hoff Hfit. rewrite wrap64_small by lia. unfold range.
  apply take_ge. rewrite length_drop. unfold vsize in *. lia.
Qed.

(** The completion of the write in flight, [k] bytes taken. *)
Lemma write_completion_step (s : Session.t) (k : Z) :
  send_path_ok s -> send_counters_ok s ->
  Session._sending s = true ->
  0 <= k <= vsize (in_flight s) ->
  let o := Session.trySend_handler Asio.success k s in
  send_path_ok (state_of o)
  /\ send_counters_ok (state_of o)
  /\ take (Z.to_nat k) (in_flight s) ++ unsent (state_of o) = unsent s
  /\ wrap64 (Session._bytes_sent (state_of o)) = wrap64 (Session._bytes_sent s + k)
  /\ count_effects is_AsyncWriteSome (trace_of o)
     = (if Session._sending (state_of o) then 1%nat else 0%nat)
  /\ (Session._sending (state_of o) = false -> unsent (state_of o) = [])
  /\ writes_of (trace_of o)
     = (if Session._sending (state_of o) then [in_flight (state_of o)] else []).
Proof.
  unfold send_path_ok, send_counters_ok, unsent, in_flight, Session.isConnected.
  intros (Hc & Hmain & Hflush & Hshape) (Hpend & Hsending) Hs Hk.
  rewrite Hs in Hshape.
  rewrite vsize_drop in Hk, Hsending by lia.
  unfold Session.trySend_handler, Session.trySend, Session.isConnected.
  destruct s; simpl in *. subst _connected _sending _bytes_pending _bytes_sending.
  run_monad.
  pose proof (vsize_nonneg _send_buff_main) as Hmain0.
  assert (Hne : empty _send_buff_flush = false)
    by (rewrite empty_iff_vsize; apply Z.eqb_neq; lia).
  destruct (Z.eq_dec k 0) as [-> | Hk0].
  - (* nothing was taken: the same write is issued again *)
    simpl. rewrite Hne. simpl. rewrite Hne. simpl.
    rewrite vsize_drop by lia.
    refine (conj _ (conj _ (conj _ (conj _ (conj _ (conj _ _)))))); try reflexivity.
    + repeat split; try assumption; lia.
    + split; reflexivity.
    + rewrite Z.add_0_r. reflexivity.
    + discriminate.
    + rewrite range_tail by lia. reflexivity.
  - rewrite gtb_true by lia. simpl.
    rewrite (wrap64_small (_send_flush_offset + k)) by lia.
    destruct (Z.eq_dec (_send_flush_offset + k) (vsize _send_buff_flush)) as [Hall | Hpart].
    + (* the write took the rest of flush: flush is cleared, main swapped in *)
      rewrite Hall, Z.eqb_refl. simpl.
      replace (vsize _send_buff_flush - _send_flush_offset - k) with 0 by lia.
      rewrite take_ge by (rewrite length_drop; unfold vsize in *; lia).
      destruct _send_buff_main as [| b main'] eqn:Hm; simpl.
      * refine (conj _ (conj _ (conj _ (conj _ (conj _ (conj _ _)))))); try reflexivity.
        -- repeat split; try assumption; reflexivity.
        -- split; reflexivity.
        -- unfold wrap64. rewrite Z.mod_mod by lia. reflexivity.
      * rewrite <- Hm in *.
        assert (0 < vsize _send_buff_main) by (rewrite Hm; unfold vsize; simpl; lia).
        refine (conj _ (conj _ (conj _ (conj _ (conj _ (conj _ _)))))).
        -- repeat split; try assumption; try lia.
        -- split; [reflexivity |].
           change (wrap64 0) with 0. rewrite Z.add_0_l. apply wrap64_small. lia.
        -- rewrite app_nil_r, Hm. reflexivity.
        -- unfold wrap64. rewrite Z.mod_mod by lia. reflexivity.
        -- reflexivity.
        -- discriminate.
        -- f_equal. rewrite wrap64_small by lia. unfold range.
           apply take_ge. unfold vsize. lia.
    + (* bytes of flush are left: the next write starts after them *)
      rewrite eqb_false by lia. simpl. rewrite Hne. simpl. rewrite Hne. simpl.
      rewrite vsize_drop by lia.
      rewrite (wrap64_small (vsize _send_buff_flush - _send_flush_offset - k)) by lia.
      refine (conj _ (conj _ (conj _ (conj _ (conj _ (conj _ _)))))).
      * repeat split; try assumption; lia.
      * split; [reflexivity | lia].
      * rewrite app_assoc. f_equal.
        rewrite Z2Nat.inj_add by lia. rewrite <- drop_drop.
        apply take_drop.
      * unfold wrap64. rewrite Z.mod_mod by lia. reflexivity.
      * reflexivity.
      * discriminate.
      * rewrite (range_tail _send_buff_flush (_send_flush_offset + k)) by lia.
        reflexivity.
Qed.

(** A [sendAsync] with a readable buffer on a connected session. *)
Lemma send_async_step (s : Session.t) (bytes : list byte) :
  send_path_ok s -> send_counters_ok s ->
  vsize (Session._send_buff_main s) + vsize bytes < 2 ^ 64 ->
  let o := Session.sendAsync false (buffer_at bytes) (vsize bytes) s in
  send_path_ok (state_of o)
  /\ send_counters_ok (state_of o)
  /\ unsent (state_of o)
     = unsent s ++ (if bool_decide (value_of o = Some true) then bytes else [])
  /\ Session._bytes_sent (state_of o) = Session._bytes_sent s
  /\ Session._sending (state_of o) = Session._sending s
  /\ count_effects is_AsyncWriteSome (trace_of o) = 0%nat
  /\ in_flight (state_of o) = in_flight s
  /\ writes_of (trace_of o) = [].
Proof.
  unfold send_path_ok, send_counters_ok, unsent, in_flight, Session.isConnected.
  intros (Hc & Hmain & Hflush & Hshape) (Hpend & Hsending) Hfit.
  unfold Session.sendAsync, Session.err, Session.isConnected.
  destruct s; simpl in *. subst _connected _bytes_pending _bytes_sending.
  run_monad.
  pose proof (vsize_nonneg _send_buff_main) as Hmain0.
  pose proof (vsize_nonneg bytes) as Hbytes0.
  destruct (Z.eq_dec (vsize bytes) 0) as [Hzero | Hpos].
  - rewrite Hzero. simpl. apply vsize_nil_iff in Hzero. subst bytes.
    rewrite app_nil_r. repeat split; try assumption; reflexivity.
  - rewrite eqb_false by exact Hpos. simpl.
    destruct ((wrap64 (vsize _send_buff_main + vsize bytes) >? _send_limit)
              && (_send_limit >? 0)); simpl.
    + rewrite app_nil_r. repeat split; try assumption; reflexivity.
    + assert (Hrange : range bytes (vsize bytes) = bytes).
      { unfold range, vsize. rewrite Nat2Z.id. apply firstn_all. }
      rewrite Hrange.
      destruct (empty _send_buff_main || empty _send_buff_flush); simpl;
        rewrite ?vsize_app, ?app_assoc;
        repeat split; try assumption; try reflexivity; lia.
Qed.

(** A dispatched [trySend] on a connected session. *)
Lemma try_send_step (s : Session.t) :
  send_path_ok s -> send_counters_ok s ->
  let o := Session.trySend s in
  send_path_ok (state_of o)
  /\ send_counters_ok (state_of o)
  /\ unsent (state_of o) = unsent s
  /\ Session._bytes_sent (state_of o) = Session._bytes_sent s
  /\ (count_effects is_AsyncWriteSome (trace_of o)
      + (if Session._sending s then 1 else 0))%nat
     = (if Session._sending (state_of o) then 1%nat else 0%nat)
  /\ (Session._sending (state_of o) = false -> unsent (state_of o) = [])
  /\ (if Session._sending s
      then writes_of (trace_of o) = [] /\ state_of o = s
      else writes_of (trace_of o)
           = (if Session._sending (state_of o)
              then [in_flight (state_of o)] else [])).
Proof.
  unfold send_path_ok, send_counters_ok, unsent, in_flight, Session.isConnected.
  intros (Hc & Hmain & Hflush & Hshape) (Hpend & Hsending).
  unfold Session.trySend, Session.isConnected.
  destruct s; simpl in *. subst _connected _bytes_pending _bytes_sending.
  run_monad.
  pose proof (vsize_nonneg _send_buff_main) as Hmain0.
  destruct _sending; simpl.
  - (* a write is in flight: nothing happens *)
    repeat split; try assumption; try reflexivity; try lia.
  - destruct Hshape as [-> ->]. simpl.
    destruct _send_buff_main as [| b main'] eqn:Hm; simpl.
    + repeat split; try assumption; reflexivity.
    + rewrite <- Hm in *.
      assert (0 < vsize _send_buff_main) by (rewrite Hm; unfold vsize; simpl; lia).
      refine (conj _ (conj _ (conj _ (conj _ (conj _ (conj _ _)))))).
      * repeat split; try assumption; try lia.
      * split; [reflexivity |].
        change (vsize []) with 0. rewrite Z.add_0_l. apply wrap64_small. lia.
      * rewrite app_nil_r, Hm. reflexivity.
      * reflexivity.
      * reflexivity.
      * discriminate.
      * f_equal. rewrite wrap64_small by lia. unfold range.
        apply take_ge. unfold vsize. lia.
Qed.

Lemma count_effects_app p (a b : list effect) :
  count_effects p (a ++ b) = (count_effects p a + count_effects p b)%nat.
Proof. unfold count_effects. rewrite filter_app, length_app. reflexivity. Qed.

(** What one step of the send path changes. *)
Lemma send_step_spec (l l' : send_log) (op : send_op) :
  send_path_ok (now l) -> send_counters_ok (now l) -> kernel_ok l ->
  send_step l op = Some l' ->
  send_path_ok (now l') /\ send_counters_ok (now l') /\ kernel_ok l'
  /\ (exists w a,
        written l' = written l ++ w /\ accepted l' = accepted l ++ a
        /\ w ++ unsent (now l') = unsent (now l) ++ a
        /\ wrap64 (Session._bytes_sent (now l'))
           = wrap64 (Session._bytes_sent (now l) + vsize w))
  /\ (count_effects is_AsyncWriteSome (effects l')
      + flag (Session._sending (now l)))%nat
     = (count_effects is_AsyncWriteSome (effects l)
        + flag (is_completion op) + flag (Session._sending (now l')))%nat
  /\ (is_reactor_step op = true ->
      Session._sending (now l') = false -> unsent (now l') = []).
Proof.
  intros Hpath Hcnt Hker Hstep. unfold kernel_ok in *.
  destruct op as [bytes | | k]; simpl in Hstep.
  - destruct (vsize (Session._send_buff_main (now l)) + vsize bytes <? 2 ^ 64)
      eqn:Hfit; [| discriminate].
    apply Z.ltb_lt in Hfit. injection Hstep as <-. simpl.
    destruct (send_async_step (now l) bytes Hpath Hcnt Hfit)
      as (Hp & Hc & Hun & Hsent & Hflag & Hcount & Hsame & Hnone).
    refine (conj Hp (conj Hc (conj _ (conj _ (conj _ _))))).
    + rewrite Hnone, app_nil_r, Hker, Hflag, Hsame. reflexivity.
    + exists [], (if bool_decide
                      (value_of (Session.sendAsync false (buffer_at bytes)
                                   (vsize bytes) (now l)) = Some true)
                  then bytes else []).
      split; [rewrite app_nil_r; reflexivity |].
      split; [reflexivity |].
      split; [exact Hun |].
      rewrite Hsent. change (vsize []) with 0. rewrite Z.add_0_r. reflexivity.
    + rewrite count_effects_app, Hcount, Hflag. simpl. lia.
    + discriminate.
  - injection Hstep as <-. simpl.
    destruct (try_send_step (now l) Hpath Hcnt)
      as (Hp & Hc & Hun & Hsent & Hcount & Hdone & Hbuf).
    refine (conj Hp (conj Hc (conj _ (conj _ (conj _ _))))).
    + rewrite Hker. destruct (Session._sending (now l)).
      * destruct Hbuf as [-> Hsame]. rewrite app_nil_r, Hsame.
        destruct (Session._sending (now l)) eqn:Hs'; [reflexivity |].
        rewrite Hsame, Hs' in Hcount. simpl in Hcount. lia.
      * rewrite Hbuf. reflexivity.
    + exists [], [].
      split; [rewrite app_nil_r; reflexivity |].
      split; [rewrite app_nil_r; reflexivity |].
      split; [rewrite app_nil_r; exact Hun |].
      rewrite Hsent. change (vsize []) with 0. rewrite Z.add_0_r. reflexivity.
    + rewrite count_effects_app. unfold flag in *. simpl. lia.
    + intros _. exact Hdone.
  - rewrite Hker in Hstep.
    destruct (Session._sending (now l)) eqn:Hs; [| discriminate].
    destruct (0 <=? k) eqn:Hk0; [| discriminate].
    destruct (k <=? vsize (in_flight (now l))) eqn:Hk1; [| discriminate].
    apply Z.leb_le in Hk0, Hk1. simpl in Hstep. injection Hstep as <-. simpl.
    destruct (write_completion_step (now l) k Hpath Hcnt Hs (conj Hk0 Hk1))
      as (Hp & Hc & Hun & Hsent & Hcount & Hdone & Hbuf).
    refine (conj Hp (conj Hc (conj Hbuf (conj _ (conj _ _))))).
    + exists (take (Z.to_nat k) (in_flight (now l))), [].
      split; [reflexivity |].
      split; [rewrite app_nil_r; reflexivity |].
      split; [rewrite app_nil_r; exact Hun |].
      rewrite Hsent. f_equal. f_equal.
      unfold vsize in *. rewrite length_take. lia.
    + rewrite count_effects_app, Hcount. unfold flag. simpl. lia.
    + intros _. exact Hdone.
Qed.

(** The same over a whole run. *)
Lemma send_run_spec (ops : list send_op) : forall (l l' : send_log),
  send_path_ok (now l) -> send_counters_ok (now l) -> kernel_ok l ->
  send_run l ops = Some l' ->
  send_path_ok (now l') /\ send_counters_ok (now l') /\ kernel_ok l'
  /\ (exists w a,
        written l' = written l ++ w /\ accepted l' = accepted l ++ a
        /\ w ++ unsent (now l') = unsent (now l) ++ a
        /\ wrap64 (Session._bytes_sent (now l'))
           = wrap64 (Session._bytes_sent (now l) + vsize w))
  /\ (count_effects is_AsyncWriteSome (effects l')
      + flag (Session._sending (now l)))%nat
     = (count_effects is_AsyncWriteSome (effects l)
        + count_completions ops + flag (Session._sending (now l')))%nat.
Proof.
  induction ops as [| op ops IH]; intros l l' Hpath Hcnt Hker Hrun; simpl in Hrun.
  - injection Hrun as <-. refine (conj Hpath (conj Hcnt (conj Hker (conj _ _)))).
    + exists [], [].
      split; [rewrite app_nil_r; reflexivity |].
      split; [rewrite app_nil_r; reflexivity |].
      split; [rewrite app_nil_r; reflexivity |].
      change (vsize []) with 0. rewrite Z.add_0_r. reflexivity.
    + unfold count_completions. simpl. lia.
  - destruct (send_step l op) as [l1 |] eqn:Hstep; [| discriminate].
    destruct (send_step_spec l l1 op Hpath Hcnt Hker Hstep)
      as (Hp1 & Hc1 & Hk1 & (w1 & a1 & Hw1 & Ha1 & Hun1 & Hsent1) & Hcount1 & _).
    destruct (IH l1 l' Hp1 Hc1 Hk1 Hrun)
      as (Hp & Hc & Hk & (w2 & a2 & Hw2 & Ha2 & Hun2 & Hsent2) & Hcount2).
    refine (conj Hp (conj Hc (conj Hk (conj _ _)))).
    + exists (w1 ++ w2), (a1 ++ a2).
      split; [rewrite Hw2, Hw1, <- app_assoc; reflexivity |].
      split; [rewrite Ha2, Ha1, <- app_assoc; reflexivity |].
      split.
      * rewrite <- app_assoc, Hun2, app_assoc, Hun1, <- app_assoc. reflexivity.
      * rewrite Hsent2, vsize_app. unfold wrap64 in *.
        rewrite <- Z.add_mod_idemp_l, Hsent1, Z.add_mod_idemp_l by lia.
        f_equal. lia.
    + unfold count_completions in *. simpl.
      destruct op; simpl in *; unfold flag in *; simpl in *;
        rewrite ?filter_cons in *; simpl in *; lia.
Qed.

(** The log at the start of a run holds what the socket holds. *)
Lemma start_log_kernel_ok (s : Session.t) : kernel_ok (start_log s).
Proof. reflexivity. Qed.

Lemma send_run_app (ops1 ops2 : list send_op) : forall l,
  send_run l (ops1 ++ ops2)
  = match send_run l ops1 with
    | Some l1 => send_run l1 ops2
    | None => None
    end.
Proof.
  induction ops1 as [| op ops1 IH]; intros l; simpl; [reflexivity |].
  destruct (send_step l op); [apply IH | reflexivity].
Qed.

Lemma idle_session_ok : send_path_ok idle_session /\ send_counters_ok idle_session.
Proof.
  split.
  - unfold send_path_ok. simpl. repeat split; vm_compute; reflexivity.
  - split; reflexivity.
Qed.

(** X1.  Whatever the interleaving of [sendAsync] calls, dispatched
    [trySend]s and write completions on a connected session: the socket
    holds at most one write, and its buffer is exactly the part of flush
    that the kernel has not taken; and the bytes the kernel has taken out
    of the buffers [async_write_some] was given, followed by the bytes
    still queued (the rest of flush, then send-main), are the bytes that
    were queued at the start followed by the bytes of the accepted
    [sendAsync] calls, in call order: nothing is lost, handed to the kernel
    twice, or reordered. *)
Theorem session_send_path_is_fifo (s : Session.t) (ops : list send_op) (l : send_log) :
  send_path_ok s -> send_counters_ok s ->
  send_run (start_log s) ops = Some l ->
  written l ++ unsent (now l) = unsent s ++ accepted l
  /\ in_kernel l = (if Session._sending (now l) then [in_flight (now l)] else []).
Proof.
  intros Hpath Hcnt Hrun.
  destruct (send_run_spec ops (start_log s) l Hpath Hcnt
              (start_log_kernel_ok s) Hrun)
    as (_ & _ & Hker & (w & a & Hw & Ha & Hun & _) & _).
  split; [| exact Hker].
  simpl in *. subst. exact Hun.
Qed.

Lemma session_send_path_is_fifo_witness :
  match send_run (start_log idle_session) sample_run with
  | Some l =>
      written l ++ unsent (now l) = unsent idle_session ++ accepted l
      /\ in_kernel l = (if Session._sending (now l) then [in_flight (now l)] else [])
  | None => False
  end.
Proof.
  destruct (send_run (start_log idle_session) sample_run) as [l |] eqn:Hrun.
  - apply (session_send_path_is_fifo idle_session sample_run l);
      [apply idle_session_ok | apply idle_session_ok | exact Hrun].
  - vm_compute in Hrun. discriminate.
Defined.

(** X2.  A send campaign stops only when nothing is left: if, after a
    dispatched [trySend] or a write completion, no write is in flight, then
    both send buffers are empty, the socket holds no write, and the bytes
    the kernel took out of the buffers [async_write_some] was given are
    exactly the bytes queued at the start followed by every accepted
    payload. *)
Theorem session_campaign_ends_drained
    (s : Session.t) (ops : list send_op) (op : send_op) (l : send_log) :
  send_path_ok s -> send_counters_ok s ->
  send_run (start_log s) (ops ++ [op]) = Some l ->
  is_reactor_step op = true ->
  Session._sending (now l) = false ->
  Session._send_buff_flush (now l) = []
  /\ Session._send_buff_main (now l) = []
  /\ in_kernel l = []
  /\ written l = unsent s ++ accepted l.
Proof.
  intros Hpath Hcnt Hrun Hop Hidle.
  assert (Hfifo : written l ++ unsent (now l) = unsent s ++ accepted l
                  /\ in_kernel l = []).
  { destruct (send_run_spec _ (start_log s) l Hpath Hcnt
                (start_log_kernel_ok s) Hrun)
      as (_ & _ & Hker & (w & a & Hw & Ha & Hun & _) & _).
    unfold kernel_ok in Hker. rewrite Hidle in Hker.
    split; [| exact Hker]. simpl in *. subst. exact Hun. }
  destruct Hfifo as [Hfifo Hnone].
  rewrite send_run_app in Hrun.
  destruct (send_run (start_log s) ops) as [l1 |] eqn:Hrun1; [| discriminate].
  destruct (send_run_spec ops (start_log s) l1 Hpath Hcnt
              (start_log_kernel_ok s) Hrun1)
    as (Hp1 & Hc1 & Hk1 & _).
  simpl in Hrun. destruct (send_step l1 op) as [l2 |] eqn:Hstep; [| discriminate].
  injection Hrun as ->.
  destruct (send_step_spec l1 l op Hp1 Hc1 Hk1 Hstep)
    as ((_ & _ & _ & Hshape) & _ & _ & _ & _ & Hdone).
  specialize (Hdone Hop Hidle).
  rewrite Hidle in Hshape. destruct Hshape as [Hflush _].
  rewrite Hdone, app_nil_r in Hfifo.
  unfold unsent, in_flight in Hdone. rewrite Hflush, drop_nil in Hdone.
  simpl in Hdone. repeat split; assumption.
Qed.

Lemma session_campaign_ends_drained_witness :
  match send_run (start_log idle_session)
          ([DoSend test_payload; DoTrySend; DoSend [x74; x65];
            DoComplete 2; DoComplete 2] ++ [DoComplete 2]) with
  | Some l =>
      Session._send_buff_flush (now l) = []
      /\ Session._send_buff_main (now l) = []
      /\ in_kernel l = []
      /\ written l = unsent idle_session ++ accepted l
  | None => False
  end.
Proof.
  destruct (send_run (start_log idle_session)
              ([DoSend test_payload; DoTrySend; DoSend [x74; x65];
                DoComplete 2; DoComplete 2] ++ [DoComplete 2]))
    as [l |] eqn:Hrun.
  - apply (session_campaign_ends_drained idle_session
             [DoSend test_payload; DoTrySend; DoSend [x74; x65];
              DoComplete 2; DoComplete 2] (DoComplete 2) l);
      [apply idle_session_ok | apply idle_session_ok | exact Hrun | reflexivity |].
    vm_compute in Hrun. injection Hrun as <-. reflexivity.
  - vm_compute in Hrun. discriminate.
Defined.

(** X3.  Under the same runs the counters track the buffers:
    [bytes_pending] is the size of send-main, [bytes_sending] the number of
    flush bytes not yet written, and [bytes_sent] has grown (modulo 2^64) by
    the number of bytes the kernel took. *)
Theorem session_send_counters_track_buffers
    (s : Session.t) (ops : list send_op) (l : send_log) :
  send_path_ok s -> send_counters_ok s ->
  send_run (start_log s) ops = Some l ->
  Session._bytes_pending (now l) = vsize (Session._send_buff_main (now l))
  /\ Session._bytes_sending (now l) = vsize (in_flight (now l))
  /\ wrap64 (Session._bytes_sent (now l))
     = wrap64 (Session._bytes_sent s + vsize (written l)).
Proof.
  intros Hpath Hcnt Hrun.
  destruct (send_run_spec ops (start_log s) l Hpath Hcnt
              (start_log_kernel_ok s) Hrun)
    as (_ & (Hpend & Hsending) & _ & (w & a & Hw & _ & _ & Hsent) & _).
  simpl in *. subst w. repeat split; assumption.
Qed.

Lemma session_send_counters_witness :
  match send_run (start_log idle_session) sample_run with
  | Some l =>
      Session._bytes_pending (now l) = vsize (Session._send_buff_main (now l))
      /\ Session._bytes_sending (now l) = vsize (in_flight (now l))
      /\ wrap64 (Session._bytes_sent (now l))
         = wrap64 (Session._bytes_sent idle_session + vsize (written l))
  | None => False
  end.
Proof.
  destruct (send_run (start_log idle_session) sample_run) as [l |] eqn:Hrun.
  - apply (session_send_counters_track_buffers idle_session sample_run l);
      [apply idle_session_ok | apply idle_session_ok | exact Hrun].
  - vm_compute in Hrun. discriminate.
Defined.

(** X4.  At most one write is in flight: over any run, the number of
    [async_write_some] calls issued is the number of completions, plus one
    if a write is in flight at the end, minus one if one was at the
    start; so the writes issued and not yet completed number 0 or 1, and
    are 1 exactly when [_sending] is set. *)
Theorem session_one_write_in_flight
    (s : Session.t) (ops : list send_op) (l : send_log) :
  send_path_ok s -> send_counters_ok s ->
  send_run (start_log s) ops = Some l ->
  (count_effects is_AsyncWriteSome (effects l) + flag (Session._sending s))%nat
  = (count_completions ops + flag (Session._sending (now l)))%nat.
Proof.
  intros Hpath Hcnt Hrun.
  destruct (send_run_spec ops (start_log s) l Hpath Hcnt
              (start_log_kernel_ok s) Hrun)
    as (_ & _ & _ & _ & Hcount).
  simpl in Hcount. exact Hcount.
Qed.

Lemma session_one_write_in_flight_witness :
  match send_run (start_log idle_session) sample_run with
  | Some l =>
      (count_effects is_AsyncWriteSome (effects l)
       + flag (Session._sending idle_session))%nat
      = (count_completions sample_run + flag (Session._sending (now l)))%nat
  | None => False
  end.
Proof.
  destruct (send_run (start_log idle_session) sample_run) as [l |] eqn:Hrun.
  - apply (session_one_write_in_flight idle_session sample_run l);
      [apply idle_session_ok | apply idle_session_ok | exact Hrun].
  - vm_compute in Hrun. discriminate.
Defined.

(** The sample run: "test" then "te" leave the session in that order, and
    three writes are issued for three completions. *)
Example sample_run_result :
  (written <$> send_run (start_log idle_session) sample_run)
  = Some [x74; x65; x73; x74; x74; x65]
  /\ (Session._sending ∘ now <$> send_run (start_log idle_session) sample_run)
     = Some false
  /\ (count_effects is_AsyncWriteSome ∘ effects
        <$> send_run (start_log idle_session) sample_run) = Some 3%nat.
Proof. repeat split; vm_compute; reflexivity. Qed.

(** ** HandlerMemory and its allocator under arbitrary use *)

Lemma release_spec (p q : HandlerMemory.pointer) (l : list HandlerMemory.pointer) :
  NoDup l -> (q ∈ release p l <-> q ∈ l /\ q <> p).
Proof.
  induction l as [| x l IH]; intros Hnd; simpl.
  - rewrite elem_of_nil. tauto.
  - apply NoDup_cons in Hnd as [Hx Hnd].
    destruct (bool_decide (x = p)) eqn:Hxp.
    + apply bool_decide_eq_true in Hxp. subst x.
      rewrite elem_of_cons. split.
      * intros Hq. split; [right; exact Hq |]. intros ->. contradiction.
      * intros [[-> | Hq] Hne]; [contradiction | exact Hq].
    + apply bool_decide_eq_false in Hxp.
      rewrite !elem_of_cons, (IH Hnd). split.
      * intros [-> | [Hq Hne]]; [split; [left; reflexivity | exact Hxp] |].
        split; [right; exact Hq | exact Hne].
      * intros [[-> | Hq] Hne]; [left; reflexivity | right; split; assumption].
Qed.

Lemma release_NoDup (p : HandlerMemory.pointer) (l : list HandlerMemory.pointer) :
  NoDup l -> NoDup (release p l).
Proof.
  induction l as [| x l IH]; intros Hnd; simpl; [exact Hnd |].
  apply NoDup_cons in Hnd as [Hx Hnd].
  destruct (bool_decide (x = p)); [exact Hnd |].
  apply NoDup_cons. split; [| apply IH; exact Hnd].
  intros Hin. apply (release_spec p x l Hnd) in Hin. tauto.
Qed.

Lemma slab_step_ok (S : Z) (st st' : slab_state) (op : slab_op) :
  slab_ok st -> slab_step S st op = Some st' -> slab_ok st'.
Proof.
  intros (Hnd & Hnull & Hused & Hheap) Hstep.
  destruct st as [m h l]. simpl in *.
  destruct op as [pick size | p]; simpl in Hstep;
    unfold HandlerMemory.std_malloc, HandlerMemory.std_free in *;
    unfold HandlerMemory.heap in *.
  - (* Alloc *)
    unfold HandlerMemory.alloc in Hstep.
    destruct (negb (HandlerMemory._used m) && (size <? S)) eqn:Hfast.
    + (* the inline buffer is handed out *)
      apply andb_true_iff in Hfast as [Hfree _].
      apply negb_true_iff in Hfree.
      assert (Hnotheld : HandlerMemory.fast_storage ∉ l).
      { intros Hin. apply Hused in Hin. congruence. }
      assert (Hst' : st' = mk_slab_state (HandlerMemory.mk true) h
                             (HandlerMemory.fast_storage :: l)).
      { destruct pick as [a |]; simpl in Hstep; [| congruence].
        match type of Hstep with
        | context [bool_decide ?P] => destruct (bool_decide P)
        end; congruence. }
      subst st'. unfold slab_ok; simpl; unfold HandlerMemory.heap in *.
      refine (conj _ (conj _ (conj _ _))).
      * apply NoDup_cons. split; assumption.
      * rewrite elem_of_cons. intros [Heq | Hin]; [discriminate | contradiction].
      * split; [intros _; apply list_elem_of_here | reflexivity].
      * intros a. rewrite Hheap, elem_of_cons. split; [tauto |].
        intros [Heq | Hin]; [discriminate | exact Hin].
    + (* the general heap *)
      destruct pick as [a |]; simpl in Hstep.
      * match type of Hstep with
        | context [bool_decide ?P] => destruct (bool_decide P) eqn:Hfresh
        end; [| discriminate].
        apply bool_decide_eq_true in Hfresh. injection Hstep as <-.
        assert (Hnotheld : HandlerMemory.heap_block a ∉ l).
        { intros Hin. apply Hheap in Hin. rewrite Hfresh in Hin.
          destruct Hin as [? Hin]. discriminate. }
        unfold slab_ok; simpl; unfold HandlerMemory.heap in *. refine (conj _ (conj _ (conj _ _))).
        -- apply NoDup_cons. split; assumption.
        -- rewrite elem_of_cons. intros [Heq | Hin]; [discriminate | contradiction].
        -- rewrite Hused, elem_of_cons. split; [tauto |].
           intros [Heq | Hin]; [discriminate | exact Hin].
        -- intros b. rewrite elem_of_cons. destruct (decide (b = a)) as [-> | Hne].
           ++ rewrite lookup_insert_eq. split; [intros _; left; reflexivity | eauto].
           ++ rewrite lookup_insert_ne by congruence. rewrite Hheap.
              split; [tauto |]. intros [Heq | Hin]; [congruence | exact Hin].
      * injection Hstep as <-. unfold slab_ok; simpl; unfold HandlerMemory.heap in *.
        repeat split; try assumption; try apply Hused; apply Hheap.
  - (* Free *)
    destruct (bool_decide (p ∈ l)) eqn:Hheld; [| discriminate].
    apply bool_decide_eq_true in Hheld.
    unfold HandlerMemory.free in Hstep.
    destruct (bool_decide (p = HandlerMemory.fast_storage)) eqn:Hp.
    + apply bool_decide_eq_true in Hp. subst p. injection Hstep as <-.
      unfold slab_ok; simpl; unfold HandlerMemory.heap in *. refine (conj _ (conj _ (conj _ _))).
      * apply release_NoDup. exact Hnd.
      * rewrite release_spec by exact Hnd. tauto.
      * rewrite release_spec by exact Hnd. split; [discriminate | tauto].
      * intros a. rewrite release_spec by exact Hnd. rewrite Hheap.
        split; [intros Hin; split; [exact Hin | discriminate] | tauto].
    + apply bool_decide_eq_false in Hp. injection Hstep as <-.
      unfold slab_ok; simpl; unfold HandlerMemory.heap in *. refine (conj _ (conj _ (conj _ _))).
      * apply release_NoDup. exact Hnd.
      * rewrite release_spec by exact Hnd. tauto.
      * rewrite release_spec by exact Hnd. rewrite Hused.
        split; [intros Hin; split; [exact Hin | congruence] | tauto].
      * intros a. rewrite release_spec by exact Hnd.
        destruct p as [| b |]; [congruence | | contradiction].
        simpl; unfold HandlerMemory.heap in *.
        destruct (decide (a = b)) as [-> | Hne].
        -- rewrite lookup_delete_eq. split; [intros [? Hx]; discriminate |].
           intros [_ Hx]. congruence.
        -- rewrite lookup_delete_ne by congruence. rewrite Hheap.
           split; [intros Hin; split; [exact Hin | congruence] | tauto].
Qed.

Lemma slab_run_ok (S : Z) (ops : list slab_op) : forall st st',
  slab_ok st -> slab_run S st ops = Some st' -> slab_ok st'.
Proof.
  induction ops as [| op ops IH]; intros st st' Hok Hrun; simpl in Hrun.
  - injection Hrun as <-. exact Hok.
  - destruct (slab_step S st op) as [st1 |] eqn:Hstep; [| discriminate].
    apply (IH st1 st'); [| exact Hrun].
    apply (slab_step_ok S st st1 op); assumption.
Qed.

Lemma new_slab_ok : slab_ok new_slab.
Proof.
  unfold slab_ok, new_slab; simpl; unfold HandlerMemory.heap in *. refine (conj _ (conj _ (conj _ _))).
  - apply NoDup_nil_2.
  - apply not_elem_of_nil.
  - rewrite elem_of_nil. split; [discriminate | contradiction].
  - intros a. rewrite lookup_empty, elem_of_nil.
    split; [intros [? Hx]; discriminate | contradiction].
Qed.

(** X5. HandlerMemory::alloc / HandlerMemory::free under any client that
    frees only what it holds: after every run from a fresh slab no pointer
    is held twice, nullptr is never recorded as held, the inline buffer is
    out exactly when [_used] is set, the live heap blocks are exactly the
    heap pointers held, and once everything is freed the slab is as
    constructed and the heap holds no block of it. *)
Theorem slab_keeps_account (S : Z) (ops : list slab_op) (st : slab_state) :
  slab_run S new_slab ops = Some st ->
  slab_ok st
  /\ (held st = [] -> slab st = HandlerMemory.init /\ slab_heap st = ∅).
Proof.
  intros Hrun.
  assert (Hok : slab_ok st) by (apply (slab_run_ok S ops new_slab st new_slab_ok Hrun)).
  split; [exact Hok |].
  destruct Hok as (_ & _ & Hused & Hheap). intros Hnone.
  destruct st as [[u] h l]. simpl in *. subst l.
  unfold HandlerMemory.heap in *. split.
  - unfold HandlerMemory.init. f_equal. destruct u; [| reflexivity].
    exfalso. apply (not_elem_of_nil HandlerMemory.fast_storage).
    apply Hused. reflexivity.
  - apply map_empty. intros a. apply eq_None_not_Some. intros Hsome.
    apply (not_elem_of_nil (HandlerMemory.heap_block a)). apply Hheap. exact Hsome.
Qed.

Lemma slab_keeps_account_witness :
  slab_run 1024 new_slab sample_slab_ops
    = Some (mk_slab_state HandlerMemory.init ∅ [])
  /\ slab_ok (mk_slab_state HandlerMemory.init ∅ []).
Proof.
  assert (Hrun : slab_run 1024 new_slab sample_slab_ops
                   = Some (mk_slab_state HandlerMemory.init ∅ []))
    by (vm_compute; reflexivity).
  split; [exact Hrun |].
  exact (proj1 (slab_keeps_account 1024 sample_slab_ops _ Hrun)).
Defined.

(** X6. HandlerStorageAllocator::allocate: when [num * sizeof(T)] fits a
    size_t, a non-null result points at a block that can hold the [num]
    elements: the inline buffer of 1024 bytes for a request below 1024, a
    heap block of the requested size otherwise. *)
Theorem allocate_block_holds_the_elements
    (sizeof_T num : Z) (pick : option positive)
    (m m' : HandlerMemory.t) (h h' : HandlerMemory.heap) (p : HandlerMemory.pointer) :
  0 <= num * sizeof_T < 2 ^ 64 ->
  HandlerStorageAllocator.allocate sizeof_T pick num m h = (p, m', h') ->
  p <> HandlerMemory.nullptr ->
  exists c, capacity 1024 h' p = Some c /\ num * sizeof_T <= c.
Proof.
  intros Hfit Halloc Hp.
  unfold HandlerStorageAllocator.allocate, HandlerMemory.alloc in Halloc.
  rewrite wrap64_small in Halloc by exact Hfit.
  destruct (negb (HandlerMemory._used m) && (num * sizeof_T <? 1024)) eqn:Hfast.
  - injection Halloc as <- <- <-.
    apply andb_true_iff in Hfast as [_ Hlt]. apply Z.ltb_lt in Hlt.
    exists 1024. split; [reflexivity | lia].
  - destruct pick as [a |]; simpl in Halloc; injection Halloc as <- <- <-.
    + exists (num * sizeof_T). simpl. unfold HandlerMemory.heap in *.
      rewrite lookup_insert_eq. split; [reflexivity | lia].
    + contradiction.
Qed.

Lemma allocate_block_holds_the_elements_witness :
  exists c, capacity 1024 (<[9%positive := 1200]> ∅) (HandlerMemory.heap_block 9)
            = Some c /\ 100 * 12 <= c.
Proof.
  apply (allocate_block_holds_the_elements 12 100 (Some 9%positive)
           HandlerMemory.init HandlerMemory.init ∅ (<[9%positive := 1200]> ∅)
           (HandlerMemory.heap_block 9)).
  - lia.
  - vm_compute; reflexivity.
  - discriminate.
Defined.

(** X7. HandlerStorageAllocator::allocate does not check the product
    [num * sizeof(T)]: when it exceeds a size_t and wraps to less than
    1024, a free slab hands out its inline buffer of 1024 bytes for a
    request of more than 2^64 bytes. *)
Theorem allocate_wraps_the_byte_count
    (sizeof_T num : Z) (pick : option positive)
    (m : HandlerMemory.t) (h : HandlerMemory.heap) :
  2 ^ 64 <= num * sizeof_T ->
  wrap64 (num * sizeof_T) < 1024 ->
  HandlerMemory._used m = false ->
  HandlerStorageAllocator.allocate sizeof_T pick num m h
    = (HandlerMemory.fast_storage, HandlerMemory.mk true, h)
  /\ capacity 1024 h HandlerMemory.fast_storage = Some 1024
  /\ 1024 < num * sizeof_T.
Proof.
  intros Hbig Hwrap Hfree.
  unfold HandlerStorageAllocator.allocate, HandlerMemory.alloc.
  rewrite Hfree. simpl.
  apply Z.ltb_lt in Hwrap. rewrite Hwrap.
  split; [reflexivity |]. split; [reflexivity | lia].
Qed.

Lemma allocate_wraps_the_byte_count_witness :
  HandlerStorageAllocator.allocate 8 None (2 ^ 61 + 1) HandlerMemory.init ∅
    = (HandlerMemory.fast_storage, HandlerMemory.mk true, ∅)
  /\ capacity 1024 ∅ HandlerMemory.fast_storage = Some 1024
  /\ 1024 < (2 ^ 61 + 1) * 8.
Proof.
  apply (allocate_wraps_the_byte_count 8 (2 ^ 61 + 1) None HandlerMemory.init ∅).
  - vm_compute; discriminate.
  - vm_compute; reflexivity.
  - reflexivity.
Defined.

(** ** Utils::fastItoa *)

Lemma char_digit_digit_char d : 0 <= d <= 9 -> char_digit (Utils.digit_char d) = d.
Proof.
  intros Hd.
  assert (Hcases : d = 0 \/ d = 1 \/ d = 2 \/ d = 3 \/ d = 4 \/ d = 5 \/ d = 6
                   \/ d = 7 \/ d = 8 \/ d = 9) by lia.
  repeat (destruct Hcases as [-> | Hcases]; [reflexivity |]). subst. reflexivity.
Qed.

Lemma decimal_value_snoc ds c :
  decimal_value (ds ++ [c]) = 10 * decimal_value ds + char_digit c.
Proof. unfold decimal_value. rewrite fold_left_app. reflexivity. Qed.

Lemma decimal_digits_value val : 0 <= val -> decimal_value (decimal_digits val) = val.
Proof.
  funelim (decimal_digits val); intros Hval.
  - rewrite decimal_value_snoc, char_digit_digit_char by (pose proof (Z.mod_pos_bound val 10); lia).
    match goal with IH : _ -> decimal_value _ = _ |- _ => rewrite IH end.
    + symmetry. apply Z.div_mod. lia.
    + apply Z.div_pos; lia.
  - unfold decimal_value. simpl.
    rewrite char_digit_digit_char by (pose proof (Z.mod_pos_bound val 10); lia).
    assert (val / 10 = 0) by (assert (0 <= val / 10) by (apply Z.div_pos; lia); lia).
    pose proof (Z.div_mod val 10). lia.
Qed.

Lemma decimal_digits_step val :
  decimal_digits val
  = if decide (0 < val / 10)
    then decimal_digits (val / 10) ++ [Utils.digit_char (val mod 10)]
    else [Utils.digit_char (val mod 10)].
Proof.
  rewrite decimal_digits_equation_1. destruct (decide (0 < val / 10)); reflexivity.
Qed.

Lemma fastItoa_loop_step val buf idx :
  Utils.fastItoa_loop val buf idx
  = if decide (0 < idx <= Z.of_nat (length buf)) then
      if decide (0 < val / 10) then
        Utils.fastItoa_loop (val / 10)
          (<[Z.to_nat (idx - 1) := Utils.digit_char (val mod 10)]> buf) (idx - 1)
      else Some (<[Z.to_nat (idx - 1) := Utils.digit_char (val mod 10)]> buf, idx - 1)
    else None.
Proof.
  rewrite Utils.fastItoa_loop_equation_1.
  destruct (decide (0 < idx <= Z.of_nat (length buf))); simpl; [| reflexivity].
  destruct (decide (0 < val / 10)); reflexivity.
Qed.

Lemma decimal_digits_nonempty val : (0 < length (decimal_digits val))%nat.
Proof.
  rewrite decimal_digits_step. destruct (decide (0 < val / 10)).
  - rewrite length_app. simpl. lia.
  - simpl. lia.
Qed.

Lemma insert_splits (buf : list byte) (i : nat) (c : byte) :
  (i < length buf)%nat ->
  <[i := c]> buf = take i buf ++ c :: drop (S i) buf.
Proof. intros Hi. apply insert_take_drop. exact Hi. Qed.

Lemma fastItoa_loop_writes_digits val : forall buf idx,
  0 <= val ->
  Z.of_nat (length (decimal_digits val)) <= idx <= Z.of_nat (length buf) ->
  Utils.fastItoa_loop val buf idx
  = Some (take (Z.to_nat idx - length (decimal_digits val)) buf
            ++ decimal_digits val ++ drop (Z.to_nat idx) buf,
          idx - Z.of_nat (length (decimal_digits val))).
Proof.
  induction (Z.lt_wf 0 val) as [val _ IH]. intros buf idx Hval Hidx.
  pose proof (decimal_digits_nonempty val) as Hne.
  rewrite fastItoa_loop_step.
  destruct (decide (0 < idx <= Z.of_nat (length buf))) as [Hin | Hout]; [| lia].
  rewrite decimal_digits_step in *.
  assert (Hi : (Z.to_nat (idx - 1) < length buf)%nat) by lia.
  destruct (decide (0 < val / 10)) as [Hmore | Hlast].
  - rewrite length_app in Hidx. simpl in Hidx.
    assert (Hlt : val / 10 < val).
    { apply Z.div_lt; [| lia].
      destruct (Z.lt_ge_cases 0 val); [assumption |].
      assert (val / 10 <= 0) by (apply Z.div_le_upper_bound; lia). lia. }
    assert (Hpos : 0 <= val / 10) by lia.
    rewrite (IH (val / 10) (conj Hpos Hlt) _ (idx - 1) Hpos)
      by (rewrite length_insert; lia).
    rewrite length_app. simpl. apply f_equal. apply (f_equal2 pair); [| lia].
    rewrite insert_splits by exact Hi.
    set (ds := decimal_digits (val / 10)) in *.
    replace (Z.to_nat (idx - 1) - length ds)%nat
      with (Z.to_nat idx - (length ds + 1))%nat by lia.
    rewrite take_app_le by (rewrite length_take; lia).
    rewrite take_take, Nat.min_l by lia.
    rewrite drop_app_length' by (rewrite length_take; lia).
    replace (S (Z.to_nat (idx - 1))) with (Z.to_nat idx) by lia.
    rewrite <- !app_assoc. reflexivity.
  - simpl in *. apply f_equal. apply (f_equal2 pair); [| lia].
    rewrite insert_splits by exact Hi.
    replace (Z.to_nat (idx - 1)) with (Z.to_nat idx - 1)%nat by lia.
    replace (S (Z.to_nat idx - 1)) with (Z.to_nat idx) by lia.
    reflexivity.
Qed.

Lemma digit_char_is_digit d : 0 <= d <= 9 -> is_decimal_digit (Utils.digit_char d).
Proof. intros Hd. unfold is_decimal_digit. rewrite char_digit_digit_char; lia. Qed.

Lemma decimal_digits_are_digits val :
  0 <= val -> Forall is_decimal_digit (decimal_digits val).
Proof.
  induction (Z.lt_wf 0 val) as [val _ IH]. intros Hval.
  rewrite decimal_digits_step.
  pose proof (Z.mod_pos_bound val 10 ltac:(lia)) as Hmod.
  destruct (decide (0 < val / 10)) as [Hmore | Hlast].
  - apply Forall_app. split.
    + apply IH; [| lia]. split; [lia |]. apply Z.div_lt; [| lia].
      destruct (Z.lt_ge_cases 0 val); [assumption |].
      assert (val / 10 <= 0) by (apply Z.div_le_upper_bound; lia). lia.
    + constructor; [apply digit_char_is_digit; lia | constructor].
  - constructor; [apply digit_char_is_digit; lia | constructor].
Qed.

(** No leading zero, except for the number zero itself. *)
Lemma decimal_digits_head val :
  0 < val -> exists c rest, decimal_digits val = c :: rest /\ 0 < char_digit c.
Proof.
  induction (Z.lt_wf 0 val) as [val _ IH]. intros Hval.
  rewrite decimal_digits_step.
  pose proof (Z.mod_pos_bound val 10 ltac:(lia)) as Hmod.
  destruct (decide (0 < val / 10)) as [Hmore | Hlast].
  - destruct (IH (val / 10)) as (c & rest & Heq & Hc); [| lia |].
    + split; [lia |]. apply Z.div_lt; lia.
    + rewrite Heq. exists c, (rest ++ [Utils.digit_char (val mod 10)]).
      split; [reflexivity | exact Hc].
  - exists (Utils.digit_char (val mod 10)), []. split; [reflexivity |].
    rewrite char_digit_digit_char by lia.
    assert (val / 10 = 0) by (assert (0 <= val / 10) by (apply Z.div_pos; lia); lia).
    pose proof (Z.div_mod val 10). lia.
Qed.

(** The number of digits is the least [n >= 1] with [val < 10 ^ n]. *)
Lemma decimal_digits_length val (n : nat) :
  0 <= val ->
  (length (decimal_digits val) <= n)%nat <-> (0 < n)%nat /\ val < 10 ^ Z.of_nat n.
Proof.
  revert n. induction (Z.lt_wf 0 val) as [val _ IH]. intros n Hval.
  rewrite decimal_digits_step.
  destruct (decide (0 < val / 10)) as [Hmore | Hlast].
  - rewrite length_app. simpl.
    assert (Hlt : 0 <= val / 10 < val).
    { split; [lia |]. apply Z.div_lt; [| lia].
      destruct (Z.lt_ge_cases 0 val); [assumption |].
      assert (val / 10 <= 0) by (apply Z.div_le_upper_bound; lia). lia. }
    destruct n as [| n].
    + split; [lia | intros [H0 _]; lia].
    + specialize (IH (val / 10) Hlt n ltac:(lia)).
      replace (Z.of_nat (S n)) with (Z.of_nat n + 1) by lia.
      rewrite Z.pow_add_r, Z.pow_1_r by lia.
      split.
      * intros Hlen. split; [lia |].
        destruct IH as [IH _]. destruct IH as [_ Hb]; [lia |].
        pose proof (Z.div_mod val 10 ltac:(lia)).
        pose proof (Z.mod_pos_bound val 10 ltac:(lia)). nia.
      * intros [_ Hb]. 
        assert (val / 10 < 10 ^ Z.of_nat n).
        { apply Z.div_lt_upper_bound; lia. }
        destruct n as [| n'].
        -- simpl in *. lia.
        -- destruct IH as [_ IH]. assert (Hpos : (0 < S n')%nat) by lia.
           specialize (IH (conj Hpos H)). lia.
  - simpl.
    assert (val / 10 = 0) by (assert (0 <= val / 10) by (apply Z.div_pos; lia); lia).
    assert (val < 10).
    { pose proof (Z.div_mod val 10 ltac:(lia)).
      pose proof (Z.mod_pos_bound val 10 ltac:(lia)). lia. }
    split.
    + intros Hn. split; [lia |].
      assert (10 ^ 1 <= 10 ^ Z.of_nat n) by (apply Z.pow_le_mono_r; lia).
      lia.
    + intros [Hn _]. lia.
Qed.

Lemma fastItoa_loop_out_of_room val : forall buf idx,
  0 <= val ->
  0 <= idx < Z.of_nat (length (decimal_digits val)) ->
  idx <= Z.of_nat (length buf) ->
  Utils.fastItoa_loop val buf idx = None.
Proof.
  induction (Z.lt_wf 0 val) as [val _ IH]. intros buf idx Hval Hidx Hbuf.
  rewrite fastItoa_loop_step.
  destruct (decide (0 < idx <= Z.of_nat (length buf))) as [Hin | Hout]; [| reflexivity].
  rewrite decimal_digits_step in Hidx.
  destruct (decide (0 < val / 10)) as [Hmore | Hlast].
  - rewrite length_app in Hidx. simpl in Hidx.
    apply IH.
    + split; [lia |]. apply Z.div_lt; [| lia].
      destruct (Z.lt_ge_cases 0 val); [assumption |].
      assert (val / 10 <= 0) by (apply Z.div_le_upper_bound; lia). lia.
    + lia.
    + lia.
    + rewrite length_insert. lia.
  - simpl in Hidx. lia.
Qed.

Lemma fastItoa_result (val buf_size : Z) (buf : list byte) :
  0 <= val ->
  Z.of_nat (length (decimal_digits val)) <= buf_size <= Z.of_nat (length buf) ->
  Utils.fastItoa val buf buf_size
  = Some (take (Z.to_nat buf_size - length (decimal_digits val)) buf
            ++ decimal_digits val ++ drop (Z.to_nat buf_size) buf,
          Utils.mk_view (buf_size - Z.of_nat (length (decimal_digits val)))
                        (Z.of_nat (length (decimal_digits val))))
  /\ Utils.view_bytes
       (take (Z.to_nat buf_size - length (decimal_digits val)) buf
          ++ decimal_digits val ++ drop (Z.to_nat buf_size) buf)
       (Utils.mk_view (buf_size - Z.of_nat (length (decimal_digits val)))
                      (Z.of_nat (length (decimal_digits val))))
     = decimal_digits val.
Proof.
  intros Hval Hroom. split.
  - unfold Utils.fastItoa.
    rewrite fastItoa_loop_writes_digits by assumption.
    apply f_equal. apply (f_equal2 pair); [reflexivity |].
    f_equal. lia.
  - unfold Utils.view_bytes. simpl.
    rewrite drop_app_length' by (rewrite length_take; lia).
    rewrite Nat2Z.id. rewrite take_app_length. reflexivity.
Qed.

Lemma fastItoa_returns_in_room (val buf_size : Z) (buf : list byte) :
  0 <= val ->
  0 < buf_size <= Z.of_nat (length buf) ->
  val < 10 ^ buf_size ->
  exists r, Utils.fastItoa val buf buf_size = Some r.
Proof.
  intros Hval Hsize Hfits.
  assert (Hlen : (length (decimal_digits val) <= Z.to_nat buf_size)%nat).
  { apply decimal_digits_length; [exact Hval |].
    split; [lia |]. rewrite Z2Nat.id by lia. exact Hfits. }
  destruct (fastItoa_result val buf_size buf Hval) as [Hres _]; [lia |].
  eexists. exact Hres.
Qed.

(** X8. Utils::fastItoa, given a buffer of [buf_size] bytes with
    [val < 10 ^ buf_size]: the view returned ends at the end of the buffer,
    holds decimal digits only, reads back as [val], has no leading zero
    unless [val] is zero, and the bytes of the buffer before the view and
    past [buf_size] are left as they were. *)
Theorem fastItoa_writes_the_decimal_form (val buf_size : Z) (buf : list byte) :
  0 <= val ->
  0 < buf_size <= Z.of_nat (length buf) ->
  val < 10 ^ buf_size ->
  exists buf' v,
    Utils.fastItoa val buf buf_size = Some (buf', v)
    /\ 0 <= Utils.view_begin v
    /\ 0 < Utils.view_size v
    /\ Utils.view_begin v + Utils.view_size v = buf_size
    /\ decimal_value (Utils.view_bytes buf' v) = val
    /\ Forall is_decimal_digit (Utils.view_bytes buf' v)
    /\ (0 < val -> exists c rest,
          Utils.view_bytes buf' v = c :: rest /\ 0 < char_digit c)
    /\ length buf' = length buf
    /\ take (Z.to_nat (Utils.view_begin v)) buf'
       = take (Z.to_nat (Utils.view_begin v)) buf
    /\ drop (Z.to_nat buf_size) buf' = drop (Z.to_nat buf_size) buf.
Proof.
  intros Hval Hsize Hfits.
  assert (Hlen : (length (decimal_digits val) <= Z.to_nat buf_size)%nat).
  { apply decimal_digits_length; [exact Hval |].
    split; [lia |]. rewrite Z2Nat.id by lia. exact Hfits. }
  pose proof (decimal_digits_nonempty val) as Hne.
  destruct (fastItoa_result val buf_size buf Hval) as [Hres Hview]; [lia |].
  set (ds := decimal_digits val) in *.
  eexists _, _. split; [exact Hres |]. simpl.
  split; [lia |]. split; [lia |]. split; [lia |].
  rewrite Hview.
  split; [apply decimal_digits_value; exact Hval |].
  split; [apply decimal_digits_are_digits; exact Hval |].
  split; [apply decimal_digits_head |].
  split.
  { rewrite !length_app, length_take, length_drop. lia. }
  split.
  { replace (Z.to_nat (buf_size - Z.of_nat (length ds)))
      with (Z.to_nat buf_size - length ds)%nat by lia.
    rewrite take_app_length' by (rewrite length_take; lia). reflexivity. }
  rewrite app_assoc.
  rewrite drop_app_length' by (rewrite length_app, length_take; lia).
  reflexivity.
Qed.

Lemma fastItoa_writes_the_decimal_form_witness :
  exists buf' v,
    Utils.fastItoa 1984 (replicate 8 x2e) 6 = Some (buf', v)
    /\ 0 <= Utils.view_begin v
    /\ 0 < Utils.view_size v
    /\ Utils.view_begin v + Utils.view_size v = 6
    /\ decimal_value (Utils.view_bytes buf' v) = 1984
    /\ Forall is_decimal_digit (Utils.view_bytes buf' v)
    /\ (0 < 1984 -> exists c rest,
          Utils.view_bytes buf' v = c :: rest /\ 0 < char_digit c)
    /\ length buf' = length (replicate 8 x2e)
    /\ take (Z.to_nat (Utils.view_begin v)) buf'
       = take (Z.to_nat (Utils.view_begin v)) (replicate 8 x2e)
    /\ drop (Z.to_nat 6) buf' = drop (Z.to_nat 6) (replicate 8 x2e).
Proof.
  apply (fastItoa_writes_the_decimal_form 1984 6 (replicate 8 x2e)).
  - lia.
  - simpl; lia.
  - reflexivity.
Defined.

(** X9. Utils::fastItoa has no bounds check: on a buffer of [buf_size]
    bytes it stays inside the buffer exactly when [buf_size] is not zero
    and [val] has at most [buf_size] decimal digits; otherwise the loop
    reaches [--idx] at [idx = 0] and writes before the start of the
    buffer. *)
Theorem fastItoa_stays_in_the_buffer_iff (val buf_size : Z) (buf : list byte) :
  0 <= val ->
  0 <= buf_size <= Z.of_nat (length buf) ->
  (is_Some (Utils.fastItoa val buf buf_size)
   <-> 0 < buf_size /\ val < 10 ^ buf_size).
Proof.
  intros Hval Hsize. split.
  - intros Hsome.
    destruct (decide (Z.of_nat (length (decimal_digits val)) <= buf_size))
      as [Hroom | Hnoroom].
    + pose proof (decimal_digits_nonempty val) as Hne.
      assert (Hlen : (length (decimal_digits val) <= Z.to_nat buf_size)%nat) by lia.
      apply decimal_digits_length in Hlen; [| exact Hval].
      destruct Hlen as [Hpos Hlt]. rewrite Z2Nat.id in Hlt by lia.
      split; [lia | exact Hlt].
    + exfalso. unfold Utils.fastItoa in Hsome.
      rewrite fastItoa_loop_out_of_room in Hsome by lia.
      destruct Hsome as [x Hx]. discriminate.
  - intros [Hpos Hfits].
    destruct (fastItoa_returns_in_room val buf_size buf Hval)
      as [r Hr]; [lia | exact Hfits |].
    rewrite Hr. eauto.
Qed.

Lemma fastItoa_stays_in_the_buffer_iff_witness :
  is_Some (Utils.fastItoa 1000 (replicate 3 x2e) 3) <-> 0 < 3 /\ 1000 < 10 ^ 3.
Proof.
  apply (fastItoa_stays_in_the_buffer_iff 1000 3 (replicate 3 x2e)).
  - lia.
  - simpl; lia.
Defined.

(** ** Service: the loops and who gets them *)

Lemma getIoService_state (s : Service.t) :
  Service._services (Service.getIoService s).2 = Service._services s
  /\ Service._rr_idx (Service.getIoService s).2 = wrap64 (Service._rr_idx s + 1).
Proof. split; reflexivity. Qed.

Lemma wrap64_range (z : Z) : 0 <= wrap64 z < 2 ^ 64.
Proof. unfold wrap64. apply Z.mod_pos_bound. lia. Qed.

Lemma getIoService_in_range (s : Service.t) :
  Service._services s <> [] ->
  exists io, (Service.getIoService s).1 = Some io /\ io ∈ Service._services s.
Proof.
  intros Hne. unfold Service.getIoService. simpl.
  rewrite bool_decide_eq_false_2 by exact Hne.
  assert (Hlen : (0 < length (Service._services s))%nat).
  { destruct (Service._services s); [congruence | simpl; lia]. }
  pose proof (wrap64_range (Service._rr_idx s + 1)) as Hrr.
  pose proof (Z.mod_pos_bound (wrap64 (Service._rr_idx s + 1))
                (Z.of_nat (length (Service._services s))) ltac:(lia)) as Hmod.
  destruct (lookup_lt_is_Some_2 (Service._services s)
              (Z.to_nat (wrap64 (Service._rr_idx s + 1)
                           mod Z.of_nat (length (Service._services s)))))
    as [io Hio]; [lia |].
  exists io. split; [exact Hio |]. eapply list_elem_of_lookup_2. exact Hio.
Qed.

Lemma hand_out_step (k : nat) (s : Service.t) :
  Service.hand_out (S k) s
  = (Service.getIoService s).1 :: Service.hand_out k (Service.getIoService s).2.
Proof. reflexivity. Qed.

Lemma hand_out_in_range (k : nat) : forall s : Service.t,
  Service._services s <> [] ->
  Forall (fun r => exists io, r = Some io /\ io ∈ Service._services s)
         (Service.hand_out k s).
Proof.
  induction k as [| k IH]; intros s Hne; [constructor |].
  rewrite hand_out_step.
  pose proof (getIoService_state s) as [Hsv _].
  constructor; [apply getIoService_in_range; exact Hne |].
  rewrite <- Hsv. apply IH. rewrite Hsv. exact Hne.
Qed.

Lemma create_has_a_loop (num_threads : nat) (own_io : bool) :
  Service._services (Service.create num_threads own_io) <> [].
Proof.
  unfold Service.create.
  destruct (bool_decide (num_threads = 0%nat)) eqn:Hn; [discriminate |].
  apply bool_decide_eq_false in Hn.
  destruct own_io; simpl; [discriminate |].
  destruct num_threads; [congruence | discriminate].
Qed.

(** X10. Service::getIoService on a Service built by either constructor:
    however many calls are made (the counter wrapping included), every call
    returns one of the loops of [_services]; the index never leaves the
    vector. *)
Theorem getIoService_returns_a_loop_of_the_service :
  (forall (num_threads : nat) (own_io : bool) (k : nat),
     Forall (fun r => exists io,
               r = Some io
               /\ io ∈ Service._services (Service.create num_threads own_io))
            (Service.hand_out k (Service.create num_threads own_io)))
  /\ (forall (service : positive) (strands : bool) (k : nat),
        Forall (fun r => r = Some service)
               (Service.hand_out k (Service.adopt service strands))).
Proof.
  split.
  - intros n own k. apply hand_out_in_range. apply create_has_a_loop.
  - intros service strands k.
    eapply Forall_impl; [apply hand_out_in_range; discriminate |].
    simpl. intros r (io & -> & Hin).
    apply list_elem_of_singleton in Hin. subst io. reflexivity.
Qed.

Lemma hand_out_length (k : nat) : forall s : Service.t,
  length (Service.hand_out k s) = k.
Proof.
  induction k as [| k IH]; intros s; [reflexivity |].
  rewrite hand_out_step. simpl. rewrite IH. reflexivity.
Qed.

Lemma hand_out_lookup (k : nat) : forall (s : Service.t) (i : nat),
  Service._services s <> [] ->
  0 <= Service._rr_idx s ->
  Service._rr_idx s + Z.of_nat k < 2 ^ 64 ->
  (i < k)%nat ->
  Service.hand_out k s !! i
  = Some (Service._services s
            !! Z.to_nat ((Service._rr_idx s + 1 + Z.of_nat i)
                           mod Z.of_nat (length (Service._services s)))).
Proof.
  induction k as [| k IH]; intros s i Hne Hrr Hk Hi; [lia |].
  rewrite hand_out_step.
  pose proof (getIoService_state s) as [Hsv Hidx].
  rewrite wrap64_small in Hidx by lia.
  destruct i as [| i].
  - unfold Service.getIoService. simpl.
    rewrite bool_decide_eq_false_2 by exact Hne.
    rewrite wrap64_small by lia.
    rewrite Z.add_0_r. reflexivity.
  - change ((?x :: ?l) !! S i) with (l !! i).
    rewrite IH; [| rewrite Hsv; exact Hne | rewrite Hidx; lia | rewrite Hidx; lia | lia].
    rewrite Hsv, Hidx. do 3 f_equal. f_equal. lia.
Qed.

(** X11. Service::getIoService is a round robin: while the counter does
    not wrap, as many calls in a row as there are loops hand out every
    loop exactly once, in vector order, starting with the loop after the
    one the counter stands at. *)
Theorem getIoService_is_a_round_robin (s : Service.t) :
  Service._services s <> [] ->
  0 <= Service._rr_idx s ->
  Service._rr_idx s + Z.of_nat (length (Service._services s)) < 2 ^ 64 ->
  Service.hand_out (length (Service._services s)) s
  = map Some (rotate (Z.to_nat (Service._rr_idx s + 1)) (Service._services s))
  /\ Permutation (Service.hand_out (length (Service._services s)) s)
                 (map Some (Service._services s)).
Proof.
  intros Hne Hrr Hwrap.
  assert (Heq : Service.hand_out (length (Service._services s)) s
                = map Some (rotate (Z.to_nat (Service._rr_idx s + 1))
                                   (Service._services s))).
  { apply list_eq. intros i.
    destruct (decide (i < length (Service._services s))%nat) as [Hi | Hi].
    - rewrite hand_out_lookup by assumption.
      rewrite list_lookup_fmap, lookup_rotate_r by exact Hi.
      unfold rotate_nat_add.
      destruct (lookup_lt_is_Some_2 (Service._services s)
                  (Z.to_nat ((Z.of_nat (Z.to_nat (Service._rr_idx s + 1))
                              + Z.of_nat i)
                             mod Z.of_nat (length (Service._services s)))))
        as [io Hio].
      { pose proof (Z.mod_pos_bound
                      (Z.of_nat (Z.to_nat (Service._rr_idx s + 1)) + Z.of_nat i)
                      (Z.of_nat (length (Service._services s))) ltac:(lia)).
        lia. }
      rewrite Hio. simpl. rewrite Z2Nat.id in Hio by lia. rewrite Hio.
      reflexivity.
    - rewrite !lookup_ge_None_2; [reflexivity | |].
      + rewrite length_fmap, length_rotate. lia.
      + rewrite hand_out_length. lia. }
  split; [exact Heq |].
  rewrite Heq. apply fmap_Permutation. unfold rotate.
  etransitivity; [apply Permutation_app_comm |].
  rewrite take_drop. reflexivity.
Qed.

Lemma getIoService_is_a_round_robin_witness :
  Service.hand_out 3 (Service.create 3 false)
  = map Some (rotate (Z.to_nat (0 + 1)) (Service._services (Service.create 3 false)))
  /\ Permutation (Service.hand_out 3 (Service.create 3 false))
                 (map Some (Service._services (Service.create 3 false))).
Proof.
  apply (getIoService_is_a_round_robin (Service.create 3 false)).
  - discriminate.
  - simpl; lia.
  - simpl; lia.
Defined.

(** X12. The constructors of Service set [_strand_needed] whenever
    [Service::start] would run one loop on two threads: with a loop per
    thread no two threads share a loop, and with one loop for all threads
    the strand is on. *)
Theorem threads_share_a_loop_only_under_the_strand
    (num_threads : nat) (own_io : bool) (i j : nat) (io : option positive) :
  i <> j ->
  Service.thread_loops (Service.create num_threads own_io) !! i = Some io ->
  Service.thread_loops (Service.create num_threads own_io) !! j = Some io ->
  Service._strand_needed (Service.create num_threads own_io) = true.
Proof.
  intros Hij Hi Hj. unfold Service.create in *.
  destruct (bool_decide (num_threads = 0%nat)) eqn:Hn.
  - unfold Service.thread_loops in Hi. simpl in Hi. discriminate.
  - destruct own_io; simpl; [reflexivity |]. exfalso.
    apply bool_decide_eq_false in Hn.
    unfold Service.thread_loops in Hi, Hj. simpl in Hi, Hj.
    rewrite list_lookup_fmap in Hi, Hj.
    destruct (seq 0 num_threads !! i) as [a |] eqn:Ha; [| discriminate].
    destruct (seq 0 num_threads !! j) as [b |] eqn:Hb; [| discriminate].
    apply lookup_seq in Ha as [-> Hilt]. apply lookup_seq in Hb as [-> Hjlt].
    simpl in Hi, Hj.
    assert (Hsv : map Service.new_io_service (seq 0 num_threads) <> [])
      by (destruct num_threads; [congruence | discriminate]).
    rewrite bool_decide_eq_false_2 in Hi, Hj by exact Hsv.
    rewrite length_map, length_seq in Hi, Hj.
    rewrite Nat.mod_small in Hi, Hj by lia.
    rewrite list_lookup_fmap in Hi, Hj.
    rewrite lookup_seq_lt in Hi, Hj by lia. simpl in Hi, Hj.
    injection Hi as <-. injection Hj as Hj. apply (f_equal Some) in Hj.
    unfold Service.new_io_service in Hj. injection Hj as Hj.
    apply SuccNat2Pos.inj in Hj. lia.
Qed.

Lemma threads_share_a_loop_witness :
  Service._strand_needed (Service.create 2 true) = true.
Proof.
  apply (threads_share_a_loop_only_under_the_strand 2 true 0 1
           (Some (Service.new_io_service 0))).
  - lia.
  - reflexivity.
  - reflexivity.
Defined.

(** ** A Session under arbitrary use *)

Ltac split_tests :=
  repeat match goal with
         | |- context [if ?b then _ else _] => destruct b eqn:?; simpl
         end.

Lemma session_step_disconnected (NDEBUG : bool) (op : session_op) (s : Session.t) :
  Session.isConnected s = false ->
  exists s', session_step NDEBUG op s = Returned tt s' []
    /\ Session.isConnected s' = false
    /\ Session._send_buff_main s' = Session._send_buff_main s
    /\ Session._send_buff_flush s' = Session._send_buff_flush s
    /\ Session._send_flush_offset s' = Session._send_flush_offset s
    /\ Session._bytes_pending s' = Session._bytes_pending s
    /\ Session._bytes_sending s' = Session._bytes_sending s
    /\ Session._bytes_sent s' = Session._bytes_sent s
    /\ Session._bytes_received s' = Session._bytes_received s
    /\ Session._receive_buff s' = Session._receive_buff s.
Proof.
  intros Hc. unfold Session.isConnected in *. destruct s; simpl in *. subst.
  destruct op; simpl;
    unfold Session.sendAsync, Session.receiveAsync, Session.tryReceive,
      Session.disconnect, Session.trySend, Session.disconnect_handler,
      Session.tryReceive_handler, Session.trySend_handler, Session.isConnected;
    run_monad; rewrite ?orb_true_r; simpl; split_tests;
    eexists; (split; [reflexivity |]); simpl; repeat split; reflexivity.
Qed.

Ltac bool_hyps :=
  repeat match goal with
         | H : (_ && _) = true |- _ => apply andb_true_iff in H as [? ?]
         | H : (_ >? _) = true |- _ => rewrite Z.gtb_ltb in H; apply Z.ltb_lt in H
         | H : (_ >? _) = false |- _ => rewrite Z.gtb_ltb in H; apply Z.ltb_ge in H
         | H : (_ =? _) = true |- _ => apply Z.eqb_eq in H
         | H : (_ =? _) = false |- _ => apply Z.eqb_neq in H
         end.

Lemma session_step_accounts (NDEBUG : bool) (op : session_op) (s : Session.t) :
  step_accounts s (session_step NDEBUG op s).
Proof.
  unfold step_accounts, send_side_cleared, Session.isConnected.
  destruct s as [srv sn c bp bs bsent brecv rcv rl rb snd sl main fl off].
  destruct c, op; simpl;
    unfold Session.sendAsync, Session.receiveAsync, Session.tryReceive,
      Session.disconnect, Session.trySend, Session.disconnect_handler,
      Session.tryReceive_handler, Session.trySend_handler, Session.err,
      Session.clearBuffs, Session.tryReceive, Session.disconnect,
      Session.isConnected;
    run_monad; split_tests;
    unfold Session.tryReceive, Session.trySend, Session.isConnected;
    run_monad; split_tests;
    repeat split; try reflexivity; try discriminate; try lia;
    intros; try congruence; bool_hyps; rewrite ?vsize_resize; try lia.
Qed.

Lemma session_run_disconnected (NDEBUG : bool) (ops : list session_op) :
  forall s : Session.t,
  Session.isConnected s = false ->
  exists s', session_run NDEBUG ops s = Returned tt s' []
    /\ Session.isConnected s' = false
    /\ Session._send_buff_main s' = Session._send_buff_main s
    /\ Session._send_buff_flush s' = Session._send_buff_flush s
    /\ Session._send_flush_offset s' = Session._send_flush_offset s
    /\ Session._bytes_pending s' = Session._bytes_pending s
    /\ Session._bytes_sending s' = Session._bytes_sending s
    /\ Session._bytes_sent s' = Session._bytes_sent s
    /\ Session._bytes_received s' = Session._bytes_received s
    /\ Session._receive_buff s' = Session._receive_buff s.
Proof.
  induction ops as [| op ops IH]; intros s Hc.
  - exists s. simpl. unfold ret. repeat split; try reflexivity. exact Hc.
  - destruct (session_step_disconnected NDEBUG op s Hc)
      as (s1 & Hstep & Hc1 & H1 & H2 & H3 & H4 & H5 & H6 & H7 & H8).
    destruct (IH s1 Hc1) as (s2 & Hrun & Hc2 & G1 & G2 & G3 & G4 & G5 & G6 & G7 & G8).
    exists s2. simpl. unfold bind. rewrite Hstep, Hrun. simpl.
    split; [reflexivity |]. split; [exact Hc2 |].
    repeat split; congruence.
Qed.

Lemma session_run_cons (NDEBUG : bool) (op : session_op) (ops : list session_op)
    (s : Session.t) :
  (exists msg, session_step NDEBUG op s
               = Aborted msg (state_of (session_step NDEBUG op s))
                         (trace_of (session_step NDEBUG op s))
               /\ session_run NDEBUG (op :: ops) s = session_step NDEBUG op s)
  \/ (trace_of (session_run NDEBUG (op :: ops) s)
      = trace_of (session_step NDEBUG op s)
        ++ trace_of (session_run NDEBUG ops (state_of (session_step NDEBUG op s)))
      /\ state_of (session_run NDEBUG (op :: ops) s)
         = state_of (session_run NDEBUG ops (state_of (session_step NDEBUG op s)))).
Proof.
  simpl. unfold bind.
  destruct (session_step NDEBUG op s) as [[] s1 t1 | msg s1 t1]; simpl.
  - right.
    destruct (session_run NDEBUG ops s1) as [[] s2 t2 | msg s2 t2]; simpl;
      split; reflexivity.
  - left. exists msg. split; reflexivity.
Qed.

Lemma session_run_accounts (NDEBUG : bool) (ops : list session_op) :
  forall s : Session.t, step_accounts s (session_run NDEBUG ops s).
Proof.
  induction ops as [| op ops IH]; intros s.
  - unfold step_accounts, send_side_cleared. simpl.
    repeat split; try reflexivity; try lia; intros; congruence.
  - pose proof (session_step_accounts NDEBUG op s) as Hstep.
    destruct (session_run_cons NDEBUG op ops s) as [(msg & _ & ->) | [Htr Hst]];
      [exact Hstep |].
    specialize (IH (state_of (session_step NDEBUG op s))).
    set (o1 := session_step NDEBUG op s) in *.
    set (o2 := session_run NDEBUG ops (state_of o1)) in *.
    unfold step_accounts in *. rewrite Htr, Hst.
    destruct Hstep as (A1 & A2 & A3 & A4 & A5 & A6 & A7).
    destruct IH as (B1 & B2 & B3 & B4 & B5 & B6 & B7).
    rewrite !count_effects_app.
    refine (conj _ (conj _ (conj _ (conj _ (conj _ (conj _ _)))))).
    + lia.
    + lia.
    + lia.
    + lia.
    + congruence.
    + intros Hl. rewrite A5 in B6. specialize (A6 Hl). specialize (B6 Hl). lia.
    + intros Hc Hend.
      destruct (Session.isConnected (state_of o1)) eqn:Hc1.
      * apply B7; [reflexivity | exact Hend].
      * specialize (A7 Hc eq_refl).
        destruct (session_run_disconnected NDEBUG ops (state_of o1) Hc1)
          as (s2 & Hrun & _ & G1 & G2 & G3 & G4 & G5 & _).
        subst o2. rewrite Hrun. simpl.
        unfold send_side_cleared in *. destruct A7 as (C1 & C2 & C3 & C4 & C5).
        repeat split; congruence.
Qed.

(** X13. Over any sequence of calls, scheduled closures and completions
    on a Session, with any error codes and byte counts: [onDisconnect]
    fires exactly when the session goes from connected to disconnected, so
    at most once; the socket is closed, the server's [onDisconnect] is
    called and the unregister closure is dispatched exactly as often; and a
    session that was connected and is not any more holds empty send
    buffers and zero pending and sending counters. *)
Theorem session_disconnects_exactly_once
    (NDEBUG : bool) (ops : list session_op) (s : Session.t) :
  (count_effects is_OnDisconnect (trace_of (session_run NDEBUG ops s))
   + flag (Session.isConnected (state_of (session_run NDEBUG ops s)))
   = flag (Session.isConnected s))%nat
  /\ count_effects is_SocketClose (trace_of (session_run NDEBUG ops s))
     = count_effects is_OnDisconnect (trace_of (session_run NDEBUG ops s))
  /\ count_effects is_ServerOnDisconnect (trace_of (session_run NDEBUG ops s))
     = count_effects is_OnDisconnect (trace_of (session_run NDEBUG ops s))
  /\ count_effects is_Unregister (trace_of (session_run NDEBUG ops s))
     = count_effects is_OnDisconnect (trace_of (session_run NDEBUG ops s))
  /\ (Session.isConnected s = true ->
      Session.isConnected (state_of (session_run NDEBUG ops s)) = false ->
      send_side_cleared (state_of (session_run NDEBUG ops s))).
Proof.
  destruct (session_run_accounts NDEBUG ops s) as (A1 & A2 & A3 & A4 & _ & _ & A7).
  refine (conj A1 (conj A2 (conj A3 (conj A4 A7)))).
Qed.

(** X14. A Session that is not connected is silent: whatever is called
    on it and whatever completes, no hook fires, no read or write is armed,
    nothing is scheduled, no assertion fails, and its buffers and counters
    stay as they are. *)
Theorem disconnected_session_is_silent
    (NDEBUG : bool) (ops : list session_op) (s : Session.t) :
  Session.isConnected s = false ->
  exists s', session_run NDEBUG ops s = Returned tt s' []
    /\ Session.isConnected s' = false
    /\ Session._send_buff_main s' = Session._send_buff_main s
    /\ Session._send_buff_flush s' = Session._send_buff_flush s
    /\ Session._send_flush_offset s' = Session._send_flush_offset s
    /\ Session._bytes_pending s' = Session._bytes_pending s
    /\ Session._bytes_sending s' = Session._bytes_sending s
    /\ Session._bytes_sent s' = Session._bytes_sent s
    /\ Session._bytes_received s' = Session._bytes_received s
    /\ Session._receive_buff s' = Session._receive_buff s.
Proof. apply session_run_disconnected. Qed.

Lemma disconnected_session_is_silent_witness :
  exists s', session_run false broken_connection (Session.init a_server)
             = Returned tt s' []
    /\ Session.isConnected s' = false
    /\ Session._send_buff_main s' = Session._send_buff_main (Session.init a_server)
    /\ Session._send_buff_flush s' = Session._send_buff_flush (Session.init a_server)
    /\ Session._send_flush_offset s' = Session._send_flush_offset (Session.init a_server)
    /\ Session._bytes_pending s' = Session._bytes_pending (Session.init a_server)
    /\ Session._bytes_sending s' = Session._bytes_sending (Session.init a_server)
    /\ Session._bytes_sent s' = Session._bytes_sent (Session.init a_server)
    /\ Session._bytes_received s' = Session._bytes_received (Session.init a_server)
    /\ Session._receive_buff s' = Session._receive_buff (Session.init a_server).
Proof.
  apply (disconnected_session_is_silent false broken_connection
           (Session.init a_server)).
  reflexivity.
Defined.

(** X15. With a receive limit set, the receive buffer of a Session never
    grows past the limit: over any sequence of calls, closures and
    completions its size stays at most the larger of its size at the start
    and the limit, and the limit itself is not touched. *)
Theorem receive_buffer_stays_within_the_limit
    (NDEBUG : bool) (ops : list session_op) (s : Session.t) :
  0 < Session._receive_limit s ->
  vsize (Session._receive_buff (state_of (session_run NDEBUG ops s)))
  <= Z.max (vsize (Session._receive_buff s)) (Session._receive_limit s)
  /\ Session._receive_limit (state_of (session_run NDEBUG ops s))
     = Session._receive_limit s.
Proof.
  intros Hl.
  destruct (session_run_accounts NDEBUG ops s) as (_ & _ & _ & _ & A5 & A6 & _).
  split; [apply A6; exact Hl | exact A5].
Qed.

Lemma receive_buffer_stays_within_the_limit_witness :
  vsize (Session._receive_buff
           (state_of (session_run false
                        [ReadDone Asio.success 8; ReadDone Asio.success 16;
                         ReadDone Asio.success 32]
                        (receiving_session 40))))
  <= Z.max (vsize (Session._receive_buff (receiving_session 40)))
           (Session._receive_limit (receiving_session 40))
  /\ Session._receive_limit
       (state_of (session_run false
                    [ReadDone Asio.success 8; ReadDone Asio.success 16;
                     ReadDone Asio.success 32]
                    (receiving_session 40)))
     = Session._receive_limit (receiving_session 40).
Proof.
  apply (receive_buffer_stays_within_the_limit false
           [ReadDone Asio.success 8; ReadDone Asio.success 16;
            ReadDone Asio.success 32]
           (receiving_session 40)).
  vm_compute; reflexivity.
Defined.

(** ** Server: the registry and the accept loop *)

Lemma session_sendAsync_disconnected NDEBUG buf size s :
  Session.isConnected s = false ->
  Session.sendAsync NDEBUG buf size s = Returned false s [].
Proof.
  intros Hc. unfold Session.sendAsync. run_monad. rewrite Hc. reflexivity.
Qed.

Lemma in_key_order_Permutation (m : gmap positive Session.t) :
  Permutation (Server.in_key_order m) (map_to_list m).
Proof. unfold Server.in_key_order. apply merge_sort_Permutation. Qed.

Lemma in_key_order_sorted (m : gmap positive Session.t) :
  Sorted Server.key_le (Server.in_key_order m).
Proof.
  assert (Total Server.key_le) as Htotal
    by (intros a b; unfold Server.key_le; lia).
  unfold Server.in_key_order. apply (Sorted_merge_sort Server.key_le).
Qed.

Lemma in_key_order_elem (m : gmap positive Session.t) id sess :
  (id, sess) ∈ Server.in_key_order m -> m !! id = Some sess.
Proof.
  rewrite in_key_order_Permutation. apply elem_of_map_to_list.
Qed.

Lemma multicast_started NDEBUG bytes size s :
  Server.isStarted s = true -> 0 < size ->
  Server.multicast NDEBUG (buffer_at bytes) size s
  = Returned true
      (Server.set_sessions
         ((fun sess => state_of (Session.sendAsync NDEBUG (buffer_at bytes) size sess))
            <$> Server._sessions s) s)
      (concat (map (fun kv => trace_of (Session.sendAsync NDEBUG (buffer_at bytes)
                                          size kv.2))
                   (Server.in_key_order (Server._sessions s)))).
Proof.
  intros Hs Hsize. unfold Server.multicast, Server.emit_all. run_monad.
  rewrite Hs. simpl. rewrite eqb_false by lia.
  rewrite orb_true_r. simpl. rewrite app_nil_r. reflexivity.
Qed.

(** X16. Server::multicast on a started server with a non-empty payload
    returns true whatever the sessions answer, and reaches every registered
    session: a connected one under its send limit has the payload appended
    to send-main, a disconnected one and one over its limit are left as
    they are; no session is added or dropped, and the only effects are the
    [trySend] dispatches and the no-buffer-space reports of the sessions. *)
Theorem multicast_reaches_every_session
    (NDEBUG : bool) (bytes : list byte) (size : Z) (s : Server.t) :
  Server.isStarted s = true ->
  0 < size ->
  map_Forall (fun _ sess => vsize (Session._send_buff_main sess) + size < 2 ^ 64)
             (Server._sessions s) ->
  exists s' tr,
    Server.multicast NDEBUG (buffer_at bytes) size s = Returned true s' tr
    /\ (forall id sess, Server._sessions s !! id = Some sess ->
          exists sess', Server._sessions s' !! id = Some sess'
            /\ (Session.isConnected sess = false -> sess' = sess)
            /\ (Session.isConnected sess = true ->
                over_limit (Session._send_limit sess)
                           (vsize (Session._send_buff_main sess)) size ->
                sess' = sess)
            /\ (Session.isConnected sess = true ->
                ~ over_limit (Session._send_limit sess)
                             (vsize (Session._send_buff_main sess)) size ->
                sess' = session_appended sess bytes size))
    /\ (forall id, Server._sessions s !! id = None ->
          Server._sessions s' !! id = None)
    /\ Forall (fun e => e ∈ reported Asio.no_buffer_space
                        \/ exists via, e = Dispatch via TrySend) tr
    /\ Server.isStarted s' = true
    /\ Server._bytes_pending s' = Server._bytes_pending s.
Proof.
  intros Hs Hsize Hfit.
  eexists _, _. split; [apply multicast_started; assumption |].
  destruct s as [sn st pend sessions bp br bs ka nd ra rp]. simpl in *.
  refine (conj _ (conj _ (conj _ (conj Hs eq_refl)))).
  - intros id sess Hid. rewrite lookup_fmap, Hid. simpl.
    eexists. split; [reflexivity |].
    pose proof (Hfit id sess Hid) as Hroom. simpl in Hroom.
    refine (conj _ (conj _ _)).
    + intros Hc. rewrite session_sendAsync_disconnected by exact Hc. reflexivity.
    + intros Hc Hover.
      rewrite session_sendAsync_refused by assumption. reflexivity.
    + intros Hc Hok.
      rewrite session_sendAsync_accepted by assumption. reflexivity.
  - intros id Hid. rewrite lookup_fmap, Hid. reflexivity.
  - apply Forall_concat. apply Forall_fmap. apply Forall_forall.
    intros [id sess] Hin. apply in_key_order_elem in Hin. simpl.
    pose proof (Hfit id sess Hin) as Hroom. simpl in Hroom.
    destruct (Session.isConnected sess) eqn:Hc.
    + destruct (decide (over_limit (Session._send_limit sess)
                          (vsize (Session._send_buff_main sess)) size))
        as [Hover | Hok].
      * rewrite session_sendAsync_refused by assumption. simpl.
        apply Forall_forall. intros e He. left. exact He.
      * rewrite session_sendAsync_accepted by assumption. simpl.
        destruct (empty (Session._send_buff_main sess)
                  || empty (Session._send_buff_flush sess)); [| constructor].
        constructor; [| constructor]. right. eexists. reflexivity.
    + rewrite session_sendAsync_disconnected by exact Hc. constructor.
Qed.

Lemma multicast_reaches_every_session_witness :
  exists s' tr,
    Server.multicast false (buffer_at test_payload) 4 busy_server
    = Returned true s' tr
    /\ Server._sessions s' !! 1%positive
       = Some (session_appended idle_session test_payload 4)
    /\ Server._sessions s' !! 2%positive
       = Some (live_session 6 test_payload [] 0 false).
Proof.
  destruct (multicast_reaches_every_session false test_payload 4 busy_server)
    as (s' & tr & Hm & Hsess & _).
  - reflexivity.
  - lia.
  - apply map_Forall_insert_2; [vm_compute; reflexivity |].
    apply map_Forall_insert_2; [vm_compute; reflexivity |].
    apply map_Forall_empty.
  - exists s', tr. split; [exact Hm |]. split.
    + destruct (Hsess 1%positive idle_session eq_refl) as (sess' & Hl & _ & _ & Hok).
      rewrite Hl. f_equal. apply Hok; [reflexivity |].
      intros [Hlimit _]. vm_compute in Hlimit. discriminate.
    + destruct (Hsess 2%positive (live_session 6 test_payload [] 0 false) eq_refl)
        as (sess' & Hl & _ & Hover & _).
      rewrite Hl. f_equal. apply Hover; [reflexivity |].
      split; vm_compute; reflexivity.
Defined.

Lemma session_disconnect_state (dispatch : bool) (sess : Session.t) :
  state_of (Session.disconnect dispatch sess) = sess
  /\ trace_of (Session.disconnect false sess)
     = if Session.isConnected sess
       then [Post (executor_of (Session._strand_needed sess)) DisconnectHandler]
       else [].
Proof.
  unfold Session.disconnect. run_monad.
  destruct (Session.isConnected sess); simpl; [| split; reflexivity].
  destruct dispatch; split; reflexivity.
Qed.

(** X17. The closure of Server::disconnectAll on a started server posts
    the disconnect closure of every connected session, once each, and does
    nothing else: no session is closed, changed or unregistered by it, so
    the sessions are still connected when it returns. *)
Theorem disconnectAll_posts_one_closure_per_connected_session (s : Server.t) :
  Server.isStarted s = true ->
  exists tr,
    Server.disconnectAll_handler s = Returned tt s tr
    /\ Forall (fun e => is_PostDisconnect e = true) tr
    /\ length tr
       = length (filter (fun kv => Session.isConnected kv.2 = true)
                        (map_to_list (Server._sessions s))).
Proof.
  intros Hs. unfold Server.disconnectAll_handler, Server.emit_all. run_monad.
  rewrite Hs. simpl. rewrite app_nil_r.
  eexists. split; [| split].
  - f_equal. destruct s as [sn st pend sessions bp br bs ka nd ra rp]. simpl.
    f_equal. rewrite <- (map_fmap_id sessions) at 2.
    apply map_fmap_ext. intros id sess _.
    apply (session_disconnect_state false sess).
  - apply Forall_concat. apply Forall_fmap. apply Forall_forall.
    intros [id sess] _. simpl.
    rewrite (proj2 (session_disconnect_state false sess)).
    destruct (Session.isConnected sess); repeat constructor.
  - rewrite <- (in_key_order_Permutation (Server._sessions s)).
    induction (Server.in_key_order (Server._sessions s)) as [| [id sess] l IH];
      [reflexivity |].
    destruct (Session.isConnected sess) eqn:Hc.
    + rewrite filter_cons_True by exact Hc.
      simpl. rewrite length_app, IH.
      rewrite (proj2 (session_disconnect_state false sess)), Hc. reflexivity.
    + rewrite filter_cons_False by (simpl; congruence).
      simpl. rewrite length_app, IH.
      rewrite (proj2 (session_disconnect_state false sess)), Hc. reflexivity.
Qed.

Lemma disconnectAll_posts_witness :
  exists tr,
    Server.disconnectAll_handler busy_server = Returned tt busy_server tr
    /\ Forall (fun e => is_PostDisconnect e = true) tr
    /\ length tr = 2%nat.
Proof.
  destruct (disconnectAll_posts_one_closure_per_connected_session busy_server)
    as (tr & Hrun & Hall & Hlen); [reflexivity |].
  exists tr. split; [exact Hrun |]. split; [exact Hall |].
  rewrite Hlen. vm_compute. reflexivity.
Defined.

Lemma session_connect_fresh (so_rcvbuf : Z) (pending : Session.t) :
  0 <= so_rcvbuf ->
  Session.isConnected pending = false ->
  Session._receiving pending = false ->
  exists sess',
    Session.connect so_rcvbuf pending
    = Returned tt sess'
        ([SetOptions (Session.srv_keep_alive (Session._server pending))
                     (Session.srv_no_delay (Session._server pending));
          AsyncReadSome (executor_of (Session._strand_needed pending)) so_rcvbuf;
          OnConnect; ServerOnConnect]
         ++ (if empty (Session._send_buff_main pending) then [OnEmpty] else []))
    /\ Session.isConnected sess' = true
    /\ Session._receiving sess' = true
    /\ vsize (Session._receive_buff sess') = so_rcvbuf
    /\ Session._bytes_sent sess' = 0 /\ Session._bytes_received sess' = 0
    /\ Session._send_buff_main sess' = Session._send_buff_main pending.
Proof.
  intros Hrcv Hc Hr. unfold Session.isConnected in *.
  destruct pending; simpl in *; subst.
  unfold Session.connect, Session.tryReceive, Session.isConnected. run_monad.
  rewrite vsize_resize, Z2Nat.id by exact Hrcv.
  destruct (empty _send_buff_main); simpl;
    (eexists; split; [reflexivity |]); simpl;
    rewrite vsize_resize, Z2Nat.id by exact Hrcv; repeat split; reflexivity.
Qed.

(** X18. The completion of an accept on a started server: whatever the
    outcome, the server stays started and the accept closure is dispatched
    again as the last thing; an error leaves the server as it was and is
    reported unless it is one of the five disconnect codes; a success
    registers the new session under its id, connected, with its read armed
    on a receive buffer of the socket's size and its counters at zero, and
    fires the session's and the server's [onConnect] once. *)
Theorem accept_completion_rearms_the_accept
    (e : Asio.error_code) (pending : Session.t) (so_rcvbuf : Z)
    (s : Server.t) (id : positive) :
  Server.isStarted s = true ->
  Server._session s = Some id ->
  Server._sessions s !! id = None ->
  0 <= so_rcvbuf ->
  Session.isConnected pending = false ->
  Session._receiving pending = false ->
  exists s' tr,
    Server.accept_completed e pending so_rcvbuf s
    = Returned tt s'
        (tr ++ [Dispatch (executor_of (Server._strand_needed s)) AcceptHandler])
    /\ Server.isStarted s' = true
    /\ (Asio.is_error e = true ->
        s' = s /\ tr = if disconnect_error e then [] else reported e)
    /\ (Asio.is_error e = false ->
        (exists sess',
           Server.findSession id s' = Some sess'
           /\ Session.isConnected sess' = true
           /\ Session._receiving sess' = true
           /\ vsize (Session._receive_buff sess') = so_rcvbuf
           /\ Session._bytes_sent sess' = 0 /\ Session._bytes_received sess' = 0)
        /\ (forall other, other <> id ->
              Server.findSession other s' = Server.findSession other s)
        /\ count_effects is_OnConnect tr = 1%nat
        /\ count_effects is_AsyncReadSome tr = 1%nat
        /\ count_effects is_OnErr tr = 0%nat).
Proof.
  intros Hs Hpend Hfresh Hrcv Hc Hr.
  unfold Server.accept_completed, Server.registerSession, Server.accept,
    Server.err, Server.emit_all, Server.isStarted in *.
  destruct s as [sn st pend sessions bp br bs ka nd ra rp]. simpl in *.
  subst st pend.
  destruct (session_connect_fresh so_rcvbuf pending Hrcv Hc Hr)
    as (sess' & Hconn & Hc' & Hr' & Hbuf & Hsent & Hrecv & _).
  run_monad. destruct (Asio.is_error e) eqn:He; simpl.
  - eexists. exists (if disconnect_error e then [] else reported e).
    split; [destruct (disconnect_error e); reflexivity |].
    split; [destruct (disconnect_error e); reflexivity |].
    split; [| discriminate].
    intros _. split; [destruct (disconnect_error e) |]; reflexivity.
  - rewrite Hfresh. simpl. rewrite Hconn. simpl.
    eexists.
    exists ([SetOptions (Session.srv_keep_alive (Session._server pending))
                        (Session.srv_no_delay (Session._server pending));
             AsyncReadSome (executor_of (Session._strand_needed pending)) so_rcvbuf;
             OnConnect; ServerOnConnect]
            ++ (if empty (Session._send_buff_main pending) then [OnEmpty] else [])).
    split.
    { rewrite app_nil_r. reflexivity. }
    split; [reflexivity |]. split; [discriminate |]. intros _.
    unfold Server.findSession. simpl.
    refine (conj _ (conj _ _)).
    + exists sess'. rewrite insert_insert_eq, lookup_insert_eq.
      repeat split; assumption.
    + intros other Hne. rewrite insert_insert_eq.
      rewrite lookup_insert_ne by congruence. reflexivity.
    + destruct (empty (Session._send_buff_main pending)); repeat split; reflexivity.
Qed.

Lemma accept_completion_rearms_the_accept_witness :
  exists s' tr,
    Server.accept_completed Asio.success (Session.init a_server) 8 busy_server
    = Returned tt s' (tr ++ [Dispatch Io AcceptHandler])
    /\ Server.isStarted s' = true.
Proof.
  destruct (accept_completion_rearms_the_accept Asio.success
              (Session.init a_server) 8 busy_server 3%positive)
    as (s' & tr & Hrun & Hs & _).
  - reflexivity.
  - reflexivity.
  - reflexivity.
  - lia.
  - reflexivity.
  - reflexivity.
  - exists s', tr. split; [exact Hrun | exact Hs].
Defined.

(** X19. An accept completion that runs after the stop closure: with an
    error code the server is left as it is, the error is reported unless
    it is a disconnect code, and no further accept is armed; with success
    [registerSession] dereferences [_session], which the stop closure has
    reset, and the run ends there. *)
Theorem accept_completion_after_stop
    (e : Asio.error_code) (pending : Session.t) (so_rcvbuf : Z) (s : Server.t) :
  Server.isStarted s = true ->
  let stopped := state_of (Server.stop_handler s) in
  Server.isStarted stopped = false
  /\ (Asio.is_error e = true ->
      Server.accept_completed e pending so_rcvbuf stopped
      = Returned tt stopped (if disconnect_error e then [] else reported e))
  /\ (Asio.is_error e = false ->
      exists msg,
        Server.accept_completed e pending so_rcvbuf stopped
        = Aborted msg stopped []).
Proof.
  intros Hs. unfold Server.isStarted in *.
  destruct s as [sn st pend sessions bp br bs ka nd ra rp]. simpl in *. subst st.
  unfold Server.stop_handler, Server.disconnectAll, Server.clearMulticastBuffs,
    Server.isStarted.
  run_monad. split; [reflexivity |].
  unfold Server.accept_completed, Server.registerSession, Server.accept,
    Server.err, Server.emit_all, Server.isStarted.
  run_monad. split; intros He; rewrite He; simpl.
  - destruct (disconnect_error e); reflexivity.
  - eexists. reflexivity.
Qed.

Lemma accept_completion_after_stop_witness :
  Server.isStarted (state_of (Server.stop_handler busy_server)) = false
  /\ exists msg,
       Server.accept_completed Asio.success (Session.init a_server) 8
         (state_of (Server.stop_handler busy_server))
       = Aborted msg (state_of (Server.stop_handler busy_server)) [].
Proof.
  destruct (accept_completion_after_stop Asio.success (Session.init a_server) 8
              busy_server eq_refl) as (Hstopped & _ & Hnull).
  split; [exact Hstopped | exact (Hnull eq_refl)].
Defined.

Lemma run_task_accounts (throws : option acceptor_call) (k : task) (s : Server.t) :
  server_accounts s (Server.run_task throws k s)
  /\ (throws = None ->
      value_of (Server.run_task throws k s) = Some tt
      /\ count_effects is_AcceptorOpen (trace_of (Server.run_task throws k s))
         = count_effects is_OnStart (trace_of (Server.run_task throws k s))).
Proof.
  unfold server_accounts, Server.isStarted.
  destruct s as [sn st pend sessions bp br bs ka nd ra rp].
  destruct k;
    try (vm_compute; repeat split; intros; try reflexivity; try congruence; lia).
  - (* the start closure *)
    destruct st, ra, rp, throws as [[| [|] | |] |];
      vm_compute; repeat split; intros; try reflexivity; try congruence; lia.
  - (* the stop closure *)
    destruct st; vm_compute; repeat split; intros; try reflexivity;
      try congruence; lia.
Qed.

Lemma server_run_cons (throws : option acceptor_call) (k : task)
    (tasks : list (option acceptor_call * task)) (s : Server.t) :
  (value_of (Server.run_task throws k s) = None
   /\ server_run ((throws, k) :: tasks) s = Server.run_task throws k s)
  \/ (value_of (Server.run_task throws k s) = Some tt
      /\ trace_of (server_run ((throws, k) :: tasks) s)
         = trace_of (Server.run_task throws k s)
           ++ trace_of (server_run tasks (state_of (Server.run_task throws k s)))
      /\ state_of (server_run ((throws, k) :: tasks) s)
         = state_of (server_run tasks (state_of (Server.run_task throws k s)))
      /\ value_of (server_run ((throws, k) :: tasks) s)
         = value_of (server_run tasks (state_of (Server.run_task throws k s)))).
Proof.
  simpl. unfold bind.
  destruct (Server.run_task throws k s) as [[] s1 t1 | msg s1 t1]; simpl.
  - right. split; [reflexivity |].
    destruct (server_run tasks s1) as [[] s2 t2 | msg s2 t2]; simpl;
      repeat split; reflexivity.
  - left. split; reflexivity.
Qed.

(** X20. However many start and stop closures the reactor runs, in
    whatever order they were queued and whatever the acceptor does:
    [onStart] and [onStop] alternate (over any run the [onStart] calls,
    plus one if the server was started before, number the [onStop] calls,
    plus one if it is started after); [onStart] is called exactly once per
    [listen] that returned, so never without a listening acceptor; the
    acceptor is closed exactly once per [onStop]; a start closure whose
    [open], [set_option], [bind] or [listen] throws fires no hook and
    leaves the server not started, although [start()] has returned true;
    and when no acceptor call throws every closure returns and the
    acceptor is opened exactly once per [onStart]. *)
Theorem start_and_stop_hooks_alternate
    (tasks : list (option acceptor_call * task)) (s : Server.t) :
  server_accounts s (server_run tasks s)
  /\ (Forall (fun t => t.1 = None) tasks ->
      value_of (server_run tasks s) = Some tt
      /\ count_effects is_AcceptorOpen (trace_of (server_run tasks s))
         = count_effects is_OnStart (trace_of (server_run tasks s))).
Proof.
  revert s. induction tasks as [| [throws k] tasks IH]; intros s.
  - unfold server_accounts. simpl.
    repeat split; try reflexivity; try discriminate; lia.
  - destruct (run_task_accounts throws k s) as [Hstep Hgood].
    destruct (server_run_cons throws k tasks s)
      as [[Hfail Heq] | (Hok & Htr & Hst & Hval)].
    + rewrite Heq. split; [exact Hstep |].
      intros Hall. apply Forall_cons in Hall as [Hnone _]. simpl in Hnone.
      destruct (Hgood Hnone) as [Hret _]. congruence.
    + destruct (IH (state_of (Server.run_task throws k s))) as [Hrest Hrest_good].
      unfold server_accounts in *. rewrite Htr, Hst, Hval.
      destruct Hstep as (A1 & A2 & A3 & A4 & _).
      destruct Hrest as (B1 & B2 & B3 & B4 & B5).
      rewrite !count_effects_app. split.
      * refine (conj _ (conj _ (conj _ (conj _ B5)))); lia.
      * intros Hall. apply Forall_cons in Hall as [Hnone Hall]. simpl in Hnone.
        destruct (Hgood Hnone) as [_ Hopen].
        destruct (Hrest_good Hall) as [Hret Hopen'].
        split; [exact Hret | lia].
Qed.

(** The run [bind_fails_once]: the third closure ends at [bind]; the
    acceptor has been opened twice, [onStart] fired once, and the server
    is not started. *)
Example bind_fails_once_result :
  server_run bind_fails_once (Server.init false)
  = Aborted "asio::system_error thrown by the acceptor"
      (Server.init false)
      [AcceptorOpen; AcceptorBind; AcceptorListen; OnStart;
       Dispatch Io AcceptHandler;
       AcceptorClose; Dispatch Io DisconnectAll; OnStop;
       AcceptorOpen].
Proof. reflexivity. Qed.

(** ** Client: disconnect and reconnect *)

Lemma client_step_disconnected (NDEBUG : bool) (op : client_op) (c : Client.t) :
  Client.isConnected c = false ->
  exists c', client_step NDEBUG op c = Returned tt c' []
    /\ Client.isConnected c' = false
    /\ Client._connecting c' = Client._connecting c
    /\ Client._send_buff_main c' = Client._send_buff_main c
    /\ Client._send_buff_flush c' = Client._send_buff_flush c
    /\ Client._bytes_pending c' = Client._bytes_pending c
    /\ Client._bytes_sending c' = Client._bytes_sending c
    /\ Client._bytes_sent c' = Client._bytes_sent c
    /\ Client._bytes_received c' = Client._bytes_received c
    /\ Client._receive_buff c' = Client._receive_buff c.
Proof.
  intros Hc. unfold Client.isConnected in *. destruct c; simpl in *. subst.
  destruct op; simpl;
    unfold Client.sendAsync, Client.receiveAsync, Client.tryReceive,
      Client.disconnect_handler, Client.reconnect, Client.disconnectAsync,
      Client.disconnect, Client.trySend,
      Client.tryReceive_handler, Client.trySend_handler, Client.isReady,
      Client.isConnected;
    run_monad; rewrite ?orb_true_r; simpl; split_tests;
    eexists; (split; [reflexivity |]); simpl; repeat split; reflexivity.
Qed.

(** X21. A Client that is not connected is silent towards everything
    but the connect family: [sendAsync] of a readable buffer,
    [receiveAsync], [disconnect], [disconnectAsync], [reconnect], the
    scheduled closures and late completions fire no hook, arm no read or
    write and schedule nothing, and the buffers and counters stay as they
    are.  In particular [reconnect] does not connect a client whose
    connection was lost. *)
Theorem disconnected_client_is_silent
    (NDEBUG : bool) (ops : list client_op) (c : Client.t) :
  Client.isConnected c = false ->
  exists c', client_run NDEBUG ops c = Returned tt c' []
    /\ Client.isConnected c' = false
    /\ Client._connecting c' = Client._connecting c
    /\ Client._send_buff_main c' = Client._send_buff_main c
    /\ Client._send_buff_flush c' = Client._send_buff_flush c
    /\ Client._bytes_pending c' = Client._bytes_pending c
    /\ Client._bytes_sending c' = Client._bytes_sending c
    /\ Client._bytes_sent c' = Client._bytes_sent c
    /\ Client._bytes_received c' = Client._bytes_received c
    /\ Client._receive_buff c' = Client._receive_buff c.
Proof.
  revert c. induction ops as [| op ops IH]; intros c Hc.
  - exists c. simpl. unfold ret. repeat split; try reflexivity. exact Hc.
  - destruct (client_step_disconnected NDEBUG op c Hc)
      as (c1 & Hstep & Hc1 & H0 & H1 & H2 & H3 & H4 & H5 & H6 & H7).
    destruct (IH c1 Hc1) as (c2 & Hrun & Hc2 & G0 & G1 & G2 & G3 & G4 & G5 & G6 & G7).
    exists c2. simpl. unfold bind. rewrite Hstep, Hrun. simpl.
    split; [reflexivity |]. split; [exact Hc2 |].
    repeat split; congruence.
Qed.

Lemma disconnected_client_is_silent_witness :
  exists c',
    client_run false
      [ClReconnect Asio.success 8; ClSendAsync test_payload 4;
       ClReadDone Asio.operation_aborted 0; ClRunDisconnectHandler]
      (Client.init false)
    = Returned tt c' []
    /\ Client.isConnected c' = false.
Proof.
  destruct (disconnected_client_is_silent false
              [ClReconnect Asio.success 8; ClSendAsync test_payload 4;
               ClReadDone Asio.operation_aborted 0; ClRunDisconnectHandler]
              (Client.init false) eq_refl) as (c' & Hrun & Hc & _).
  exists c'. split; [exact Hrun | exact Hc].
Defined.

(** X22. Client::reconnect on a connected client: the connection is
    closed and [onDisconnect] fires; everything queued for sending is
    dropped, so a successful connect always fires [onEmpty] after
    [onConnect]; a failed connect fires [onDisconnect] a second time; the
    result is that of the connect; and no read is armed either way. *)
Theorem reconnect_of_a_connected_client
    (connect_result : Asio.error_code) (so_rcvbuf : Z) (c : Client.t) :
  Client.isConnected c = true ->
  exists c',
    Client.reconnect connect_result so_rcvbuf c
    = Returned (negb (Asio.is_error connect_result)) c'
        ([SocketClose; OnDisconnect]
         ++ (if Asio.is_error connect_result
             then (if disconnect_error connect_result then []
                   else reported connect_result) ++ [OnDisconnect]
             else [SetOptions (Client._keep_alive c) (Client._no_delay c);
                   OnConnect; OnEmpty]))
    /\ Client.isConnected c' = negb (Asio.is_error connect_result)
    /\ Client._receiving c' = false /\ Client._sending c' = false
    /\ Client._send_buff_main c' = [] /\ Client._send_buff_flush c' = []
    /\ Client._bytes_pending c' = 0 /\ Client._bytes_sending c' = 0.
Proof.
  intros Hc. unfold Client.isConnected in *. destruct c; simpl in *. subst.
  unfold Client.reconnect, Client.disconnect, Client.connect, Client.clearBuffs,
    Client.err, Client.isConnected.
  run_monad.
  destruct (Asio.is_error connect_result); simpl;
    [destruct (disconnect_error connect_result); simpl |];
    (eexists; split; [reflexivity |]); simpl; repeat split; reflexivity.
Qed.

Lemma reconnect_of_a_connected_client_witness :
  exists c',
    Client.reconnect Asio.connection_refused 8 reading_client
    = Returned false c' [SocketClose; OnDisconnect; OnDisconnect]
    /\ Client.isConnected c' = false.
Proof.
  destruct (reconnect_of_a_connected_client Asio.connection_refused 8
              reading_client eq_refl) as (c' & Hrun & Hc & _).
  exists c'. split; [exact Hrun | exact Hc].
Defined.

(** X23. Client::reconnect while a read is in flight: the close cancels
    the read, and when its completion runs after the new connection is up
    it finds the client ready again, so it cancels the new socket and
    dispatches the disconnect closure, which closes the new connection. *)
Theorem stale_completion_closes_the_new_connection
    (so_rcvbuf : Z) (c : Client.t) :
  Client.isConnected c = true ->
  let c1 := state_of (Client.reconnect Asio.success so_rcvbuf c) in
  let late := Client.tryReceive_handler Asio.operation_aborted 0 c1 in
  let closing := Client.disconnect_handler (state_of late) in
  Client.isConnected c1 = true
  /\ trace_of late
     = [SocketCancel;
        Dispatch (executor_of (Client._strand_needed c)) DisconnectHandler]
  /\ trace_of closing = [SocketClose; OnDisconnect]
  /\ Client.isConnected (state_of closing) = false.
Proof.
  intros Hc. unfold Client.isConnected in *. destruct c; simpl in *. subst.
  unfold Client.reconnect, Client.disconnect, Client.connect, Client.clearBuffs,
    Client.err, Client.isConnected, Client.tryReceive_handler,
    Client.disconnect_handler, Client.disconnectAsync, Client.disconnect,
    Client.clearBuffs, Client.isReady, Client.isConnected.
  run_monad. repeat split; reflexivity.
Qed.

Lemma stale_completion_witness :
  trace_of (Client.tryReceive_handler Asio.operation_aborted 0
              (state_of (Client.reconnect Asio.success 8 reading_client)))
  = [SocketCancel; Dispatch Io DisconnectHandler].
Proof.
  exact (proj1 (proj2 (stale_completion_closes_the_new_connection 8
                         reading_client eq_refl))).
Defined.

(** ** Timer: the completion of a wait *)

(** X24. A wait on a Timer, asynchronous or synchronous, makes exactly
    one report: [timerNotify(false)] when the timer elapsed,
    [timerNotify(true)] when the wait was canceled (and then no [onError]),
    [onError] for any other error (and then no [timerNotify]); [waitSync]
    returns true exactly when the timer elapsed. *)
Theorem timer_wait_reports_once (e : Asio.error_code) :
  Timer.async_wait_handler e = (Timer.waitSync e).2
  /\ (Timer.waitSync e).1 = negb (Asio.is_error e)
  /\ Timer.async_wait_handler e
     = if negb (Asio.is_error e) then [Timer.TimerNotify false]
       else if Asio.eqb e Asio.operation_aborted then [Timer.TimerNotify true]
       else [Timer.OnError (Asio.value e) (Asio.name (Asio.category e))
                           (Asio.message e)].
Proof.
  unfold Timer.async_wait_handler, Timer.waitSync, Timer.err.
  destruct (Asio.eqb e Asio.operation_aborted) eqn:Hab.
  - apply bool_decide_eq_true in Hab. subst e. repeat split; reflexivity.
  - destruct (Asio.is_error e); repeat split; reflexivity.
Qed.

(** ** Utils::CacheView *)

Lemma byte_to_N_compare_eq (c1 c2 : byte) :
  N.compare (Byte.to_N c1) (Byte.to_N c2) = Eq <-> c1 = c2.
Proof.
  rewrite N.compare_eq_iff. split; [| intros ->; reflexivity].
  intros H. apply (f_equal Byte.of_N) in H.
  rewrite !Byte.of_to_N in H. congruence.
Qed.

Lemma traits_compare_spec (n : nat) : forall a b : list byte,
  (n <= length a)%nat -> (n <= length b)%nat ->
  exists c,
    Utils.traits_compare (Some a) (Some b) n = Some c
    /\ (c = Eq <-> take n a = take n b)
    /\ Utils.traits_compare (Some b) (Some a) n = Some (CompOpp c).
Proof.
  induction n as [| n IH]; intros a b Ha Hb.
  - exists Eq. simpl. repeat split; reflexivity.
  - destruct a as [| c1 a]; [simpl in Ha; lia |].
    destruct b as [| c2 b]; [simpl in Hb; lia |].
    simpl in Ha, Hb. simpl.
    rewrite (N.compare_antisym (Byte.to_N c1) (Byte.to_N c2)).
    destruct (N.compare (Byte.to_N c1) (Byte.to_N c2)) eqn:Hcmp; simpl.
    + apply byte_to_N_compare_eq in Hcmp. subst c2.
      destruct (IH a b) as (c & Hc & Heq & Hopp); [lia | lia |].
      exists c. split; [exact Hc |]. split; [| exact Hopp].
      rewrite Heq. split; [intros ->; reflexivity | intros H; congruence].
    + exists Lt. split; [reflexivity |]. split; [| reflexivity].
      split; [discriminate |]. intros H. injection H as -> _.
      rewrite N.compare_refl in Hcmp. discriminate.
    + exists Gt. split; [reflexivity |]. split; [| reflexivity].
      split; [discriminate |]. intros H. injection H as -> _.
      rewrite N.compare_refl in Hcmp. discriminate.
Qed.

Lemma cache_view_chars (v : Utils.CacheView) :
  Utils.in_its_string v ->
  exists d, Utils.data v = Some d
    /\ Utils.to_string_view v = take (Z.to_nat (Utils._size v)) d
    /\ (Z.to_nat (Utils._size v) <= length d)%nat.
Proof.
  intros (str & Hstr & Hidx & Hsize & Hin).
  unfold Utils.data, Utils.to_string_view. rewrite Hstr.
  eexists. split; [reflexivity |]. split; [reflexivity |].
  rewrite length_drop, length_app. simpl. lia.
Qed.

(** X25. CacheViewSparseMapHash on two views that lie inside live
    strings: [compare] reads no char outside the views, is antisymmetric,
    and the equality operator returns true exactly when the two views hold
    the same chars (same length and same bytes), whichever way round it is
    called. *)
Theorem cache_views_are_equal_iff_they_hold_the_same_chars
    (view1 view2 : Utils.CacheView) :
  Utils.in_its_string view1 ->
  Utils.in_its_string view2 ->
  exists c,
    Utils.compare (Utils.data view1) (Utils._size view1)
                  (Utils.data view2) (Utils._size view2) = Some c
    /\ Utils.compare (Utils.data view2) (Utils._size view2)
                     (Utils.data view1) (Utils._size view1) = Some (CompOpp c)
    /\ (c = Eq <-> Utils.to_string_view view1 = Utils.to_string_view view2)
    /\ Utils.equal view1 view2 = Some (match c with Eq => true | _ => false end)
    /\ Utils.equal view2 view1 = Utils.equal view1 view2.
Proof.
  intros Hv1 Hv2.
  destruct (cache_view_chars view1 Hv1) as (d1 & Hd1 & Hs1 & Hl1).
  destruct (cache_view_chars view2 Hv2) as (d2 & Hd2 & Hs2 & Hl2).
  destruct Hv1 as (_ & _ & _ & Hn1 & _). destruct Hv2 as (_ & _ & _ & Hn2 & _).
  set (n1 := Utils._size view1) in *. set (n2 := Utils._size view2) in *.
  destruct (traits_compare_spec (Z.to_nat (Z.min n1 n2)) d1 d2)
    as (c & Hc & Heq & Hopp); [lia | lia |].
  assert (Hlen1 : length (take (Z.to_nat n1) d1) = Z.to_nat n1)
    by (rewrite length_take; lia).
  assert (Hlen2 : length (take (Z.to_nat n2) d2) = Z.to_nat n2)
    by (rewrite length_take; lia).
  assert (Hprefix : take (Z.to_nat n1) d1 = take (Z.to_nat n2) d2 ->
                    take (Z.to_nat (Z.min n1 n2)) d1
                    = take (Z.to_nat (Z.min n1 n2)) d2).
  { intros H. apply (f_equal (take (Z.to_nat (Z.min n1 n2)))) in H.
    rewrite !take_take in H.
    rewrite !Nat.min_l in H by lia. exact H. }
  assert (Hcases :
    exists r,
      Utils.compare (Some d1) n1 (Some d2) n2 = Some r
      /\ Utils.compare (Some d2) n2 (Some d1) n1 = Some (CompOpp r)
      /\ (r = Eq <-> take (Z.to_nat n1) d1 = take (Z.to_nat n2) d2)).
  { unfold Utils.compare. rewrite (Z.min_comm n2 n1), Hc, Hopp.
    destruct c; simpl.
    - destruct (Z.ltb_spec n1 n2) as [Hlt | Hge].
      + exists Lt. rewrite (proj2 (Z.ltb_ge n2 n1)) by lia.
        rewrite (proj2 (Z.eqb_neq n2 n1)) by lia.
        split; [reflexivity |]. split; [reflexivity |].
        split; [discriminate |]. intros H.
        apply (f_equal length) in H. lia.
      + destruct (Z.eqb_spec n1 n2) as [Hsame | Hdiff].
        * exists Eq. rewrite Hsame, Z.ltb_irrefl, Z.eqb_refl.
          split; [reflexivity |]. split; [reflexivity |].
          split; [intros _ | reflexivity].
          destruct Heq as [Heq _]. specialize (Heq eq_refl).
          rewrite Hsame, Z.min_id in Heq. exact Heq.
        * exists Gt. rewrite (proj2 (Z.ltb_lt n2 n1)) by lia.
          split; [reflexivity |]. split; [reflexivity |].
          split; [discriminate |]. intros H.
          apply (f_equal length) in H. lia.
    - exists Lt. split; [reflexivity |]. split; [reflexivity |].
      split; [discriminate |]. intros H. apply Hprefix in H.
      apply Heq in H. discriminate.
    - exists Gt. split; [reflexivity |]. split; [reflexivity |].
      split; [discriminate |]. intros H. apply Hprefix in H.
      apply Heq in H. discriminate. }
  destruct Hcases as (r & Hr & Hr' & Hiff).
  subst n1 n2. exists r. unfold Utils.equal. rewrite Hd1, Hd2, Hs1, Hs2, Hr, Hr'.
  split; [reflexivity |]. split; [reflexivity |]. split; [exact Hiff |].
  destruct r; split; reflexivity.
Qed.

Lemma cache_views_witness :
  Utils.equal (Utils.mk_cache_view (Some hello_world) 2 1)
              (Utils.mk_cache_view (Some hello_world) 9 1)
  = Some true.
Proof.
  destruct (cache_views_are_equal_iff_they_hold_the_same_chars
              (Utils.mk_cache_view (Some hello_world) 2 1)
              (Utils.mk_cache_view (Some hello_world) 9 1))
    as (c & _ & _ & Hsame & Heq & _).
  - exists hello_world. simpl. repeat split; lia.
  - exists hello_world. simpl. repeat split; lia.
  - rewrite Heq. rewrite (proj2 Hsame) by reflexivity. reflexivity.
Defined.

(** X26. CacheViewSparseMapHash::compare does not test whether the
    string behind a CacheView is still alive: for a view of an expired
    string whose size is not zero, compared with anything that is not
    empty, [data()] is [nullptr] and [char_traits::compare] reads through
    it, although the conversion to [string_view] of the same view is the
    empty view. *)
Theorem compare_reads_through_an_expired_view
    (view1 : Utils.CacheView) (data2 : option (list byte)) (size2 : Z) :
  Utils._str view1 = None ->
  0 < Utils._size view1 ->
  0 < size2 ->
  Utils.compare (Utils.data view1) (Utils._size view1) data2 size2 = None
  /\ Utils.compare data2 size2 (Utils.data view1) (Utils._size view1) = None
  /\ Utils.to_string_view view1 = [].
Proof.
  intros Hgone Hsize Hsize2.
  unfold Utils.compare, Utils.data, Utils.to_string_view. rewrite Hgone.
  assert (Hn : exists n, Z.to_nat (Z.min (Utils._size view1) size2) = S n).
  { exists (Z.to_nat (Z.min (Utils._size view1) size2) - 1)%nat. lia. }
  destruct Hn as [n Hn]. rewrite (Z.min_comm size2), Hn. simpl.
  split; [reflexivity |]. split; [| reflexivity].
  destruct data2 as [[| c2 d2] |]; reflexivity.
Qed.

Lemma compare_reads_through_an_expired_view_witness :
  Utils.compare (Utils.data (Utils.mk_cache_view None 0 5)) 5
                (Some hello_world) 5 = None.
Proof.
  apply (compare_reads_through_an_expired_view
           (Utils.mk_cache_view None 0 5) (Some hello_world) 5).
  - reflexivity.
  - reflexivity.
  - reflexivity.
Defined.

(** ** SSL::Client: connect, handshake, disconnect *)

Lemma ssl_plain_err (ssl : OpenSSL) (e : Asio.error_code) (c : SslClient.t) :
  exists errs,
    SslClient.plain (SslClient.err ssl e) c = SslClient.Done tt c errs
    /\ at_most_the_report e errs.
Proof.
  unfold SslClient.plain. rewrite ssl_client_err_spec.
  eexists. split; [reflexivity |]. unfold at_most_the_report.
  match goal with |- context [if ?b then _ else _] => destruct b end;
    [left | right]; reflexivity.
Qed.

Ltac run_ssl :=
  unfold SslClient.sbind, SslClient.sget, SslClient.smodify, SslClient.semit,
    SslClient.sret, SslClient.on_base; simpl.

Ltac report_of_err ssl :=
  match goal with
  | |- context [SslClient.plain (SslClient.err ssl ?e) ?c] =>
      let errs := fresh "errs" in
      let Hrun := fresh "Hrun" in
      let Hat := fresh "Hat" in
      destruct (ssl_plain_err ssl e c) as (errs & Hrun & Hat);
      rewrite Hrun; simpl
  end.

(** X27. SSL::Client::connect whose TCP connect succeeds and whose
    handshake fails returns false after [onConnect] and [onDisconnect],
    but closes nothing and leaves [_connected] set: the client is
    connected, not handshaked and not ready; every further [connect] and
    [connectAsync] is refused without effect; only [disconnect] gets it
    out of this state, and fires [onDisconnect] a second time. *)
Theorem failed_handshake_leaves_the_client_connected
    (ssl : OpenSSL) (handshake_err : Asio.error_code) (so_rcvbuf : Z)
    (c : SslClient.t) :
  SslClient.cannot_connect c = false ->
  Asio.is_error handshake_err = true ->
  exists c' errs,
    SslClient.connect ssl Asio.success handshake_err so_rcvbuf c
    = SslClient.Done false c'
        ([SslClient.NewStream;
          SslClient.Plain (SetOptions (Client._keep_alive (SslClient.base c))
                                      (Client._no_delay (SslClient.base c)));
          SslClient.Plain OnConnect]
         ++ errs ++ [SslClient.Plain OnDisconnect])
    /\ at_most_the_report handshake_err errs
    /\ Client.isConnected (SslClient.base c') = true
    /\ SslClient.hasHandshaked c' = false
    /\ SslClient.isReady c' = false
    /\ (forall e1 e2 rcv, SslClient.connect ssl e1 e2 rcv c' = SslClient.Done false c' [])
    /\ SslClient.connectAsync c' = SslClient.Done false c' []
    /\ exists c'',
         SslClient.disconnect c'
         = SslClient.Done true c''
             [SslClient.Plain SocketClose; SslClient.Plain OnDisconnect]
         /\ SslClient.cannot_connect c'' = false.
Proof.
  intros Hfree Hfail.
  unfold SslClient.cannot_connect, SslClient.hasHandshaked, Client.isConnected in Hfree.
  destruct c as [b hk hd]. destruct b. simpl in Hfree.
  apply orb_false_iff in Hfree as [Hfree ->].
  apply orb_false_iff in Hfree as [Hfree ->].
  apply orb_false_iff in Hfree as [-> ->].
  unfold SslClient.connect, SslClient.established, SslClient.cannot_connect,
    SslClient.hasHandshaked, Client.isConnected.
  run_ssl. rewrite Hfail. simpl.
  report_of_err ssl.
  eexists _, errs. split; [reflexivity |]. split; [exact Hat |].
  unfold SslClient.isReady, SslClient.hasHandshaked, Client.isConnected. simpl.
  split; [reflexivity |]. split; [reflexivity |]. split; [reflexivity |].
  split; [intros e1 e2 rcv; reflexivity |]. split; [reflexivity |].
  unfold SslClient.disconnect, SslClient.cannot_disconnect, Client.disconnect,
    Client.clearBuffs, Client.isConnected.
  run_ssl. run_monad. eexists. split; reflexivity.
Qed.

Lemma failed_handshake_witness :
  exists c',
    SslClient.connectAsync c' = SslClient.Done false c' []
    /\ Client.isConnected (SslClient.base c') = true
    /\ SslClient.isReady c' = false.
Proof.
  destruct (failed_handshake_leaves_the_client_connected openssl_1_1_1
              certificate_verify_failed 8 new_ssl_client eq_refl eq_refl)
    as (c' & errs & _ & _ & Hc & _ & Hr & _ & Hrefused & _).
  exists c'. split; [exact Hrefused |]. split; [exact Hc | exact Hr].
Defined.

(** X28. An asynchronous connect of an SSL client whose handshake fails
    undoes itself: the handshake completion reports the error (unless
    benign) and dispatches the disconnect closure, the closure cancels the
    socket and starts the TLS shutdown, and the shutdown completion closes
    the socket; [onConnect] and [onDisconnect] fire once each, and the
    client ends disconnected and free to connect again. *)
Theorem failed_async_handshake_disconnects_the_client
    (ssl : OpenSSL) (handshake_err shut_err : Asio.error_code) (so_rcvbuf : Z)
    (c : SslClient.t) :
  SslClient.cannot_connect c = false ->
  Asio.is_error handshake_err = true ->
  exists c' errs,
    failed_async_handshake ssl handshake_err shut_err so_rcvbuf c
    = SslClient.Done tt c'
        ([SslClient.Plain
            (AsyncConnect (executor_of (Client._strand_needed (SslClient.base c))));
          SslClient.Plain (SetOptions (Client._keep_alive (SslClient.base c))
                                      (Client._no_delay (SslClient.base c)));
          SslClient.Plain OnConnect;
          SslClient.AsyncHandshake
            (executor_of (Client._strand_needed (SslClient.base c)))]
         ++ errs
         ++ [SslClient.Plain
               (Dispatch (executor_of (Client._strand_needed (SslClient.base c)))
                         DisconnectHandler);
             SslClient.Plain SocketCancel;
             SslClient.AsyncShutdown
               (executor_of (Client._strand_needed (SslClient.base c)));
             SslClient.Plain SocketClose;
             SslClient.Plain OnDisconnect])
    /\ at_most_the_report handshake_err errs
    /\ Client.isConnected (SslClient.base c') = false
    /\ SslClient.cannot_connect c' = false.
Proof.
  intros Hfree Hfail.
  unfold SslClient.cannot_connect, SslClient.hasHandshaked, Client.isConnected in Hfree.
  destruct c as [b hk hd]. destruct b. simpl in Hfree.
  apply orb_false_iff in Hfree as [Hfree ->].
  apply orb_false_iff in Hfree as [Hfree ->].
  apply orb_false_iff in Hfree as [-> ->].
  unfold failed_async_handshake, SslClient.connect_handler, SslClient.connectEndpoint,
    SslClient.handshake_handler, SslClient.disconnectAsync,
    SslClient.disconnect_handler, SslClient.shutdown_handler, SslClient.disconnect,
    SslClient.established, SslClient.cannot_connect, SslClient.cannot_disconnect,
    SslClient.hasHandshaked, Client.isConnected.
  run_ssl. run_monad. rewrite Hfail. simpl.
  report_of_err ssl.
  unfold Client.disconnect, Client.clearBuffs, Client.isConnected.
  run_monad.
  eexists _, errs. split; [rewrite <- !app_assoc; reflexivity |].
  split; [exact Hat |]. split; reflexivity.
Qed.

Lemma failed_async_handshake_witness :
  exists c' errs,
    failed_async_handshake openssl_1_1_1 certificate_verify_failed Asio.eof 8
      new_ssl_client
    = SslClient.Done tt c'
        ([SslClient.Plain (AsyncConnect Io);
          SslClient.Plain (SetOptions false false);
          SslClient.Plain OnConnect;
          SslClient.AsyncHandshake Io]
         ++ errs
         ++ [SslClient.Plain (Dispatch Io DisconnectHandler);
             SslClient.Plain SocketCancel;
             SslClient.AsyncShutdown Io;
             SslClient.Plain SocketClose;
             SslClient.Plain OnDisconnect])
    /\ SslClient.cannot_connect c' = false.
Proof.
  destruct (failed_async_handshake_disconnects_the_client openssl_1_1_1
              certificate_verify_failed Asio.eof 8 new_ssl_client eq_refl eq_refl)
    as (c' & errs & Hrun & _ & _ & Hfree).
  exists c', errs. split; [exact Hrun | exact Hfree].
Defined.

Lemma ssl_call_step_wedged (ssl : OpenSSL) (op : ssl_call) (c : SslClient.t) :
  SslClient._handshaking c = true \/ Client._connecting (SslClient.base c) = true ->
  SslClient.isReady c = false ->
  ssl_call_step ssl op c = SslClient.Done tt c [].
Proof.
  intros Hbusy Hready.
  assert (Hd : SslClient.cannot_disconnect c = true).
  { unfold SslClient.cannot_disconnect.
    destruct Hbusy as [-> | ->]; rewrite ?orb_true_r; reflexivity. }
  assert (Hc : SslClient.cannot_connect c = true).
  { unfold SslClient.cannot_connect.
    destruct Hbusy as [-> | ->]; rewrite ?orb_true_r; reflexivity. }
  destruct op; simpl;
    unfold SslClient.disconnect, SslClient.disconnectAsync,
      SslClient.disconnect_handler, SslClient.connect, SslClient.connectAsync,
      SslClient.connect_handler, SslClient.reconnect, SslClient.disconnect,
      SslClient.tryReceive;
    unfold SslClient.sbind, SslClient.sget, SslClient.sret;
    rewrite ?Hd, ?Hc, ?Hready, ?orb_true_r; reflexivity.
Qed.

(** X29. Nothing in the public interface of an SSL client interrupts a
    connect or a handshake in progress: while [_connecting] or
    [_handshaking] is set, [disconnect], [disconnectAsync] and its closure,
    [connect], [connectAsync] and its closure, [reconnect] and
    [receiveAsync] all return without any effect and leave the client as
    it is; only the completion of the pending operation ends this state. *)
Theorem nothing_interrupts_a_pending_handshake
    (ssl : OpenSSL) (ops : list ssl_call) (c : SslClient.t) :
  SslClient._handshaking c = true \/ Client._connecting (SslClient.base c) = true ->
  SslClient.isReady c = false ->
  ssl_calls ssl ops c = SslClient.Done tt c [].
Proof.
  intros Hbusy Hready. induction ops as [| op ops IH]; [reflexivity |].
  simpl. unfold SslClient.sbind.
  rewrite ssl_call_step_wedged by assumption. rewrite IH. reflexivity.
Qed.

Lemma nothing_interrupts_a_pending_handshake_witness :
  ssl_calls openssl_1_1_1
    [SslDisconnectAsync true; SslDisconnect; SslReconnect Asio.success Asio.success 8;
     SslConnectAsync]
    (SslClient.set_handshaking true new_ssl_client)
  = SslClient.Done tt (SslClient.set_handshaking true new_ssl_client) [].
Proof.
  apply (nothing_interrupts_a_pending_handshake openssl_1_1_1
           [SslDisconnectAsync true; SslDisconnect;
            SslReconnect Asio.success Asio.success 8; SslConnectAsync]
           (SslClient.set_handshaking true new_ssl_client)).
  - left. reflexivity.
  - reflexivity.
Defined.

(** X30. An asynchronous connect of an SSL client that goes well: the
    hooks fire in the order [onConnect], [onHandshaked], [onEmpty] (the
    last only if nothing is queued), the first read is armed between
    [onHandshaked] and [onEmpty] on a receive buffer of the socket's size,
    and the client ends ready; the synchronous [connect] fires the same
    hooks but arms no read. *)
Theorem good_handshake_makes_the_client_ready
    (ssl : OpenSSL) (so_rcvbuf : Z) (c : SslClient.t) :
  SslClient.cannot_connect c = false ->
  Client._receiving (SslClient.base c) = false ->
  0 <= so_rcvbuf ->
  (exists c',
     good_async_handshake ssl so_rcvbuf c
     = SslClient.Done tt c'
         ([SslClient.Plain
             (AsyncConnect (executor_of (Client._strand_needed (SslClient.base c))));
           SslClient.Plain (SetOptions (Client._keep_alive (SslClient.base c))
                                       (Client._no_delay (SslClient.base c)));
           SslClient.Plain OnConnect;
           SslClient.AsyncHandshake
             (executor_of (Client._strand_needed (SslClient.base c)));
           SslClient.OnHandshaked;
           SslClient.Plain
             (AsyncReadSome (executor_of (Client._strand_needed (SslClient.base c)))
                            so_rcvbuf)]
          ++ (if empty (Client._send_buff_main (SslClient.base c))
              then [SslClient.Plain OnEmpty] else []))
     /\ SslClient.isReady c' = true
     /\ Client._receiving (SslClient.base c') = true)
  /\ (exists c',
        SslClient.connect ssl Asio.success Asio.success so_rcvbuf c
        = SslClient.Done true c'
            ([SslClient.NewStream;
              SslClient.Plain (SetOptions (Client._keep_alive (SslClient.base c))
                                          (Client._no_delay (SslClient.base c)));
              SslClient.Plain OnConnect;
              SslClient.OnHandshaked]
             ++ (if empty (Client._send_buff_main (SslClient.base c))
                 then [SslClient.Plain OnEmpty] else []))
        /\ SslClient.isReady c' = true
        /\ Client._receiving (SslClient.base c') = false).
Proof.
  intros Hfree Hrecv Hrcv.
  unfold SslClient.cannot_connect, SslClient.hasHandshaked, Client.isConnected in Hfree.
  destruct c as [b hk hd]. destruct b. simpl in Hfree, Hrecv. subst.
  apply orb_false_iff in Hfree as [Hfree ->].
  apply orb_false_iff in Hfree as [Hfree ->].
  apply orb_false_iff in Hfree as [-> ->].
  unfold good_async_handshake, SslClient.connect_handler, SslClient.connectEndpoint,
    SslClient.handshake_handler, SslClient.connect, SslClient.tryReceive,
    SslClient.established, SslClient.cannot_connect, SslClient.isReady,
    SslClient.hasHandshaked, Client.isConnected.
  run_ssl. run_monad. rewrite vsize_resize, Z2Nat.id by exact Hrcv.
  split; destruct (empty _send_buff_main); simpl;
    (eexists; split; [reflexivity |]); split; reflexivity.
Qed.

Lemma good_handshake_witness :
  exists c',
    good_async_handshake openssl_1_1_1 8 new_ssl_client
    = SslClient.Done tt c'
        [SslClient.Plain (AsyncConnect Io);
         SslClient.Plain (SetOptions false false);
         SslClient.Plain OnConnect;
         SslClient.AsyncHandshake Io;
         SslClient.OnHandshaked;
         SslClient.Plain (AsyncReadSome Io 8);
         SslClient.Plain OnEmpty]
    /\ SslClient.isReady c' = true.
Proof.
  destruct (good_handshake_makes_the_client_ready openssl_1_1_1 8 new_ssl_client
              eq_refl eq_refl) as [(c' & Hrun & Hready & _) _]; [lia |].
  exists c'. split; [exact Hrun | exact Hready].
Defined.
